(** * rgbkeypad: a shallow embedding of [lib/rgbkeypad.py]

    The development follows the layout of the Python module: the pure
    helpers [xy_to_number] and [number_to_xy], the class [Key] and the
    class [RGBKeyPad].  Python objects become records,
    methods become functions that thread the mutated object (and the
    LED strip it shares with the keypad), exceptions become the [Raise]
    branch of a result type, and every call of [time.monotonic()] is an
    explicit argument carrying the value that call returned.

    Numbers: Python [int]s are [Z].  Python [float]s (the time stamps
    [time.monotonic()] returns, the durations computed from them and
    the thresholds they are compared with) are IEEE 754 binary64
    numbers, here Rocq's primitive [float]: [x - y] is the rounded
    subtraction and [x < y] the comparison of the standard, false when
    a side is NaN.  The attributes the source initialises with the
    integers 0 and 1 and compares with floats ([time_held_for],
    [led_sleep_time]) hold the floats 0 and 1, which compare the same
    way. *)

From Stdlib Require Import ZArith PrimFloat Lia.
From stdpp Require Import base option list gmap strings.

Set Warnings "-inexact-float".

Unset Default Proof Using.
Open Scope Z_scope.

(** ** Python values and exceptions *)

(** The exceptions the modelled code can raise by itself. *)
Inductive exn : Type :=
| TypeError    (* calling [None], subscripting [None] *)
| KeyError     (* dictionary lookup of a missing key *)
| IndexError.  (* sequence subscript out of range *)

Inductive Res (A : Type) : Type :=
| Ok (a : A)
| Raise (e : exn).
Arguments Ok {A} a.
Arguments Raise {A} e.

#[global] Instance Res_ret : MRet Res := fun A a => Ok a.
#[global] Instance Res_bind : MBind Res := fun A B f m =>
  match m with
  | Ok a => f a
  | Raise e => Raise e
  end.

Definition returns {A : Type} (m : Res A) : Prop :=
  match m with Ok _ => True | Raise _ => False end.

(** Truthiness of a Python integer used as a condition. *)
Definition truthy (z : Z) : bool := negb (z =? 0).

(** Truthiness of an attribute holding [None], [False] or [True]. *)
Definition truthy_opt (o : option bool) : bool :=
  match o with Some true => true | _ => false end.

(** [seq[i]] for a sequence of length [n]: negative indices count from
    the end, anything outside [-n .. n-1] raises [IndexError]. *)
Definition py_index (n : nat) (i : Z) : Res nat :=
  if (0 <=? i) && (i <? Z.of_nat n) then Ok (Z.to_nat i)
  else if (- Z.of_nat n <=? i) && (i <? 0) then Ok (Z.to_nat (i + Z.of_nat n))
  else Raise IndexError.

Definition py_getitem {A : Type} (l : list A) (i : Z) : Res A :=
  j ← py_index (length l) i;
  match l !! j with
  | Some a => Ok a
  | None => Raise IndexError
  end.

Definition py_setitem {A : Type} (l : list A) (i : Z) (a : A) : Res (list A) :=
  j ← py_index (length l) i;
  Ok (<[j := a]> l).

(** [x < y] on floats ([y > x] in the source), as a boolean. *)
Definition Fltb (x y : float) : bool := (x <? y)%float.

(** ** Module-level constants and helpers *)

Definition NUM_KEYS : Z := 16.
Definition ENABLE_SLEEP : bool := true.

Definition xy_to_number (x y : Z) : Z := x + (y * 4).

Definition number_to_xy (number : Z) : Z * Z :=
  let x := number mod 4 in
  let y := number / 4 in
  (x, y).


(** ** Colours, the LED strip and handlers *)

(** A colour as the source passes it around: the three arguments
    [r, g, b] of [set_led], the list [self.rgb], a pixel of the strip. *)
Abbreviation RGB := (Z * Z * Z)%type.

Definition black : RGB := (0, 0, 0).

(** [[r, g, b] == [0, 0, 0]] *)
Definition is_black (c : RGB) : bool :=
  let '(r, g, b) := c in (r =? 0) && (g =? 0) && (b =? 0).

(** Modelled from the spec: the LED collaborator [write_led(index, r, g, b)],
    which the source reaches as [self.pixels[self.number] = (r, g, b)] on
    an [adafruit_dotstar.DotStar] strip that is not part of the sources.
    The strip is one object shared by the keypad and all of its keys: a
    sequence of pixels subscripted like any Python sequence, each write
    shown at once ([auto_write=True]). *)
Abbreviation Pixels := (list RGB).

Definition write_led (index : Z) (c : RGB) (px : Pixels) : Res Pixels :=
  py_setitem px index c.

(** A Python function object registered as a handler.  The tables of a
    key hold such objects (or [None]); what calling one does is given
    separately, by the environment [call] below, because a handler
    receives the very key that stores it. *)
Inductive callable : Type := Fn (id : nat).

#[global] Instance callable_eq_dec : EqDecision callable.
Proof. solve_decision. Defined.

(** Which handler class a call came from; [update] logs one entry per
    handler it invokes, in order. *)
Inductive event : Type :=
| PressCall (f : callable)
| ReleaseCall (f : callable)
| HoldCall (f : callable).

Definition is_press (e : event) : bool :=
  match e with PressCall _ => true | _ => false end.
Definition is_release (e : event) : bool :=
  match e with ReleaseCall _ => true | _ => false end.
Definition is_hold (e : event) : bool :=
  match e with HoldCall _ => true | _ => false end.

Definition count (p : event -> bool) (log : list event) : nat :=
  length (filter (fun e => p e = true) log).

(** ** class Key *)

Module Key.

Record t : Type := mk {
  number : Z;
  current_state : Z;
  board_state : string;
  key_state : Z;
  pressed : Z;
  last_state : option bool;
  time_of_last_press : float;
  time_since_last_press : option float;
  time_held_for : float;
  held : bool;
  hold_time : float;
  modifier : bool;
  rgb : RGB;
  lit : bool;
  xy : Z * Z;
  x : Z;
  y : Z;
  press_functions : option (gmap string (option callable));
  release_functions : option (gmap string (option callable));
  hold_functions : option (gmap string (option callable));
  press_func_fired : bool;
  hold_func_fired : bool;
  debounce : float;
  key_locked : bool
}.

Definition with_current_state (v : Z) (k : t) : t :=
  {| number := number k; current_state := v; board_state := board_state k;
     key_state := key_state k; pressed := pressed k;
     last_state := last_state k; time_of_last_press := time_of_last_press k;
     time_since_last_press := time_since_last_press k;
     time_held_for := time_held_for k; held := held k;
     hold_time := hold_time k; modifier := modifier k; rgb := rgb k;
     lit := lit k; xy := xy k; x := x k; y := y k;
     press_functions := press_functions k;
     release_functions := release_functions k;
     hold_functions := hold_functions k;
     press_func_fired := press_func_fired k;
     hold_func_fired := hold_func_fired k; debounce := debounce k;
     key_locked := key_locked k |}.

Definition with_board_state (v : string) (k : t) : t :=
  {| number := number k; current_state := current_state k; board_state := v;
     key_state := key_state k; pressed := pressed k;
     last_state := last_state k; time_of_last_press := time_of_last_press k;
     time_since_last_press := time_since_last_press k;
     time_held_for := time_held_for k; held := held k;
     hold_time := hold_time k; modifier := modifier k; rgb := rgb k;
     lit := lit k; xy := xy k; x := x k; y := y k;
     press_functions := press_functions k;
     release_functions := release_functions k;
     hold_functions := hold_functions k;
     press_func_fired := press_func_fired k;
     hold_func_fired := hold_func_fired k; debounce := debounce k;
     key_locked := key_locked k |}.

Definition with_key_state (v : Z) (k : t) : t :=
  {| number := number k; current_state := current_state k;
     board_state := board_state k; key_state := v; pressed := pressed k;
     last_state := last_state k; time_of_last_press := time_of_last_press k;
     time_since_last_press := time_since_last_press k;
     time_held_for := time_held_for k; held := held k;
     hold_time := hold_time k; modifier := modifier k; rgb := rgb k;
     lit := lit k; xy := xy k; x := x k; y := y k;
     press_functions := press_functions k;
     release_functions := release_functions k;
     hold_functions := hold_functions k;
     press_func_fired := press_func_fired k;
     hold_func_fired := hold_func_fired k; debounce := debounce k;
     key_locked := key_locked k |}.

Definition with_pressed (v : Z) (k : t) : t :=
  {| number := number k; current_state := current_state k;
     board_state := board_state k; key_state := key_state k; pressed := v;
     last_state := last_state k; time_of_last_press := time_of_last_press k;
     time_since_last_press := time_since_last_press k;
     time_held_for := time_held_for k; held := held k;
     hold_time := hold_time k; modifier := modifier k; rgb := rgb k;
     lit := lit k; xy := xy k; x := x k; y := y k;
     press_functions := press_functions k;
     release_functions := release_functions k;
     hold_functions := hold_functions k;
     press_func_fired := press_func_fired k;
     hold_func_fired := hold_func_fired k; debounce := debounce k;
     key_locked := key_locked k |}.

Definition with_last_state (v : option bool) (k : t) : t :=
  {| number := number k; current_state := current_state k;
     board_state := board_state k; key_state := key_state k;
     pressed := pressed k; last_state := v;
     time_of_last_press := time_of_last_press k;
     time_since_last_press := time_since_last_press k;
     time_held_for := time_held_for k; held := held k;
     hold_time := hold_time k; modifier := modifier k; rgb := rgb k;
     lit := lit k; xy := xy k; x := x k; y := y k;
     press_functions := press_functions k;
     release_functions := release_functions k;
     hold_functions := hold_functions k;
     press_func_fired := press_func_fired k;
     hold_func_fired := hold_func_fired k; debounce := debounce k;
     key_locked := key_locked k |}.

Definition with_time_of_last_press (v : float) (k : t) : t :=
  {| number := number k; current_state := current_state k;
     board_state := board_state k; key_state := key_state k;
     pressed := pressed k; last_state := last_state k;
     time_of_last_press := v;
     time_since_last_press := time_since_last_press k;
     time_held_for := time_held_for k; held := held k;
     hold_time := hold_time k; modifier := modifier k; rgb := rgb k;
     lit := lit k; xy := xy k; x := x k; y := y k;
     press_functions := press_functions k;
     release_functions := release_functions k;
     hold_functions := hold_functions k;
     press_func_fired := press_func_fired k;
     hold_func_fired := hold_func_fired k; debounce := debounce k;
     key_locked := key_locked k |}.

Definition with_time_since_last_press (v : option float) (k : t) : t :=
  {| number := number k; current_state := current_state k;
     board_state := board_state k; key_state := key_state k;
     pressed := pressed k; last_state := last_state k;
     time_of_last_press := time_of_last_press k; time_since_last_press := v;
     time_held_for := time_held_for k; held := held k;
     hold_time := hold_time k; modifier := modifier k; rgb := rgb k;
     lit := lit k; xy := xy k; x := x k; y := y k;
     press_functions := press_functions k;
     release_functions := release_functions k;
     hold_functions := hold_functions k;
     press_func_fired := press_func_fired k;
     hold_func_fired := hold_func_fired k; debounce := debounce k;
     key_locked := key_locked k |}.

Definition with_time_held_for (v : float) (k : t) : t :=
  {| number := number k; current_state := current_state k;
     board_state := board_state k; key_state := key_state k;
     pressed := pressed k; last_state := last_state k;
     time_of_last_press := time_of_last_press k;
     time_since_last_press := time_since_last_press k; time_held_for := v;
     held := held k; hold_time := hold_time k; modifier := modifier k;
     rgb := rgb k; lit := lit k; xy := xy k; x := x k; y := y k;
     press_functions := press_functions k;
     release_functions := release_functions k;
     hold_functions := hold_functions k;
     press_func_fired := press_func_fired k;
     hold_func_fired := hold_func_fired k; debounce := debounce k;
     key_locked := key_locked k |}.

Definition with_held (v : bool) (k : t) : t :=
  {| number := number k; current_state := current_state k;
     board_state := board_state k; key_state := key_state k;
     pressed := pressed k; last_state := last_state k;
     time_of_last_press := time_of_last_press k;
     time_since_last_press := time_since_last_press k;
     time_held_for := time_held_for k; held := v; hold_time := hold_time k;
     modifier := modifier k; rgb := rgb k; lit := lit k; xy := xy k;
     x := x k; y := y k; press_functions := press_functions k;
     release_functions := release_functions k;
     hold_functions := hold_functions k;
     press_func_fired := press_func_fired k;
     hold_func_fired := hold_func_fired k; debounce := debounce k;
     key_locked := key_locked k |}.

Definition with_hold_time (v : float) (k : t) : t :=
  {| number := number k; current_state := current_state k;
     board_state := board_state k; key_state := key_state k;
     pressed := pressed k; last_state := last_state k;
     time_of_last_press := time_of_last_press k;
     time_since_last_press := time_since_last_press k;
     time_held_for := time_held_for k; held := held k; hold_time := v;
     modifier := modifier k; rgb := rgb k; lit := lit k; xy := xy k;
     x := x k; y := y k; press_functions := press_functions k;
     release_functions := release_functions k;
     hold_functions := hold_functions k;
     press_func_fired := press_func_fired k;
     hold_func_fired := hold_func_fired k; debounce := debounce k;
     key_locked := key_locked k |}.

Definition with_rgb (v : RGB) (k : t) : t :=
  {| number := number k; current_state := current_state k;
     board_state := board_state k; key_state := key_state k;
     pressed := pressed k; last_state := last_state k;
     time_of_last_press := time_of_last_press k;
     time_since_last_press := time_since_last_press k;
     time_held_for := time_held_for k; held := held k;
     hold_time := hold_time k; modifier := modifier k; rgb := v;
     lit := lit k; xy := xy k; x := x k; y := y k;
     press_functions := press_functions k;
     release_functions := release_functions k;
     hold_functions := hold_functions k;
     press_func_fired := press_func_fired k;
     hold_func_fired := hold_func_fired k; debounce := debounce k;
     key_locked := key_locked k |}.

Definition with_lit (v : bool) (k : t) : t :=
  {| number := number k; current_state := current_state k;
     board_state := board_state k; key_state := key_state k;
     pressed := pressed k; last_state := last_state k;
     time_of_last_press := time_of_last_press k;
     time_since_last_press := time_since_last_press k;
     time_held_for := time_held_for k; held := held k;
     hold_time := hold_time k; modifier := modifier k; rgb := rgb k;
     lit := v; xy := xy k; x := x k; y := y k;
     press_functions := press_functions k;
     release_functions := release_functions k;
     hold_functions := hold_functions k;
     press_func_fired := press_func_fired k;
     hold_func_fired := hold_func_fired k; debounce := debounce k;
     key_locked := key_locked k |}.

Definition with_press_functions (v : option (gmap string (option callable))) (k : t) : t :=
  {| number := number k; current_state := current_state k;
     board_state := board_state k; key_state := key_state k;
     pressed := pressed k; last_state := last_state k;
     time_of_last_press := time_of_last_press k;
     time_since_last_press := time_since_last_press k;
     time_held_for := time_held_for k; held := held k;
     hold_time := hold_time k; modifier := modifier k; rgb := rgb k;
     lit := lit k; xy := xy k; x := x k; y := y k; press_functions := v;
     release_functions := release_functions k;
     hold_functions := hold_functions k;
     press_func_fired := press_func_fired k;
     hold_func_fired := hold_func_fired k; debounce := debounce k;
     key_locked := key_locked k |}.

Definition with_release_functions (v : option (gmap string (option callable))) (k : t) : t :=
  {| number := number k; current_state := current_state k;
     board_state := board_state k; key_state := key_state k;
     pressed := pressed k; last_state := last_state k;
     time_of_last_press := time_of_last_press k;
     time_since_last_press := time_since_last_press k;
     time_held_for := time_held_for k; held := held k;
     hold_time := hold_time k; modifier := modifier k; rgb := rgb k;
     lit := lit k; xy := xy k; x := x k; y := y k;
     press_functions := press_functions k; release_functions := v;
     hold_functions := hold_functions k;
     press_func_fired := press_func_fired k;
     hold_func_fired := hold_func_fired k; debounce := debounce k;
     key_locked := key_locked k |}.

Definition with_hold_functions (v : option (gmap string (option callable))) (k : t) : t :=
  {| number := number k; current_state := current_state k;
     board_state := board_state k; key_state := key_state k;
     pressed := pressed k; last_state := last_state k;
     time_of_last_press := time_of_last_press k;
     time_since_last_press := time_since_last_press k;
     time_held_for := time_held_for k; held := held k;
     hold_time := hold_time k; modifier := modifier k; rgb := rgb k;
     lit := lit k; xy := xy k; x := x k; y := y k;
     press_functions := press_functions k;
     release_functions := release_functions k; hold_functions := v;
     press_func_fired := press_func_fired k;
     hold_func_fired := hold_func_fired k; debounce := debounce k;
     key_locked := key_locked k |}.

Definition with_press_func_fired (v : bool) (k : t) : t :=
  {| number := number k; current_state := current_state k;
     board_state := board_state k; key_state := key_state k;
     pressed := pressed k; last_state := last_state k;
     time_of_last_press := time_of_last_press k;
     time_since_last_press := time_since_last_press k;
     time_held_for := time_held_for k; held := held k;
     hold_time := hold_time k; modifier := modifier k; rgb := rgb k;
     lit := lit k; xy := xy k; x := x k; y := y k;
     press_functions := press_functions k;
     release_functions := release_functions k;
     hold_functions := hold_functions k; press_func_fired := v;
     hold_func_fired := hold_func_fired k; debounce := debounce k;
     key_locked := key_locked k |}.

Definition with_hold_func_fired (v : bool) (k : t) : t :=
  {| number := number k; current_state := current_state k;
     board_state := board_state k; key_state := key_state k;
     pressed := pressed k; last_state := last_state k;
     time_of_last_press := time_of_last_press k;
     time_since_last_press := time_since_last_press k;
     time_held_for := time_held_for k; held := held k;
     hold_time := hold_time k; modifier := modifier k; rgb := rgb k;
     lit := lit k; xy := xy k; x := x k; y := y k;
     press_functions := press_functions k;
     release_functions := release_functions k;
     hold_functions := hold_functions k;
     press_func_fired := press_func_fired k; hold_func_fired := v;
     debounce := debounce k; key_locked := key_locked k |}.

Definition with_debounce (v : float) (k : t) : t :=
  {| number := number k; current_state := current_state k;
     board_state := board_state k; key_state := key_state k;
     pressed := pressed k; last_state := last_state k;
     time_of_last_press := time_of_last_press k;
     time_since_last_press := time_since_last_press k;
     time_held_for := time_held_for k; held := held k;
     hold_time := hold_time k; modifier := modifier k; rgb := rgb k;
     lit := lit k; xy := xy k; x := x k; y := y k;
     press_functions := press_functions k;
     release_functions := release_functions k;
     hold_functions := hold_functions k;
     press_func_fired := press_func_fired k;
     hold_func_fired := hold_func_fired k; debounce := v;
     key_locked := key_locked k |}.

Definition with_key_locked (v : bool) (k : t) : t :=
  {| number := number k; current_state := current_state k;
     board_state := board_state k; key_state := key_state k;
     pressed := pressed k; last_state := last_state k;
     time_of_last_press := time_of_last_press k;
     time_since_last_press := time_since_last_press k;
     time_held_for := time_held_for k; held := held k;
     hold_time := hold_time k; modifier := modifier k; rgb := rgb k;
     lit := lit k; xy := xy k; x := x k; y := y k;
     press_functions := press_functions k;
     release_functions := release_functions k;
     hold_functions := hold_functions k;
     press_func_fired := press_func_fired k;
     hold_func_fired := hold_func_fired k; debounce := debounce k;
     key_locked := v |}.

(** What a handler call does: it receives the key, and through it the
    shared strip, and may mutate both. *)
Definition handler_env : Type := callable -> t -> Pixels -> t * Pixels.

(** The state the methods of a key work on: the key object, the strip it
    references, and the log of handler calls made so far. *)
Definition St : Type := t * Pixels * list event.

(** *** LED methods (lines 349-393) *)

(** [set_led], lines 349-358.  The attributes are updated before the
    strip is written. *)
Definition set_led (r g b : Z) (k : t) (px : Pixels) : Res (t * Pixels) :=
  let k :=
    if is_black (r, g, b) then with_lit false k
    else with_rgb (r, g, b) (with_lit true k) in
  px ← write_led (number k) (r, g, b) px;
  Ok (k, px).

(** [led_on], lines 360-364. *)
Definition led_on (k : t) (px : Pixels) : Res (t * Pixels) :=
  let '(r, g, b) := rgb k in
  set_led r g b k px.

(** [led_off], lines 366-369. *)
Definition led_off (k : t) (px : Pixels) : Res (t * Pixels) :=
  set_led 0 0 0 k px.

(** [led_state], lines 371-381; [state] is the value of [int(state)]. *)
Definition led_state (state : Z) (k : t) (px : Pixels) : Res (t * Pixels) :=
  if state =? 0 then led_off k px
  else if state =? 1 then led_on k px
  else Ok (k, px).

(** [toggle_led], lines 383-393; [None] is the default argument. *)
Definition toggle_led (colour : option RGB) (k : t) (px : Pixels)
  : Res (t * Pixels) :=
  let k := match colour with Some c => with_rgb c k | None => k end in
  if lit k then led_off k px else led_on k px.

(** *** Coordinates and flags (lines 330-347) *)

(** [get_xy], lines 330-333. *)
Definition get_xy (k : t) : Z * Z := number_to_xy (number k).

(** [get_number], lines 335-338: recomputed from the stored
    coordinates. *)
Definition get_number (k : t) : Z := xy_to_number (x k) (y k).

(** [is_modifier], lines 340-347. *)
Definition is_modifier (k : t) : bool :=
  if modifier k then true else false.

(** *** Construction (lines 244-269) *)

(** [Key(number, pixels, key_state, board_state)]; [now] is the value
    [time.monotonic()] returns at line 252.  [self.led_off()] at line
    262 writes the strip. *)
Definition init (number_ : Z) (px : Pixels) (key_state_ : Z)
    (board_state_ : string) (now : float) : Res (t * Pixels) :=
  let xy_ := number_to_xy number_ in
  let k :=
    {| number := number_; current_state := key_state_;
       board_state := board_state_; key_state := 0; pressed := 0;
       last_state := None; time_of_last_press := now;
       time_since_last_press := None; time_held_for := 0%float; held := false;
       hold_time := 0.75%float; modifier := false; rgb := (0, 0, 0);
       lit := false; xy := xy_; x := fst xy_; y := snd xy_;
       press_functions := None; release_functions := None;
       hold_functions := None; press_func_fired := false;
       hold_func_fired := false; debounce := 0.125%float;
       key_locked := false |} in
  '(k, px) ← led_off k px;
  let k := with_press_functions (Some {[ "default"%string := None ]}) k in
  let k := with_release_functions (Some {[ "default"%string := None ]}) k in
  let k := with_hold_functions (Some {[ "default"%string := None ]}) k in
  Ok (k, px).

(** *** update (lines 272-328) *)

Section Update.

Variable call : handler_env.

(** [table[self.board_state](self)]: the subscript raises [KeyError]
    when the mode has no entry, the call raises [TypeError] when the
    entry is [None]. *)
Definition invoke (mk : callable -> event)
    (table : gmap string (option callable)) (s : St) : Res St :=
  let '(k, px, log) := s in
  match table !! board_state k with
  | None => Raise KeyError
  | Some None => Raise TypeError
  | Some (Some f) =>
      let '(k, px) := call f k px in
      Ok (k, px, log ++ [mk f])
  end.

(** Lines 275-284: the debounce lock and the copy of [current_state];
    [t0] is the clock value read at line 275. *)
Definition sample (t0 : float) (k : t) : t :=
  let since := (t0 - time_of_last_press k)%float in
  let k := with_time_since_last_press (Some since) k in
  let k := with_key_locked (Fltb since (debounce k)) k in
  let k := with_key_state (current_state k) k in
  with_pressed (key_state k) k.

(** Lines 289-291. *)
Definition press_phase (s : St) : Res St :=
  let '(k, px, log) := s in
  match press_functions k with
  | Some table =>
      if truthy (pressed k) && negb (press_func_fired k)
         && negb (key_locked k)
      then
        '(k, px, log) ← invoke PressCall table (k, px, log);
        Ok (with_press_func_fired true k, px, log)
      else Ok s
  | None => Ok s
  end.

(** Lines 296-300. *)
Definition release_phase (s : St) : Res St :=
  let '(k, px, log) := s in
  if negb (truthy (pressed k)) && truthy_opt (last_state k) then
    '(k, px, log) ←
      match release_functions k with
      | Some table => invoke ReleaseCall table (k, px, log)
      | None => Ok (k, px, log)
      end;
    let k := with_last_state (Some false) k in
    Ok (with_press_func_fired false k, px, log)
  else Ok s.

(** Lines 302-316; [t1] is [update_time], the clock value read at line
    285. *)
Definition timing_phase (t1 : float) (k : t) : t :=
  if negb (truthy (pressed k)) then
    with_last_state (Some false) (with_time_held_for 0%float k)
  else if truthy (pressed k) && negb (truthy_opt (last_state k)) then
    with_last_state (Some true) (with_time_of_last_press t1 k)
  else if truthy (pressed k) && truthy_opt (last_state k) then
    with_last_state (Some true)
      (with_time_held_for (t1 - time_of_last_press k)%float k)
  else k.

(** Lines 321-328. *)
Definition hold_phase (s : St) : Res St :=
  let '(k, px, log) := s in
  if Fltb (hold_time k) (time_held_for k) then
    let k := with_held true k in
    match hold_functions k with
    | Some table =>
        if negb (hold_func_fired k) then
          '(k, px, log) ← invoke HoldCall table (k, px, log);
          Ok (with_hold_func_fired true k, px, log)
        else Ok (k, px, log)
    | None => Ok (k, px, log)
    end
  else Ok (with_hold_func_fired false (with_held false k), px, log).

(** [Key.update]: the two clock reads of lines 275 and 285 are [t0] and
    [t1]. *)
Definition update (t0 t1 : float) (s : St) : Res St :=
  let '(k, px, log) := s in
  s ← press_phase (sample t0 k, px, log);
  '(k, px, log) ← release_phase s;
  hold_phase (timing_phase t1 k, px, log).

End Update.

End Key.

(** ** class RGBKeyPad *)

Module RGBKeyPad.

Record t : Type := mk {
  pixels : Pixels;
  states : list Z;
  time_of_last_press : float;
  time_since_last_press : option float;
  last_led_states : option (list RGB);
  led_sleep_enabled : bool;
  led_sleep_time : float;
  sleeping : bool;
  was_asleep : bool;
  keys : list Key.t
}.

Definition with_pixels (v : Pixels) (kp : t) : t :=
  {| pixels := v; states := states kp;
     time_of_last_press := time_of_last_press kp;
     time_since_last_press := time_since_last_press kp;
     last_led_states := last_led_states kp;
     led_sleep_enabled := led_sleep_enabled kp;
     led_sleep_time := led_sleep_time kp; sleeping := sleeping kp;
     was_asleep := was_asleep kp; keys := keys kp |}.

Definition with_states (v : list Z) (kp : t) : t :=
  {| pixels := pixels kp; states := v;
     time_of_last_press := time_of_last_press kp;
     time_since_last_press := time_since_last_press kp;
     last_led_states := last_led_states kp;
     led_sleep_enabled := led_sleep_enabled kp;
     led_sleep_time := led_sleep_time kp; sleeping := sleeping kp;
     was_asleep := was_asleep kp; keys := keys kp |}.

Definition with_time_of_last_press (v : float) (kp : t) : t :=
  {| pixels := pixels kp; states := states kp; time_of_last_press := v;
     time_since_last_press := time_since_last_press kp;
     last_led_states := last_led_states kp;
     led_sleep_enabled := led_sleep_enabled kp;
     led_sleep_time := led_sleep_time kp; sleeping := sleeping kp;
     was_asleep := was_asleep kp; keys := keys kp |}.

Definition with_time_since_last_press (v : option float) (kp : t) : t :=
  {| pixels := pixels kp; states := states kp;
     time_of_last_press := time_of_last_press kp; time_since_last_press := v;
     last_led_states := last_led_states kp;
     led_sleep_enabled := led_sleep_enabled kp;
     led_sleep_time := led_sleep_time kp; sleeping := sleeping kp;
     was_asleep := was_asleep kp; keys := keys kp |}.

Definition with_last_led_states (v : option (list RGB)) (kp : t) : t :=
  {| pixels := pixels kp; states := states kp;
     time_of_last_press := time_of_last_press kp;
     time_since_last_press := time_since_last_press kp; last_led_states := v;
     led_sleep_enabled := led_sleep_enabled kp;
     led_sleep_time := led_sleep_time kp; sleeping := sleeping kp;
     was_asleep := was_asleep kp; keys := keys kp |}.

Definition with_led_sleep_enabled (v : bool) (kp : t) : t :=
  {| pixels := pixels kp; states := states kp;
     time_of_last_press := time_of_last_press kp;
     time_since_last_press := time_since_last_press kp;
     last_led_states := last_led_states kp; led_sleep_enabled := v;
     led_sleep_time := led_sleep_time kp; sleeping := sleeping kp;
     was_asleep := was_asleep kp; keys := keys kp |}.

Definition with_led_sleep_time (v : float) (kp : t) : t :=
  {| pixels := pixels kp; states := states kp;
     time_of_last_press := time_of_last_press kp;
     time_since_last_press := time_since_last_press kp;
     last_led_states := last_led_states kp;
     led_sleep_enabled := led_sleep_enabled kp; led_sleep_time := v;
     sleeping := sleeping kp; was_asleep := was_asleep kp; keys := keys kp |}.

Definition with_sleeping (v : bool) (kp : t) : t :=
  {| pixels := pixels kp; states := states kp;
     time_of_last_press := time_of_last_press kp;
     time_since_last_press := time_since_last_press kp;
     last_led_states := last_led_states kp;
     led_sleep_enabled := led_sleep_enabled kp;
     led_sleep_time := led_sleep_time kp; sleeping := v;
     was_asleep := was_asleep kp; keys := keys kp |}.

Definition with_was_asleep (v : bool) (kp : t) : t :=
  {| pixels := pixels kp; states := states kp;
     time_of_last_press := time_of_last_press kp;
     time_since_last_press := time_since_last_press kp;
     last_led_states := last_led_states kp;
     led_sleep_enabled := led_sleep_enabled kp;
     led_sleep_time := led_sleep_time kp; sleeping := sleeping kp;
     was_asleep := v; keys := keys kp |}.

Definition with_keys (v : list Key.t) (kp : t) : t :=
  {| pixels := pixels kp; states := states kp;
     time_of_last_press := time_of_last_press kp;
     time_since_last_press := time_since_last_press kp;
     last_led_states := last_led_states kp;
     led_sleep_enabled := led_sleep_enabled kp;
     led_sleep_time := led_sleep_time kp; sleeping := sleeping kp;
     was_asleep := was_asleep kp; keys := v |}.

(** [range(n)] *)
Definition range (n : Z) : list Z := Z.of_nat <$> seq 0 (Z.to_nat n).

(** [for _key in self.keys: body(_key)], for a body that mutates the
    key and the shared strip. *)
Fixpoint each_key (body : Key.t -> Pixels -> Res (Key.t * Pixels))
    (ks : list Key.t) (px : Pixels) : Res (list Key.t * Pixels) :=
  match ks with
  | [] => Ok ([], px)
  | k :: ks =>
      '(k, px) ← body k px;
      '(ks, px) ← each_key body ks px;
      Ok (k :: ks, px)
  end.

(** [self.keys[i].method(...)]: the key is looked up, mutated in place
    together with the strip. *)
Definition on_key (i : Z) (body : Key.t -> Pixels -> Res (Key.t * Pixels))
    (kp : t) : Res t :=
  j ← py_index (length (keys kp)) i;
  match keys kp !! j with
  | None => Raise IndexError
  | Some k =>
      '(k, px) ← body k (pixels kp);
      Ok (with_pixels px (with_keys (<[j := k]> (keys kp)) kp))
  end.

(** *** Construction (lines 51-74) *)

(** [now] is the clock value read at line 63 and [key_clock i] the one
    read by the constructor of key [i].  The strip starts dark. *)
Fixpoint make_keys (numbers : list Z) (states_ : list Z)
    (key_clock : nat -> float) (n : nat) (px : Pixels)
  : Res (list Key.t * Pixels) :=
  match numbers with
  | [] => Ok ([], px)
  | i :: rest =>
      st ← py_getitem states_ i;
      '(k, px) ← Key.init i px st "default" (key_clock n);
      '(ks, px) ← make_keys rest states_ key_clock (S n) px;
      Ok (k :: ks, px)
  end.

Definition init (now : float) (key_clock : nat -> float) : Res t :=
  let px := replicate 16 black in
  let states_ := replicate 16 0 in
  '(ks, px) ← make_keys (range NUM_KEYS) states_ key_clock 0 px;
  Ok {| pixels := px; states := states_; time_of_last_press := now;
        time_since_last_press := None; last_led_states := None;
        led_sleep_enabled := true; led_sleep_time := 1%float;
        sleeping := false; was_asleep := false; keys := ks |}.

(** *** Queries (lines 143-163) *)

Definition get_states (kp : t) : list Z := Key.key_state <$> keys kp.

Definition get_pressed (kp : t) : list Z :=
  Key.number <$> filter (fun k => truthy (Key.key_state k) = true) (keys kp).

Definition any_pressed (kp : t) : bool := existsb truthy (get_states kp).

Definition none_pressed (kp : t) : bool := negb (existsb truthy (get_states kp)).

(** *** LED methods (lines 123-141) *)

Definition set_led (number : Z) (r g b : Z) (kp : t) : Res t :=
  on_key number (Key.set_led r g b) kp.

Definition set_all (r g b : Z) (kp : t) : Res t :=
  '(ks, px) ←
    (if negb (sleeping kp)
     then each_key (Key.set_led r g b) (keys kp) (pixels kp)
     else each_key Key.led_off (keys kp) (pixels kp));
  Ok (with_pixels px (with_keys ks kp)).

Definition clear_all (kp : t) : Res t :=
  '(ks, px) ← each_key Key.led_off (keys kp) (pixels kp);
  Ok (with_pixels px (with_keys ks kp)).

(** *** Handler registration (lines 165-233) *)

(** The effect of [attach_handler]: [_key.press_functions[state] =
    a_handler], reached either directly ([handler] given) or through
    the returned decorator.  A [None] key is ignored. *)
Definition attach (table : option (gmap string (option callable)))
    (state : string) (handler : callable)
  : Res (option (gmap string (option callable))) :=
  match table with
  | None => Raise TypeError
  | Some d => Ok (Some (<[state := Some handler]> d))
  end.

Definition on_press (_key : option Key.t) (state : string)
    (handler : callable) : Res (option Key.t) :=
  match _key with
  | None => Ok None
  | Some k =>
      d ← attach (Key.press_functions k) state handler;
      Ok (Some (Key.with_press_functions d k))
  end.

Definition on_release (_key : option Key.t) (state : string)
    (handler : callable) : Res (option Key.t) :=
  match _key with
  | None => Ok None
  | Some k =>
      d ← attach (Key.release_functions k) state handler;
      Ok (Some (Key.with_release_functions d k))
  end.

Definition on_hold (_key : option Key.t) (state : string)
    (handler : callable) : Res (option Key.t) :=
  match _key with
  | None => Ok None
  | Some k =>
      d ← attach (Key.hold_functions k) state handler;
      Ok (Some (Key.with_hold_functions d k))
  end.

(** *** sleep_handler (lines 99-121) *)

(** [[k.rgb if k.lit else [0, 0, 0] for k in self.keys]] *)
Definition snapshot (ks : list Key.t) : list RGB :=
  (fun k => if Key.lit k then Key.rgb k else black) <$> ks.

(** Lines 119-120: the loop of the wake-up branch. *)
Fixpoint restore (indices : list Z) (kp : t) : Res t :=
  match indices with
  | [] => Ok kp
  | i :: rest =>
      _ ← py_getitem (keys kp) i;
      saved ←
        match last_led_states kp with
        | None => Raise TypeError
        | Some l => py_getitem l i
        end;
      let '(r, g, b) := saved in
      kp ← on_key i (Key.set_led r g b) kp;
      restore rest kp
  end.

(** Lines 101-103. [t_wake] is the clock value read at line 102 (read
    only when a key is pressed). *)
Definition note_press (t_wake : float) (kp : t) : t :=
  if any_pressed kp
  then with_sleeping false (with_time_of_last_press t_wake kp)
  else kp.

(** Lines 110-115.  Comparing the attribute while it is still [None]
    would be a [TypeError]. *)
Definition engage (kp : t) : Res t :=
  if led_sleep_enabled kp && negb (sleeping kp) then
    match time_since_last_press kp with
    | None => Raise TypeError
    | Some since =>
        if Fltb (led_sleep_time kp) since then
          let kp := with_sleeping true kp in
          let kp := with_last_led_states (Some (snapshot (keys kp))) kp in
          kp ← set_all 0 0 0 kp;
          Ok (with_was_asleep true kp)
        else Ok kp
    end
  else Ok kp.

(** Lines 118-121. *)
Definition wake (kp : t) : Res t :=
  if negb (sleeping kp) && was_asleep kp then
    kp ← restore (range NUM_KEYS) kp;
    Ok (with_was_asleep false kp)
  else Ok kp.

(** [t_now] is the clock value read at line 105. *)
Definition sleep_handler (t_wake t_now : float) (kp : t) : Res t :=
  let kp := note_press t_wake kp in
  let kp := with_time_since_last_press
              (Some (t_now - time_of_last_press kp)%float) kp in
  kp ← engage kp;
  wake kp.

(** *** update (lines 76-96) *)

(** The clock values one call of [update] reads: two per key, in key
    order, then the two of [sleep_handler]. *)
Record Readings : Type := {
  key_clock : nat -> float * float;
  wake_clock : float;
  now_clock : float
}.

(** Lines 85-90: [result0] and [result1] are the two bytes the bus
    returned. *)
Definition all_states_of (result0 result1 : Z) : Z :=
  Z.lor result0 (Z.shiftl result1 8).

Fixpoint read_states (indices : list Z) (all_states : Z) (sts : list Z)
  : Res (list Z) :=
  match indices with
  | [] => Ok sts
  | i :: rest =>
      sts ← py_setitem sts i
              (if negb (truthy (Z.land (Z.shiftl 1 i) all_states))
               then 1 else 0);
      read_states rest all_states sts
  end.

Section Update.

Variable call : Key.handler_env.

(** Lines 92-93: [for _key in self.keys: _key.update()]; [n] is the
    position of the first key of [ks] in [self.keys]. *)
Fixpoint update_keys (clock : nat -> float * float) (n : nat) (ks : list Key.t)
    (px : Pixels) (log : list event)
  : Res (list Key.t * Pixels * list event) :=
  match ks with
  | [] => Ok ([], px, log)
  | k :: ks =>
      '(k, px, log) ←
        Key.update call (fst (clock n)) (snd (clock n)) (k, px, log);
      '(ks, px, log) ← update_keys clock (S n) ks px log;
      Ok (k :: ks, px, log)
  end.

Definition update (result0 result1 : Z) (clk : Readings) (kp : t)
  : Res (t * list event) :=
  let all_states := all_states_of result0 result1 in
  sts ← read_states (range 16) all_states (states kp);
  let kp := with_states sts kp in
  '(ks, px, log) ← update_keys (key_clock clk) 0 (keys kp) (pixels kp) [];
  let kp := with_pixels px (with_keys ks kp) in
  kp ← (if ENABLE_SLEEP
        then sleep_handler (wake_clock clk) (now_clock clk) kp
        else Ok kp);
  Ok (kp, log).

End Update.

End RGBKeyPad.

(** ** Properties of the LED layer *)

Module Led.

(** The remembered colour of a lit key is not black. *)
Definition inv (k : Key.t) : Prop :=
  Key.lit k = true -> is_black (Key.rgb k) = false.

(** Where [self.pixels[self.number]] lands on the strip. *)
Definition slot (k : Key.t) (px : Pixels) : Res nat :=
  py_index (length px) (Key.number k).

(** The key's number is a valid subscript of the strip. *)
Definition on_strip (k : Key.t) (px : Pixels) : Prop :=
  returns (slot k px).

(** The pixel a key drives. *)
Definition pixel (k : Key.t) (px : Pixels) : option RGB :=
  match slot k px with
  | Ok j => px !! j
  | Raise _ => None
  end.

(** The attribute updates of [set_led], without the write. *)
Definition lights (c : RGB) (k : Key.t) : Key.t :=
  if is_black c then Key.with_lit false k
  else Key.with_rgb c (Key.with_lit true k).

(** The calls an application can make on a key's LED. *)
Inductive op : Type :=
| SetLed (r g b : Z)
| LedOn
| LedOff
| LedState (state : Z)
| ToggleLed (colour : option RGB).

Definition exec (o : op) (k : Key.t) (px : Pixels) : Res (Key.t * Pixels) :=
  match o with
  | SetLed r g b => Key.set_led r g b k px
  | LedOn => Key.led_on k px
  | LedOff => Key.led_off k px
  | LedState state => Key.led_state state k px
  | ToggleLed colour => Key.toggle_led colour k px
  end.

(** LED states a key can be in: the one its constructor leaves, and
    whatever a sequence of LED calls makes of it. *)
Inductive reachable : Key.t -> Pixels -> Prop :=
| reach_init number px0 key_state board_state now k px :
    Key.init number px0 key_state board_state now = Ok (k, px) ->
    reachable k px
| reach_exec o k px k' px' :
    reachable k px ->
    exec o k px = Ok (k', px') ->
    reachable k' px'.

End Led.

(** ** Properties of the keypad *)

Module Pad.

Import RGBKeyPad.

(** The keys of [ks] carry the numbers [n], [n+1], ... in order. *)
Definition numbered_from (n : nat) (ks : list Key.t) : Prop :=
  forall i k, ks !! i = Some k -> Key.number k = Z.of_nat (n + i).

(** Shape of a keypad as its constructor builds it: sixteen keys
    numbered by position on a strip of sixteen pixels, and a saved
    snapshot of sixteen colours whenever [was_asleep] is set. *)
Record ok (kp : t) : Prop := {
  ok_keys : length (keys kp) = 16%nat;
  ok_pixels : length (pixels kp) = 16%nat;
  ok_numbers : numbered_from 0 (keys kp);
  ok_saved :
    was_asleep kp = true ->
    exists l, last_led_states kp = Some l /\ length l = 16%nat
}.

(** Everything but the keys and the strip. *)
Definition config (kp : t)
  : list Z * float * option float * option (list RGB) * bool * float * bool * bool :=
  (states kp, time_of_last_press kp, time_since_last_press kp,
   last_led_states kp, led_sleep_enabled kp, led_sleep_time kp,
   sleeping kp, was_asleep kp).

Definition awake (kp : t) : Prop :=
  sleeping kp = false /\ was_asleep kp = false.

(** Every LED of the strip is off. *)
Definition dark (kp : t) : Prop :=
  pixels kp = replicate 16 black /\
  Forall (fun k => Key.lit k = false) (keys kp).

(** [paint n m c px]: the pixels [n .. n+m-1] of [px] set to [c], in
    the order the loop over the keys writes them. *)
Fixpoint paint (n m : nat) (c : RGB) (px : Pixels) : Pixels :=
  match m with
  | O => px
  | S m => paint (S n) m c (<[n := c]> px)
  end.

(** The keys and the strip after a loop that calls [set_led] with the
    colour [c] on every key. *)
Definition all_lit (c : RGB) (kp : t) : t :=
  with_pixels (replicate 16 c) (with_keys (Led.lights c <$> keys kp) kp).

(** The keys and the strip after the loop that calls [set_led] on key
    [i] with the colour [l[i]]. *)
Definition relit (l : list RGB) (kp : t) : t :=
  with_pixels l (with_keys (zip_with Led.lights l (keys kp)) kp).

(** A keypad that sleeps on the snapshot [snap] with timeout [T]. *)
Definition slumber (snap : list RGB) (T : float) (kp : t) : Prop :=
  ok kp /\ sleeping kp = true /\ was_asleep kp = true /\
  last_led_states kp = Some snap /\ length snap = 16%nat /\
  led_sleep_time kp = T.


End Pad.

(** ** Properties of the per-key state machine *)

Module Machine.

(** The attributes of a key that [update] reads or carries from one
    cycle to the next: the state machine proper, without the LED
    attributes and the scratch values recomputed on every call. *)
Record t : Type := mk {
  mode : string;
  pressed : Z;
  last_state : option bool;
  time_of_last_press : float;
  time_held_for : float;
  hold_time : float;
  debounce : float;
  press_functions : option (gmap string (option callable));
  release_functions : option (gmap string (option callable));
  hold_functions : option (gmap string (option callable));
  press_func_fired : bool;
  hold_func_fired : bool
}.

Definition of_key (k : Key.t) : t :=
  {| mode := Key.board_state k; pressed := Key.pressed k;
     last_state := Key.last_state k;
     time_of_last_press := Key.time_of_last_press k;
     time_held_for := Key.time_held_for k; hold_time := Key.hold_time k;
     debounce := Key.debounce k;
     press_functions := Key.press_functions k;
     release_functions := Key.release_functions k;
     hold_functions := Key.hold_functions k;
     press_func_fired := Key.press_func_fired k;
     hold_func_fired := Key.hold_func_fired k |}.

(** Handlers that leave the state machine of the key alone: they may
    change its LED, the strip and anything else. *)
Definition frame (call : Key.handler_env) : Prop :=
  forall f k px, of_key (fst (call f k px)) = of_key k.

(** The handler a table holds for a mode, if any. *)
Definition callee (table : option (gmap string (option callable)))
    (mode_ : string) : option callable :=
  match table with
  | Some d => match d !! mode_ with Some (Some f) => Some f | _ => None end
  | None => None
  end.

(** The table is a dictionary ([is not None] in the source). *)
Definition has (table : option (gmap string (option callable))) : bool :=
  match table with Some _ => true | None => false end.

(** A handler is registered for the mode. *)
Definition registered (table : option (gmap string (option callable)))
    (mode_ : string) : Prop :=
  is_Some (callee table mode_).

(** Every dispatch the code can attempt on the table finds a handler:
    either the table is absent, so no dispatch is attempted, or a
    handler is registered for the mode. *)
Definition wired (table : option (gmap string (option callable)))
    (mode_ : string) : Prop :=
  table = None \/ registered table mode_.

(** The mode and the three tables: what a dispatch looks at. *)
Definition wiring (k : Key.t)
  : string * option (gmap string (option callable))
    * option (gmap string (option callable))
    * option (gmap string (option callable)) :=
  (Key.board_state k, Key.press_functions k, Key.release_functions k,
   Key.hold_functions k).

Definition wired_key (k : Key.t) : Prop :=
  wired (Key.press_functions k) (Key.board_state k) /\
  wired (Key.release_functions k) (Key.board_state k) /\
  wired (Key.hold_functions k) (Key.board_state k).

(** *** The cycle seen without the handlers' side effects *)

Definition press_due (k : Key.t) : bool :=
  has (Key.press_functions k) && truthy (Key.pressed k)
  && negb (Key.press_func_fired k) && negb (Key.key_locked k).

Definition after_press (k : Key.t) : Key.t :=
  if press_due k then Key.with_press_func_fired true k else k.

Definition release_due (k : Key.t) : bool :=
  negb (truthy (Key.pressed k)) && truthy_opt (Key.last_state k).

Definition after_release (k : Key.t) : Key.t :=
  if release_due k
  then Key.with_press_func_fired false (Key.with_last_state (Some false) k)
  else k.

Definition hold_over (k : Key.t) : bool :=
  Fltb (Key.hold_time k) (Key.time_held_for k).

Definition hold_due (k : Key.t) : bool :=
  hold_over k && has (Key.hold_functions k) && negb (Key.hold_func_fired k).

Definition after_hold (k : Key.t) : Key.t :=
  if hold_over k then
    if has (Key.hold_functions k) && negb (Key.hold_func_fired k)
    then Key.with_hold_func_fired true (Key.with_held true k)
    else Key.with_held true k
  else Key.with_hold_func_fired false (Key.with_held false k).

(** The calls one dispatch logs. *)
Definition calls (mk_ : callable -> event) (due : bool)
    (table : option (gmap string (option callable))) (mode_ : string)
  : list event :=
  if due then
    match callee table mode_ with Some f => [mk_ f] | None => [] end
  else [].

(** One cycle with the key reading [reading]: the key it leaves, up to
    what the handlers do outside the state machine. *)
Definition next (reading : Z) (t0 t1 : float) (k : Key.t) : Key.t :=
  let k0 := Key.sample t0 (Key.with_current_state reading k) in
  after_hold (Key.timing_phase t1 (after_release (after_press k0))).

(** The handler calls of that cycle. *)
Definition events (reading : Z) (t0 t1 : float) (k : Key.t) : list event :=
  let k0 := Key.sample t0 (Key.with_current_state reading k) in
  let k1 := after_press k0 in
  let k3 := Key.timing_phase t1 (after_release k1) in
  calls PressCall (press_due k0) (Key.press_functions k0) (Key.board_state k0)
  ++ calls ReleaseCall (release_due k1 && has (Key.release_functions k1))
       (Key.release_functions k1) (Key.board_state k1)
  ++ calls HoldCall (hold_due k3) (Key.hold_functions k3) (Key.board_state k3).

(** What a cycle never changes. *)
Definition config (m : t)
  : string * float * float * option (gmap string (option callable))
    * option (gmap string (option callable))
    * option (gmap string (option callable)) :=
  (mode m, debounce m, hold_time m, press_functions m, release_functions m,
   hold_functions m).

(** *** The transition in closed form *)

(** The state machine after one cycle in which the key reads [r], the
    clock reads being [t0] and [t1]: the pressed and the released case
    of [next], written out. *)
Definition step (r : Z) (t0 t1 : float) (m : t) : t :=
  if truthy r then
    let again := truthy_opt (last_state m) in
    let held_ :=
      if again then (t1 - time_of_last_press m)%float else time_held_for m in
    {| mode := mode m; pressed := r; last_state := Some true;
       time_of_last_press := if again then time_of_last_press m else t1;
       time_held_for := held_;
       hold_time := hold_time m; debounce := debounce m;
       press_functions := press_functions m;
       release_functions := release_functions m;
       hold_functions := hold_functions m;
       press_func_fired :=
         press_func_fired m
         || (has (press_functions m)
             && negb (Fltb (t0 - time_of_last_press m) (debounce m)));
       hold_func_fired :=
         if Fltb (hold_time m) held_
         then hold_func_fired m || has (hold_functions m) else false |}
  else
    {| mode := mode m; pressed := r; last_state := Some false;
       time_of_last_press := time_of_last_press m;
       time_held_for := 0%float;
       hold_time := hold_time m; debounce := debounce m;
       press_functions := press_functions m;
       release_functions := release_functions m;
       hold_functions := hold_functions m;
       press_func_fired :=
         if truthy_opt (last_state m) then false else press_func_fired m;
       hold_func_fired :=
         if Fltb (hold_time m) 0
         then hold_func_fired m || has (hold_functions m) else false |}.

(** Whether that cycle dispatches to the press, release and hold
    table. *)
Definition press_flag (r : Z) (t0 : float) (m : t) : bool :=
  has (press_functions m) && truthy r && negb (press_func_fired m)
  && negb (Fltb (t0 - time_of_last_press m) (debounce m)).

Definition release_flag (r : Z) (m : t) : bool :=
  negb (truthy r) && truthy_opt (last_state m) && has (release_functions m).

(** The recorded press duration is over the hold threshold at the end
    of the cycle. *)
Definition over (r : Z) (t1 : float) (m : t) : bool :=
  let held_ :=
    if truthy r then
      if truthy_opt (last_state m)
      then (t1 - time_of_last_press m)%float else time_held_for m
    else 0%float in
  Fltb (hold_time m) held_.

Definition hold_flag (r : Z) (t1 : float) (m : t) : bool :=
  over r t1 m && has (hold_functions m) && negb (hold_func_fired m).

End Machine.

(** *** Runs of cycles *)

Module Run.

(** One polling cycle of a key: the value the key reads and the two
    clock values its [update] obtains (lines 275 and 285). *)
Record cycle : Type := {
  reading : Z;
  t0 : float;
  t1 : float
}.

Definition is_pressed (c : cycle) : Prop := truthy (reading c) = true.
Definition is_released (c : cycle) : Prop := truthy (reading c) = false.

Section WithHandlers.

Variable call : Key.handler_env.

(** The caller stores what the key reads in [current_state], the
    attribute [update] copies its state from (line 283), and calls
    [update]. *)
Definition poll (c : cycle) (s : Key.St) : Res Key.St :=
  let '(k, px, log) := s in
  Key.update call (t0 c) (t1 c) (Key.with_current_state (reading c) k, px, log).

Fixpoint run (cs : list cycle) (s : Key.St) : Res Key.St :=
  match cs with
  | [] => Ok s
  | c :: cs => s ← poll c s; run cs s
  end.

End WithHandlers.

Definition key_of (s : Key.St) : Key.t := fst (fst s).
Definition log_of (s : Key.St) : list event := snd s.

Definition presses (s : Key.St) : nat := count is_press (log_of s).
Definition releases (s : Key.St) : nat := count is_release (log_of s).
Definition holds (s : Key.St) : nat := count is_hold (log_of s).

(** The state machine after a run of cycles, and the number of
    dispatches of one kind the run makes. *)
Fixpoint steps (cs : list cycle) (m : Machine.t) : Machine.t :=
  match cs with
  | [] => m
  | c :: cs => steps cs (Machine.step (reading c) (t0 c) (t1 c) m)
  end.

Fixpoint tally (flag : cycle -> Machine.t -> bool) (cs : list cycle)
    (m : Machine.t) : nat :=
  match cs with
  | [] => 0
  | c :: cs =>
      ((if flag c m then 1 else 0)
       + tally flag cs (Machine.step (reading c) (t0 c) (t1 c) m))%nat
  end.

Definition press_at (c : cycle) (m : Machine.t) : bool :=
  Machine.press_flag (reading c) (t0 c) m.
Definition release_at (c : cycle) (m : Machine.t) : bool :=
  Machine.release_flag (reading c) m.
Definition hold_at (c : cycle) (m : Machine.t) : bool :=
  Machine.hold_flag (reading c) (t1 c) m.

(** Between two press episodes: not pressed at the last cycle, no press
    call pending. *)
Definition idle (k : Key.t) : Prop :=
  truthy_opt (Key.last_state k) = false /\ Key.press_func_fired k = false.

(** No hold pending: the recorded duration is not over the threshold
    and no hold call is marked as made. *)
Definition rested (k : Key.t) : Prop :=
  Fltb (Key.hold_time k) (Key.time_held_for k) = false /\
  Key.hold_func_fired k = false.

(** A cycle outside the debounce window that started at [since]. *)
Definition unlocked (D since : float) (c : cycle) : bool :=
  negb (Fltb (t0 c - since)%float D).

(** Some cycle of the episode falls outside the debounce window: the
    first one is measured from the last recorded press transition
    [since], the later ones from the transition the first one records
    (its [t1]). *)
Definition unlocked_in (D since : float) (episode : list cycle) : bool :=
  match episode with
  | [] => false
  | c1 :: cs => unlocked D since c1 || existsb (unlocked D (t1 c1)) cs
  end.

(** Whether a cycle finds the press, measured from [since], longer than
    the hold threshold [H]: the test of line 321 on the duration line
    312 computes. *)
Definition over_at (H since : float) (c : cycle) : bool :=
  Fltb H (t1 c - since)%float.

(** The hold threshold [H] is crossed at some cycle after the first of
    the episode, measured from the transition the first one records. *)
Definition held_in (H : float) (episode : list cycle) : bool :=
  match episode with
  | [] => false
  | c1 :: cs => existsb (over_at H (t1 c1)) cs
  end.

(** Once a cycle finds the threshold crossed, so does every later cycle
    of the list: what a clock that does not go back gives. *)
Fixpoint latched (H since : float) (cs : list cycle) : bool :=
  match cs with
  | [] => true
  | c :: cs =>
      (negb (over_at H since c) || forallb (over_at H since) cs)
      && latched H since cs
  end.

End Run.

(** ** Properties of [RGBKeyPad.update] *)

Module Quiet.

(** A key that reads released and was released at the last cycle, with
    a hold threshold that is not negative: nothing is pending on it. *)
Definition key (k : Key.t) : Prop :=
  truthy (Key.current_state k) = false /\
  truthy_opt (Key.last_state k) = false /\
  Fltb (Key.hold_time k) 0 = false.

(** What [Key.update] leaves of such a key; [t0] is the first clock
    read. *)
Definition settle (t0 : float) (k : Key.t) : Key.t :=
  Key.with_hold_func_fired false
    (Key.with_held false
       (Key.with_last_state (Some false)
          (Key.with_time_held_for 0%float (Key.sample t0 k)))).

(** The keys after the loop of [RGBKeyPad.update], key [n + i] having
    read [clock (n + i)]. *)
Fixpoint settle_all (clock : nat -> float * float) (n : nat) (ks : list Key.t)
  : list Key.t :=
  match ks with
  | [] => []
  | k :: ks => settle (fst (clock n)) k :: settle_all clock (S n) ks
  end.

(** The value line 87-90 stores for key [i]: 1 when bit [i] of the mask
    is clear. *)
Definition decoded (all_states : Z) (i : nat) : Z :=
  if Z.testbit all_states (Z.of_nat i) then 0 else 1.

End Quiet.

(** ** Concrete states used by the examples *)

Module Demo.

Definition dark_strip : Pixels := replicate 16 black.

Definition no_handlers : option (gmap string (option callable)) :=
  Some {[ "default"%string := None ]}.

(** The key [Key(number, pixels, current_state)] builds at time [now]. *)
Definition fresh_key (number current_state : Z) (now : float) : Key.t :=
  {| Key.number := number; Key.current_state := current_state;
     Key.board_state := "default"; Key.key_state := 0; Key.pressed := 0;
     Key.last_state := None; Key.time_of_last_press := now;
     Key.time_since_last_press := None; Key.time_held_for := 0%float;
     Key.held := false; Key.hold_time := 0.75%float; Key.modifier := false;
     Key.rgb := (0, 0, 0); Key.lit := false;
     Key.xy := number_to_xy number; Key.x := fst (number_to_xy number);
     Key.y := snd (number_to_xy number);
     Key.press_functions := no_handlers;
     Key.release_functions := no_handlers;
     Key.hold_functions := no_handlers;
     Key.press_func_fired := false; Key.hold_func_fired := false;
     Key.debounce := 0.125%float; Key.key_locked := false |}.

(** A table after [on_press(key, handler=f)] and the like. *)
Definition table_with (f : callable)
  : option (gmap string (option callable)) :=
  Some (<[ "default"%string := Some f ]> {[ "default"%string := None ]}).

(** A fresh key with [Fn 0], [Fn 1] and [Fn 2] registered as its press,
    release and hold handler. *)
Definition handled_key : Key.t :=
  Key.with_hold_functions (table_with (Fn 2))
    (Key.with_release_functions (table_with (Fn 1))
       (Key.with_press_functions (table_with (Fn 0)) (fresh_key 0 0 0%float))).

(** A fresh key with only a press handler, and one with only a hold
    handler. *)
Definition press_only_key : Key.t :=
  Key.with_press_functions (table_with (Fn 0)) (fresh_key 0 0 0%float).

Definition hold_only_key : Key.t :=
  Key.with_hold_functions (table_with (Fn 2)) (fresh_key 0 0 0%float).

(** A cycle whose two clock reads both return [now]. *)
Definition at_ (reading : Z) (now : float) : Run.cycle :=
  {| Run.reading := reading; Run.t0 := now; Run.t1 := now |}.

(** Handlers that leave the key and the strip alone. *)
Definition quiet : Key.handler_env := fun _ k px => (k, px).

(** A handler environment in which [Fn 0] toggles the key's LED to red
    and every other handler does nothing. *)
Definition toggling : Key.handler_env := fun f k px =>
  match f with
  | Fn O =>
      match Key.toggle_led (Some (255, 0, 0)) k px with
      | Ok r => r
      | Raise _ => (k, px)
      end
  | _ => (k, px)
  end.

(** The keypad [RGBKeyPad()] builds when every clock read returns 0. *)
Definition fresh_pad : RGBKeyPad.t :=
  {| RGBKeyPad.pixels := dark_strip;
     RGBKeyPad.states := replicate 16 0;
     RGBKeyPad.time_of_last_press := 0%float;
     RGBKeyPad.time_since_last_press := None;
     RGBKeyPad.last_led_states := None;
     RGBKeyPad.led_sleep_enabled := true;
     RGBKeyPad.led_sleep_time := 1%float;
     RGBKeyPad.sleeping := false;
     RGBKeyPad.was_asleep := false;
     RGBKeyPad.keys :=
       (fun i => fresh_key i 0 0%float) <$> RGBKeyPad.range NUM_KEYS |}.

(** The fresh keypad after [set_all(0, 0, 255)]. *)
Definition blue_pad : RGBKeyPad.t := Pad.all_lit (0, 0, 255) fresh_pad.

(** [blue_pad] after a cycle at time 2 in which no key is pressed: the
    keypad has gone to sleep. *)
Definition sleepy_pad : RGBKeyPad.t :=
  RGBKeyPad.with_was_asleep true
    (Pad.all_lit black
       (RGBKeyPad.with_last_led_states
          (Some (RGBKeyPad.snapshot (RGBKeyPad.keys blue_pad)))
          (RGBKeyPad.with_sleeping true
             (RGBKeyPad.with_time_since_last_press (Some (2 - 0)%float)
                blue_pad)))).

(** Key [i] of the keypad reads pressed, as [Key.update] records it. *)
Definition press (i : nat) (kp : RGBKeyPad.t) : RGBKeyPad.t :=
  RGBKeyPad.with_keys
    (alter (fun k => Key.with_pressed 1 (Key.with_key_state 1 k)) i
       (RGBKeyPad.keys kp)) kp.

(** Clock reads that all return [now]. *)
Definition at_time (now : float) : RGBKeyPad.Readings :=
  {| RGBKeyPad.key_clock := fun _ => (now, now);
     RGBKeyPad.wake_clock := now;
     RGBKeyPad.now_clock := now |}.

End Demo.

(** ** Further properties: what LED calls leave alone, and the
    constructor's result *)

Module Shape.

(** A key with its LED attributes blanked: two keys with the same
    image differ at most in [rgb] and [lit]. *)
Definition led_erased (k : Key.t) : Key.t :=
  Key.with_rgb black (Key.with_lit false k).

Definition same_but_led (k k' : Key.t) : Prop :=
  led_erased k' = led_erased k.

(** The keypad [RGBKeyPad()] builds when the clock returns [now] at
    line 63 and [clock i] in the constructor of key [i]. *)
Definition built (now : float) (clock : nat -> float) : RGBKeyPad.t :=
  {| RGBKeyPad.pixels := replicate 16 black;
     RGBKeyPad.states := replicate 16 0;
     RGBKeyPad.time_of_last_press := now;
     RGBKeyPad.time_since_last_press := None;
     RGBKeyPad.last_led_states := None;
     RGBKeyPad.led_sleep_enabled := true;
     RGBKeyPad.led_sleep_time := 1%float;
     RGBKeyPad.sleeping := false;
     RGBKeyPad.was_asleep := false;
     RGBKeyPad.keys :=
       (fun i => Demo.fresh_key (Z.of_nat i) 0 (clock i)) <$> seq 0 16 |}.

(** The indices of the keys whose [key_state] is truthy. *)
Definition pressed_at (kp : RGBKeyPad.t) (i : nat) : Prop :=
  exists k, RGBKeyPad.keys kp !! i = Some k /\
            truthy (Key.key_state k) = true.

(** The handler an event names is the one the key's table of that
    kind holds for the key's mode. *)
Definition handler_of (k : Key.t) (e : event) : Prop :=
  match e with
  | PressCall f =>
      Machine.callee (Key.press_functions k) (Key.board_state k) = Some f
  | ReleaseCall f =>
      Machine.callee (Key.release_functions k) (Key.board_state k) = Some f
  | HoldCall f =>
      Machine.callee (Key.hold_functions k) (Key.board_state k) = Some f
  end.

End Shape.

(** ** Proof automation for the records *)

Ltac use_field p H :=
  let F := fresh "F" in
  pose proof (f_equal p H) as F; cbn in F; try rewrite F; clear F.

Ltac by_fields H :=
  unfold Machine.of_key; cbn;
  use_field Machine.mode H; use_field Machine.pressed H; use_field Machine.last_state H;
  use_field Machine.time_of_last_press H; use_field Machine.time_held_for H;
  use_field Machine.hold_time H; use_field Machine.debounce H;
  use_field Machine.press_functions H; use_field Machine.release_functions H;
  use_field Machine.hold_functions H; use_field Machine.press_func_fired H;
  use_field Machine.hold_func_fired H;
  reflexivity.

Ltac key_cbn :=
  cbn [Key.number Key.current_state Key.board_state Key.key_state Key.pressed
       Key.last_state Key.time_of_last_press Key.time_since_last_press
       Key.time_held_for Key.held Key.hold_time Key.modifier Key.rgb Key.lit
       Key.xy Key.x Key.y Key.press_functions Key.release_functions
       Key.hold_functions Key.press_func_fired Key.hold_func_fired
       Key.debounce Key.key_locked Key.with_current_state
       Key.with_board_state Key.with_key_state Key.with_pressed
       Key.with_last_state Key.with_time_of_last_press
       Key.with_time_since_last_press Key.with_time_held_for Key.with_held
       Key.with_hold_time Key.with_rgb Key.with_lit Key.with_press_functions
       Key.with_release_functions Key.with_hold_functions
       Key.with_press_func_fired Key.with_hold_func_fired Key.with_debounce
       Key.with_key_locked negb andb orb].

Ltac machine_cbn :=
  cbn [Machine.of_key Machine.mode Machine.pressed Machine.last_state Machine.time_of_last_press Machine.time_held_for Machine.hold_time
       Machine.debounce Machine.press_functions Machine.release_functions Machine.hold_functions Machine.press_func_fired Machine.hold_func_fired].

Tactic Notation "machine_cbn" "in" hyp(H) :=
  cbn [Machine.of_key Machine.mode Machine.pressed Machine.last_state Machine.time_of_last_press Machine.time_held_for Machine.hold_time
       Machine.debounce Machine.press_functions Machine.release_functions Machine.hold_functions Machine.press_func_fired Machine.hold_func_fired] in H.

(** ** The example states are the constructors' results *)

Lemma init_fresh_key (number current_state : Z) (now : float) (px : Pixels)
    (j : nat) :
  py_index (length px) number = Ok j ->
  Key.init number px current_state "default" now
  = Ok (Demo.fresh_key number current_state now, <[j := black]> px).
Proof.
  intros Hj. unfold Key.init, Key.led_off, Key.set_led, write_led, py_setitem.
  simpl. rewrite Hj. reflexivity.
Qed.

Lemma init_fresh_pad :
  RGBKeyPad.init 0%float (fun _ => 0%float) = Ok Demo.fresh_pad.
Proof. vm_compute. reflexivity. Qed.

(** ** The LED layer of a key *)

Section LedFacts.

Import Led.

Lemma py_index_bound (n : nat) (i : Z) (j : nat) :
  py_index n i = Ok j -> (j < n)%nat.
Proof.
  unfold py_index.
  destruct ((0 <=? i) && (i <? Z.of_nat n)) eqn:E1.
  - intros [= <-]. apply andb_true_iff in E1 as [? ?]. lia.
  - destruct ((- Z.of_nat n <=? i) && (i <? 0)) eqn:E2; [|discriminate].
    intros [= <-]. apply andb_true_iff in E2 as [? ?]. lia.
Qed.

Lemma py_index_nat (n i : nat) :
  (i < n)%nat -> py_index n (Z.of_nat i) = Ok i.
Proof.
  intros H. unfold py_index.
  replace ((0 <=? Z.of_nat i) && (Z.of_nat i <? Z.of_nat n)) with true.
  - rewrite Nat2Z.id. reflexivity.
  - symmetry. apply andb_true_iff. split; lia.
Qed.

Lemma on_strip_slot (k : Key.t) (px : Pixels) :
  on_strip k px -> exists j, slot k px = Ok j /\ (j < length px)%nat.
Proof.
  unfold on_strip. destruct (slot k px) as [j|e] eqn:E; [|contradiction].
  intros _. exists j. split; [reflexivity|].
  eapply py_index_bound. exact E.
Qed.

Lemma lights_number (c : RGB) (k : Key.t) :
  Key.number (lights c k) = Key.number k.
Proof. unfold lights. destruct (is_black c); reflexivity. Qed.

Lemma lights_inv (c : RGB) (k : Key.t) : inv (lights c k).
Proof.
  unfold inv, lights. destruct (is_black c) eqn:E; simpl.
  - discriminate.
  - intros _. exact E.
Qed.

Lemma lights_black (c : RGB) (k : Key.t) :
  is_black c = true -> lights c k = Key.with_lit false k.
Proof. unfold lights. intros ->. reflexivity. Qed.

Lemma lights_lit (c : RGB) (k : Key.t) :
  Key.lit (lights c k) = negb (is_black c).
Proof. unfold lights. destruct (is_black c); reflexivity. Qed.

Lemma lights_rgb (c : RGB) (k : Key.t) :
  Key.rgb (lights c k) = if is_black c then Key.rgb k else c.
Proof. unfold lights. destruct (is_black c); reflexivity. Qed.

(** [set_led] on a key whose number subscripts the strip: the
    attributes change as [lights] says and the key's pixel is written. *)
Lemma set_led_ok (r g b : Z) (k : Key.t) (px : Pixels) (j : nat) :
  slot k px = Ok j ->
  Key.set_led r g b k px = Ok (lights (r, g, b) k, <[j := (r, g, b)]> px).
Proof.
  intros Hj. unfold Key.set_led, write_led, py_setitem.
  fold (lights (r, g, b) k).
  change (py_index (length px) (Key.number (lights (r, g, b) k)))
    with (slot (lights (r, g, b) k) px).
  unfold slot in *. rewrite lights_number, Hj. reflexivity.
Qed.

Lemma slot_insert (k k' : Key.t) (px : Pixels) (i : nat) (c : RGB) :
  Key.number k' = Key.number k ->
  slot k' (<[i := c]> px) = slot k px.
Proof. intros H. unfold slot. rewrite length_insert, H. reflexivity. Qed.

Lemma set_led_returns (r g b : Z) (k : Key.t) (px : Pixels) :
  on_strip k px ->
  exists px',
    Key.set_led r g b k px = Ok (lights (r, g, b) k, px') /\
    on_strip (lights (r, g, b) k) px' /\
    pixel (lights (r, g, b) k) px' = Some (r, g, b).
Proof.
  intros Hs. destruct (on_strip_slot k px Hs) as (j & Hj & Hlt).
  exists (<[j := (r, g, b)]> px).
  split; [apply set_led_ok; exact Hj|].
  unfold on_strip, pixel.
  rewrite (slot_insert k) by apply lights_number.
  rewrite Hj. split; [exact I|].
  apply list_lookup_insert_eq. exact Hlt.
Qed.

Lemma set_led_inversion (r g b : Z) (k k' : Key.t) (px px' : Pixels) :
  Key.set_led r g b k px = Ok (k', px') ->
  k' = lights (r, g, b) k /\ on_strip k px /\
  exists j, slot k px = Ok j /\ px' = <[j := (r, g, b)]> px.
Proof.
  unfold Key.set_led, write_led, py_setitem.
  fold (lights (r, g, b) k).
  change (py_index (length px) (Key.number (lights (r, g, b) k)))
    with (slot (lights (r, g, b) k) px).
  unfold on_strip, slot. rewrite lights_number.
  destruct (py_index (length px) (Key.number k)) as [j|e]; simpl.
  - intros [= <- <-]. split; [reflexivity|]. split; [exact I|].
    exists j. split; reflexivity.
  - discriminate.
Qed.

(** Every LED call on a key that sits on the strip returns, and leaves
    a key that satisfies the invariant and still sits on the strip. *)
Lemma exec_returns (o : op) (k : Key.t) (px : Pixels) :
  inv k -> on_strip k px ->
  exists k' px',
    exec o k px = Ok (k', px') /\ inv k' /\ on_strip k' px'.
Proof.
  intros Hinv Hs.
  assert (Hset : forall r g b k0, Key.number k0 = Key.number k ->
            exists k' px', Key.set_led r g b k0 px = Ok (k', px')
                           /\ inv k' /\ on_strip k' px').
  { intros r g b k0 Hn.
    assert (Hs0 : on_strip k0 px) by (unfold on_strip, slot in *; rewrite Hn; exact Hs).
    destruct (set_led_returns r g b k0 px Hs0) as (px' & E & Hs' & _).
    exists (lights (r, g, b) k0), px'.
    split; [exact E|]. split; [apply lights_inv | exact Hs']. }
  destruct o as [r g b| | |state|colour]; simpl.
  - apply Hset. reflexivity.
  - unfold Key.led_on. destruct (Key.rgb k) as [[r g] b].
    apply Hset. reflexivity.
  - apply Hset. reflexivity.
  - unfold Key.led_state, Key.led_on, Key.led_off.
    destruct (state =? 0); [apply Hset; reflexivity|].
    destruct (state =? 1).
    + destruct (Key.rgb k) as [[r g] b]. apply Hset. reflexivity.
    + exists k, px. auto.
  - unfold Key.toggle_led, Key.led_on, Key.led_off.
    destruct colour as [c|].
    + destruct (Key.lit (Key.with_rgb c k)).
      * apply Hset. reflexivity.
      * destruct (Key.rgb (Key.with_rgb c k)) as [[r g] b].
        apply Hset. reflexivity.
    + destruct (Key.lit k).
      * apply Hset. reflexivity.
      * destruct (Key.rgb k) as [[r g] b]. apply Hset. reflexivity.
Qed.

Lemma init_inv (number : Z) (px0 : Pixels) (key_state : Z)
    (board_state : string) (now : float) (k : Key.t) (px : Pixels) :
  Key.init number px0 key_state board_state now = Ok (k, px) ->
  inv k /\ on_strip k px /\ Key.lit k = false /\ Key.rgb k = (0, 0, 0) /\
  Key.number k = number /\ length px = length px0.
Proof.
  unfold Key.init, Key.led_off, Key.set_led, write_led, py_setitem. simpl.
  destruct (py_index (length px0) number) as [j|e] eqn:E; simpl;
    [|discriminate].
  intros [= <- <-].
  unfold inv, on_strip, slot. simpl. rewrite length_insert, E.
  repeat split; try reflexivity. discriminate.
Qed.

Lemma reachable_inv (k : Key.t) (px : Pixels) :
  reachable k px -> inv k /\ on_strip k px.
Proof.
  induction 1 as [number px0 ks bs now k px Hinit | o k px k' px' _ [IH1 IH2] He].
  - apply init_inv in Hinit. tauto.
  - destruct (exec_returns o k px IH1 IH2) as (k2 & px2 & E & ? & ?).
    rewrite He in E. injection E as <- <-. auto.
Qed.

Lemma relit_id (k : Key.t) :
  Key.with_rgb (Key.rgb k) (Key.with_lit (Key.lit k) k) = k.
Proof. destruct k. reflexivity. Qed.

Lemma is_black_eq (c : RGB) : is_black c = true -> c = black.
Proof.
  destruct c as [[r g] b]. unfold is_black, black.
  rewrite !andb_true_iff, !Z.eqb_eq. intros [[-> ->] ->]. reflexivity.
Qed.

(** C9.  From any LED state a key can reach, two calls of
    [toggle_led()] without a colour return: the second leaves the very
    key object the first was given, so the remembered [rgb] and [lit]
    are the original ones, and the key's pixel shows the remembered
    colour if the key is lit and black otherwise. *)
Theorem toggle_led_round_trip (k : Key.t) (px : Pixels) :
  reachable k px ->
  exists k1 px1 px2,
    Key.toggle_led None k px = Ok (k1, px1) /\
    Key.toggle_led None k1 px1 = Ok (k, px2) /\
    Key.lit k1 = negb (Key.lit k) && negb (is_black (Key.rgb k)) /\
    Key.rgb k1 = Key.rgb k /\
    pixel k px2 = Some (if Key.lit k then Key.rgb k else black).
Proof.
  intros Hr. destruct (reachable_inv k px Hr) as [Hinv Hs].
  unfold Key.toggle_led, Key.led_off, Key.led_on.
  destruct (Key.lit k) eqn:Hlit.
  - (* lit: off, then on again with the remembered colour *)
    specialize (Hinv Hlit).
    destruct (set_led_returns 0 0 0 k px Hs) as (px1 & E1 & Hs1 & _).
    rewrite (lights_black (0, 0, 0)) in E1, Hs1 by reflexivity.
    exists (Key.with_lit false k), px1.
    destruct (Key.rgb k) as [[r g] b] eqn:Hrgb.
    destruct (set_led_returns r g b _ px1 Hs1) as (px2 & E2 & _ & Hp2).
    exists px2.
    assert (Hk : lights (r, g, b) (Key.with_lit false k) = k).
    { unfold lights. rewrite Hinv. rewrite <- Hrgb.
      destruct k. simpl in *. subst. reflexivity. }
    rewrite Hk in E2, Hp2.
    change (Key.rgb (Key.with_lit false k)) with (Key.rgb k).
    change (Key.lit (Key.with_lit false k)) with false.
    rewrite Hrgb. auto.
  - (* not lit: on (which stays off when the colour is black), then off *)
    destruct (Key.rgb k) as [[r g] b] eqn:Hrgb.
    destruct (set_led_returns r g b k px Hs) as (px1 & E1 & Hs1 & Hp1).
    exists (lights (r, g, b) k), px1.
    rewrite lights_lit, lights_rgb.
    destruct (is_black (r, g, b)) eqn:Hb.
    + assert (Hk : lights (r, g, b) k = k).
      { unfold lights. rewrite Hb. destruct k. simpl in *. subst. reflexivity. }
      rewrite Hk in *. rewrite Hrgb.
      destruct (set_led_returns r g b k px1 Hs1) as (px2 & E2 & _ & Hp2).
      rewrite Hk in E2, Hp2. rewrite (is_black_eq _ Hb) in Hp2.
      exists px2. simpl. auto.
    + destruct (set_led_returns 0 0 0 _ px1 Hs1) as (px2 & E2 & _ & Hp2).
      rewrite (lights_black (0, 0, 0)) in E2, Hp2 by reflexivity.
      assert (Hk : Key.with_lit false (lights (r, g, b) k) = k).
      { unfold lights. rewrite Hb. rewrite <- Hrgb.
        destruct k. simpl in *. subst. reflexivity. }
      rewrite Hk in E2, Hp2.
      exists px2. auto.
Qed.

Lemma toggle_led_round_trip_witness :
  exists k1 px1 px2,
    reachable (lights (10, 20, 30) (Demo.fresh_key 3 0 0))
              (<[3%nat := (10, 20, 30)]> (<[3%nat := black]> Demo.dark_strip)) /\
    Key.toggle_led None (lights (10, 20, 30) (Demo.fresh_key 3 0 0))
      (<[3%nat := (10, 20, 30)]> (<[3%nat := black]> Demo.dark_strip))
    = Ok (k1, px1) /\
    Key.toggle_led None k1 px1
    = Ok (lights (10, 20, 30) (Demo.fresh_key 3 0 0), px2) /\
    Key.lit k1 = false.
Proof.
  assert (Hr : reachable (lights (10, 20, 30) (Demo.fresh_key 3 0 0))
                 (<[3%nat := (10, 20, 30)]>
                    (<[3%nat := black]> Demo.dark_strip))).
  { apply (reach_exec (SetLed 10 20 30) (Demo.fresh_key 3 0 0)
             (<[3%nat := black]> Demo.dark_strip)); [|reflexivity].
    apply (reach_init 3 Demo.dark_strip 0 "default" 0%float).
    apply (init_fresh_key 3 0 0%float Demo.dark_strip 3). reflexivity. }
  destruct (toggle_led_round_trip _ _ Hr)
    as (k1 & px1 & px2 & E1 & E2 & Hl1 & _).
  exists k1, px1, px2. repeat split; assumption.
Defined.

End LedFacts.

(** ** The loops of the keypad *)

Section PadFacts.

Import RGBKeyPad Pad Led.

Lemma numbered_from_cons (n : nat) (k : Key.t) (ks : list Key.t) :
  numbered_from n (k :: ks) ->
  Key.number k = Z.of_nat n /\ numbered_from (S n) ks.
Proof.
  intros H. split.
  - rewrite (H 0%nat k eq_refl). f_equal. lia.
  - intros i k' Hk'. rewrite (H (S i) k' Hk'). f_equal. lia.
Qed.

Lemma paint_length (m n : nat) (c : RGB) (px : Pixels) :
  length (paint n m c px) = length px.
Proof.
  revert n px. induction m as [|m IH]; intros n px; simpl; [reflexivity|].
  rewrite IH. apply length_insert.
Qed.

Lemma paint_lookup (m n : nat) (c : RGB) (px : Pixels) (j : nat) :
  (n + m <= length px)%nat ->
  paint n m c px !! j
  = if decide (n <= j < n + m)%nat then Some c else px !! j.
Proof.
  revert n px. induction m as [|m IH]; intros n px Hlen; simpl.
  - case_decide; [lia | reflexivity].
  - rewrite IH by (rewrite length_insert; lia).
    destruct (decide (j = n)) as [->|Hne].
    + rewrite list_lookup_insert_eq by lia.
      repeat case_decide; try lia; reflexivity.
    + rewrite list_lookup_insert_ne by congruence.
      repeat case_decide; try lia; reflexivity.
Qed.

Lemma paint_all (c : RGB) (px : Pixels) :
  length px = 16%nat -> paint 0 16 c px = replicate 16 c.
Proof.
  intros Hlen. apply list_eq. intros j.
  rewrite paint_lookup by lia.
  case_decide as Hj.
  - symmetry. apply lookup_replicate_2. lia.
  - rewrite !lookup_ge_None_2; [reflexivity | |]; rewrite ?length_replicate; lia.
Qed.

(** The loop [for _key in self.keys: _key.set_led(r, g, b)] over keys
    numbered consecutively from [n]. *)
Lemma each_key_set_led (r g b : Z) (ks : list Key.t) (n : nat) (px : Pixels) :
  numbered_from n ks ->
  (n + length ks <= length px)%nat ->
  each_key (Key.set_led r g b) ks px
  = Ok (lights (r, g, b) <$> ks, paint n (length ks) (r, g, b) px).
Proof.
  revert n px. induction ks as [|k ks IH]; intros n px Hnum Hlen; simpl.
  - reflexivity.
  - apply numbered_from_cons in Hnum as [Hk Hks]. simpl in Hlen.
    assert (Hslot : slot k px = Ok n).
    { unfold slot. rewrite Hk. apply py_index_nat. lia. }
    rewrite (set_led_ok r g b k px n Hslot). simpl.
    rewrite (IH (S n)) by (rewrite ?length_insert; first [exact Hks | lia]).
    reflexivity.
Qed.

Lemma set_all_ok (r g b : Z) (kp : t) :
  ok kp ->
  set_all r g b kp
  = Ok (all_lit (if sleeping kp then black else (r, g, b)) kp).
Proof.
  intros [Hk Hp Hn _]. unfold set_all, all_lit, Key.led_off.
  destruct (sleeping kp); simpl.
  - change (fun (k : Key.t) (px : Pixels) => Key.set_led 0 0 0 k px)
      with (Key.set_led 0 0 0).
    rewrite (each_key_set_led 0 0 0 _ 0) by (first [exact Hn | lia]).
    simpl. rewrite Hk, paint_all by exact Hp. reflexivity.
  - rewrite (each_key_set_led r g b _ 0) by (first [exact Hn | lia]).
    simpl. rewrite Hk, paint_all by exact Hp. reflexivity.
Qed.

Lemma clear_all_ok (kp : t) :
  ok kp -> clear_all kp = Ok (all_lit black kp).
Proof.
  intros [Hk Hp Hn _]. unfold clear_all, all_lit, Key.led_off.
  change (fun (k : Key.t) (px : Pixels) => Key.set_led 0 0 0 k px)
    with (Key.set_led 0 0 0).
  rewrite (each_key_set_led 0 0 0 _ 0) by (first [exact Hn | lia]).
  simpl. rewrite Hk, paint_all by exact Hp. reflexivity.
Qed.

Lemma all_lit_ok (c : RGB) (kp : t) : ok kp -> ok (all_lit c kp).
Proof.
  intros [Hk Hp Hn Hs]. split; simpl.
  - rewrite length_fmap. exact Hk.
  - reflexivity.
  - intros i k Hi. rewrite list_lookup_fmap in Hi.
    destruct (keys kp !! i) as [k0|] eqn:E; [|discriminate].
    injection Hi as <-. rewrite lights_number. apply (Hn i k0 E).
  - exact Hs.
Qed.

Lemma all_lit_black_dark (kp : t) : dark (all_lit black kp).
Proof.
  split; simpl; [reflexivity|].
  apply Forall_fmap, Forall_forall. intros k _. reflexivity.
Qed.

(** [self.keys[i].set_led(r, g, b)] on a well-formed keypad. *)
Lemma on_key_set_led (i : nat) (r g b : Z) (kp : t) (k : Key.t) :
  length (pixels kp) = 16%nat ->
  numbered_from 0 (keys kp) ->
  keys kp !! i = Some k ->
  (i < 16)%nat ->
  on_key (Z.of_nat i) (Key.set_led r g b) kp
  = Ok (with_pixels (<[i := (r, g, b)]> (pixels kp))
          (with_keys (<[i := lights (r, g, b) k]> (keys kp)) kp)).
Proof.
  intros Hp Hn Hk Hi. unfold on_key.
  rewrite py_index_nat by (apply lookup_lt_Some in Hk; exact Hk).
  simpl. rewrite Hk.
  assert (Hslot : slot k (pixels kp) = Ok i).
  { unfold slot. rewrite (Hn i k Hk). simpl. apply py_index_nat. lia. }
  rewrite (set_led_ok r g b k _ i Hslot). reflexivity.
Qed.

Lemma py_getitem_nat {A : Type} (l : list A) (i : nat) (a : A) :
  l !! i = Some a -> py_getitem l (Z.of_nat i) = Ok a.
Proof.
  intros H. unfold py_getitem.
  rewrite py_index_nat by (apply lookup_lt_Some in H; exact H).
  simpl. rewrite H. reflexivity.
Qed.

Lemma numbered_insert (ks : list Key.t) (i : nat) (k k' : Key.t) :
  numbered_from 0 ks -> ks !! i = Some k ->
  Key.number k' = Key.number k ->
  numbered_from 0 (<[i := k']> ks).
Proof.
  intros Hn Hk Hnum j kj Hj.
  destruct (decide (j = i)) as [->|Hne].
  - rewrite list_lookup_insert_eq in Hj by (apply lookup_lt_Some in Hk; exact Hk).
    injection Hj as <-. rewrite Hnum. apply (Hn i k Hk).
  - rewrite list_lookup_insert_ne in Hj by congruence. apply (Hn j kj Hj).
Qed.

(** The wake-up loop over the indices [n .. n+m-1]. *)
Lemma restore_range (m n : nat) (kp : t) (l : list RGB) :
  (n + m <= 16)%nat ->
  length (keys kp) = 16%nat ->
  length (pixels kp) = 16%nat ->
  numbered_from 0 (keys kp) ->
  last_led_states kp = Some l ->
  length l = 16%nat ->
  exists kp',
    restore (Z.of_nat <$> seq n m) kp = Ok kp' /\
    config kp' = config kp /\
    (forall j, pixels kp' !! j
               = if decide (n <= j < n + m)%nat then l !! j
                 else pixels kp !! j) /\
    (forall j, keys kp' !! j
               = if decide (n <= j < n + m)%nat
                 then c ← l !! j; k ← keys kp !! j; Some (lights c k)
                 else keys kp !! j).
Proof.
  revert n kp. induction m as [|m IH]; intros n kp Hnm Hk Hp Hn Hl Hll.
  - exists kp. split; [reflexivity|]. split; [reflexivity|].
    split; intros j; case_decide; first [lia | reflexivity].
  - destruct (lookup_lt_is_Some_2 (keys kp) n ltac:(lia)) as [k Ek].
    destruct (lookup_lt_is_Some_2 l n ltac:(lia)) as [c Ec].
    destruct c as [[r g] b] eqn:Hc.
    set (kp1 := with_pixels (<[n := (r, g, b)]> (pixels kp))
                  (with_keys (<[n := lights (r, g, b) k]> (keys kp)) kp)).
    destruct (IH (S n) kp1) as (kp' & Hres & Hcfg & Hpx & Hks).
    + lia.
    + simpl. rewrite length_insert. exact Hk.
    + simpl. rewrite length_insert. exact Hp.
    + simpl. eapply numbered_insert; [exact Hn | exact Ek |].
      apply lights_number.
    + exact Hl.
    + exact Hll.
    + exists kp'. split.
      * change (Z.of_nat <$> seq n (S m))
          with (Z.of_nat n :: (Z.of_nat <$> seq (S n) m)).
        cbn [restore].
        rewrite (py_getitem_nat _ _ _ Ek). cbn [mbind Res_bind].
        rewrite Hl, (py_getitem_nat _ _ _ Ec). cbn [mbind Res_bind].
        rewrite (on_key_set_led n r g b kp k Hp Hn Ek) by lia.
        cbn [mbind Res_bind]. exact Hres.
      * split; [rewrite Hcfg; reflexivity|].
        split; intros j.
        -- rewrite Hpx. simpl.
           destruct (decide (j = n)) as [->|Hne].
           ++ rewrite list_lookup_insert_eq by lia.
              repeat case_decide; try lia. symmetry. exact Ec.
           ++ rewrite list_lookup_insert_ne by congruence.
              repeat case_decide; try lia; reflexivity.
        -- rewrite Hks. simpl.
           destruct (decide (j = n)) as [->|Hne].
           ++ rewrite list_lookup_insert_eq by lia.
              repeat case_decide; try lia.
              rewrite Ec, Ek. reflexivity.
           ++ rewrite list_lookup_insert_ne by congruence.
              repeat case_decide; try lia; reflexivity.
Qed.

Lemma pad_eq (kp kp' : t) :
  config kp' = config kp -> keys kp' = keys kp -> pixels kp' = pixels kp ->
  kp' = kp.
Proof.
  destruct kp, kp'. unfold config. simpl.
  intros [= -> -> -> -> -> -> -> ->] -> ->. reflexivity.
Qed.

Lemma restore_all (kp : t) (l : list RGB) :
  length (keys kp) = 16%nat ->
  length (pixels kp) = 16%nat ->
  numbered_from 0 (keys kp) ->
  last_led_states kp = Some l ->
  length l = 16%nat ->
  restore (range NUM_KEYS) kp = Ok (relit l kp).
Proof.
  intros Hk Hp Hn Hl Hll.
  destruct (restore_range 16 0 kp l ltac:(lia) Hk Hp Hn Hl Hll)
    as (kp' & Hres & Hcfg & Hpx & Hks).
  change (range NUM_KEYS) with (Z.of_nat <$> seq 0 16).
  rewrite Hres. f_equal. apply pad_eq.
  - exact Hcfg.
  - simpl. apply list_eq. intros j. rewrite Hks, lookup_zip_with.
    case_decide as Hj; [reflexivity|].
    rewrite (lookup_ge_None_2 (keys kp)) by lia.
    destruct (l !! j); reflexivity.
  - simpl. apply list_eq. intros j. rewrite Hpx.
    case_decide as Hj; [reflexivity|].
    rewrite !lookup_ge_None_2 by lia. reflexivity.
Qed.

Lemma ok_with (kp kp' : t) :
  ok kp ->
  length (keys kp') = length (keys kp) ->
  length (pixels kp') = length (pixels kp) ->
  numbered_from 0 (keys kp') ->
  (was_asleep kp' = true ->
   exists l, last_led_states kp' = Some l /\ length l = 16%nat) ->
  ok kp'.
Proof.
  intros [Hk Hp Hn Hs] Hk' Hp' Hn' Hs'.
  split; [congruence | congruence | exact Hn' | exact Hs'].
Qed.

Lemma snapshot_length (ks : list Key.t) : length (snapshot ks) = length ks.
Proof. unfold snapshot. apply length_fmap. Qed.

Lemma relit_ok (l : list RGB) (kp : t) :
  ok kp -> length l = 16%nat -> ok (with_was_asleep false (relit l kp)).
Proof.
  intros [Hk Hp Hn Hs] Hl. split; simpl.
  - rewrite length_zip_with. lia.
  - exact Hl.
  - intros i k Hi. rewrite lookup_zip_with in Hi.
    destruct (l !! i) as [c|]; [|discriminate]. simpl in Hi.
    destruct (keys kp !! i) as [k0|] eqn:E; [|discriminate].
    injection Hi as <-. rewrite lights_number. apply (Hn i k0 E).
  - discriminate.
Qed.

Lemma inv_all_lit (c : RGB) (ks : list Key.t) : Forall inv (lights c <$> ks).
Proof. apply Forall_fmap, Forall_forall. intros k _. apply lights_inv. Qed.

Lemma inv_zip_lights (l : list RGB) (ks : list Key.t) :
  Forall inv (zip_with lights l ks).
Proof.
  apply Forall_lookup. intros i k Hi. rewrite lookup_zip_with in Hi.
  destruct (l !! i) as [c|]; [|discriminate]. simpl in Hi.
  destruct (ks !! i) as [k0|]; [|discriminate].
  injection Hi as <-. apply lights_inv.
Qed.

(** *** The blocks of [sleep_handler] *)

Lemma note_press_ok (t_wake : float) (kp : t) : ok kp -> ok (note_press t_wake kp).
Proof.
  intros Hok. unfold note_press. destruct (any_pressed kp); [|exact Hok].
  apply (ok_with kp _ Hok); try reflexivity; apply Hok.
Qed.

Lemma engage_returns (kp : t) (since : float) :
  ok kp ->
  time_since_last_press kp = Some since ->
  exists kp',
    engage kp = Ok kp' /\ ok kp' /\
    (Forall inv (keys kp) -> Forall inv (keys kp')).
Proof.
  intros Hok Hsince. unfold engage. rewrite Hsince.
  destruct (led_sleep_enabled kp && negb (sleeping kp));
    [|exists kp; auto].
  destruct (Fltb (led_sleep_time kp) since); [|exists kp; auto].
  assert (Hsnap : length (snapshot (keys kp)) = 16%nat)
    by (rewrite snapshot_length; apply Hok).
  set (kp1 := with_last_led_states (Some (snapshot (keys kp)))
                (with_sleeping true kp)).
  assert (Hok1 : ok kp1).
  { apply (ok_with kp _ Hok); try reflexivity; [apply Hok|].
    intros _. exists (snapshot (keys kp)). auto. }
  change (keys (with_sleeping true kp)) with (keys kp). fold kp1.
  rewrite (set_all_ok 0 0 0 kp1 Hok1).
  change (sleeping kp1) with true. cbn [mbind Res_bind].
  eexists. split; [reflexivity|]. split.
  - apply (ok_with (all_lit black kp1) _ (all_lit_ok black kp1 Hok1));
      try reflexivity.
    + apply (all_lit_ok black kp1 Hok1).
    + intros _. exists (snapshot (keys kp)). auto.
  - intros _. apply inv_all_lit.
Qed.

Lemma wake_returns (kp : t) :
  ok kp ->
  exists kp',
    wake kp = Ok kp' /\ ok kp' /\
    (Forall inv (keys kp) -> Forall inv (keys kp')).
Proof.
  intros Hok. unfold wake.
  destruct (sleeping kp); cbn [negb andb]; [exists kp; auto|].
  destruct (was_asleep kp) eqn:Hwas; [|exists kp; auto].
  destruct (ok_saved kp Hok Hwas) as (l & Hl & Hll).
  rewrite (restore_all kp l) by (first [apply Hok | exact Hl | exact Hll]).
  cbn [mbind Res_bind]. eexists. split; [reflexivity|]. split.
  - apply relit_ok; assumption.
  - intros _. apply inv_zip_lights.
Qed.

(** On a well-formed keypad [sleep_handler] always returns, keeps the
    keypad well formed, and every key it touches was touched by
    [set_led]. *)
Lemma sleep_handler_returns (t_wake t_now : float) (kp : t) :
  ok kp ->
  exists kp',
    sleep_handler t_wake t_now kp = Ok kp' /\ ok kp' /\
    (Forall inv (keys kp) -> Forall inv (keys kp')).
Proof.
  intros Hok. unfold sleep_handler.
  pose proof (note_press_ok t_wake kp Hok) as HokA.
  assert (HkeysA : keys (note_press t_wake kp) = keys kp)
    by (unfold note_press; destruct (any_pressed kp); reflexivity).
  set (kpA := note_press t_wake kp) in *.
  set (kpB := with_time_since_last_press
                (Some (t_now - time_of_last_press kpA)%float) kpA).
  assert (HokB : ok kpB).
  { apply (ok_with kpA _ HokA); try reflexivity; apply HokA. }
  destruct (engage_returns kpB _ HokB eq_refl) as (kpC & HC & HokC & HinvC).
  destruct (wake_returns kpC HokC) as (kpD & HD & HokD & HinvD).
  exists kpD. rewrite HC. cbn [mbind Res_bind]. rewrite HD.
  split; [reflexivity|]. split; [exact HokD|].
  intros Hinv. apply HinvD, HinvC. change (keys kpB) with (keys kpA).
  rewrite HkeysA. exact Hinv.
Qed.

(** *** The three ways through [sleep_handler] that matter for sleep *)

(** No key pressed, awake, and the timeout has passed: the keypad
    takes the snapshot and goes dark. *)
Lemma sleep_handler_falls_asleep (t_wake t_now : float) (kp : t) :
  ok kp ->
  led_sleep_enabled kp = true ->
  sleeping kp = false ->
  any_pressed kp = false ->
  Fltb (led_sleep_time kp) (t_now - time_of_last_press kp) = true ->
  sleep_handler t_wake t_now kp
  = Ok (with_was_asleep true
          (all_lit black
             (with_last_led_states (Some (snapshot (keys kp)))
                (with_sleeping true
                   (with_time_since_last_press
                      (Some (t_now - time_of_last_press kp)%float) kp))))).
Proof.
  intros Hok Hen Hsl Hnone Hlt.
  unfold sleep_handler, note_press, engage, wake. rewrite Hnone.
  cbn [led_sleep_enabled with_time_since_last_press sleeping led_sleep_time
       time_since_last_press].
  rewrite Hen, Hsl. cbn [negb andb].
  rewrite Hlt.
  rewrite set_all_ok.
  - reflexivity.
  - apply (ok_with kp); try reflexivity; try exact Hok.
    + apply Hok.
    + intros _. exists (snapshot (keys kp)). split; [reflexivity|].
      rewrite snapshot_length. apply Hok.
Qed.



(** A key pressed, but the test of line 111 finds more than the
    timeout between the two clock reads of the cycle: the keypad, just
    marked awake, takes a new snapshot and goes dark again; nothing is
    written back. *)
Lemma sleep_handler_sleeps_again (t_wake t_now : float) (kp : t) :
  ok kp ->
  led_sleep_enabled kp = true ->
  any_pressed kp = true ->
  Fltb (led_sleep_time kp) (t_now - t_wake) = true ->
  sleep_handler t_wake t_now kp
  = Ok (with_was_asleep true
          (all_lit black
             (with_last_led_states (Some (snapshot (keys kp)))
                (with_sleeping true
                   (with_time_since_last_press (Some (t_now - t_wake)%float)
                      (with_sleeping false
                         (with_time_of_last_press t_wake kp))))))).
Proof.
  intros Hok Hen Hany Hlt.
  unfold sleep_handler, note_press. rewrite Hany.
  set (kpB := with_time_since_last_press
                (Some (t_now
                       - time_of_last_press
                           (with_sleeping false
                              (with_time_of_last_press t_wake kp)))%float)
                (with_sleeping false (with_time_of_last_press t_wake kp))).
  set (kp1 := with_last_led_states (Some (snapshot (keys kp)))
                (with_sleeping true kpB)).
  assert (Hok1 : ok kp1).
  { apply (ok_with kp _ Hok); try reflexivity; [apply Hok|].
    intros _. exists (snapshot (keys kp)). split; [reflexivity|].
    rewrite snapshot_length. apply Hok. }
  assert (Heng : engage kpB = Ok (with_was_asleep true (all_lit black kp1))).
  { unfold engage. change (sleeping kpB) with false.
    change (led_sleep_enabled kpB) with (led_sleep_enabled kp).
    change (time_since_last_press kpB) with (Some (t_now - t_wake)%float).
    change (led_sleep_time kpB) with (led_sleep_time kp).
    rewrite Hen. cbv beta iota. change (true && negb false) with true.
    cbv beta iota.
    rewrite Hlt.
    change (keys (with_sleeping true kpB)) with (keys kp).
    fold kp1. rewrite (set_all_ok 0 0 0 kp1 Hok1). reflexivity. }
  rewrite Heng. reflexivity.
Qed.

(** What the snapshot of line 113 holds. *)
Lemma snapshot_lookup (ks : list Key.t) (i : nat) (k : Key.t) :
  ks !! i = Some k ->
  snapshot ks !! i = Some (if Key.lit k then Key.rgb k else black).
Proof.
  intros Hk. unfold snapshot. rewrite list_lookup_fmap, Hk. reflexivity.
Qed.

Lemma snapshot_dark (ks : list Key.t) :
  Forall (fun k => Key.lit k = false) ks ->
  snapshot ks = replicate (length ks) black.
Proof.
  intros H. unfold snapshot. apply const_fmap. intros i k Hi.
  rewrite (proj1 (Forall_lookup _ _) H i k Hi). reflexivity.
Qed.

Lemma press_ok (i : nat) (kp : t) : ok kp -> ok (Demo.press i kp).
Proof.
  intros Hok. apply (ok_with kp _ Hok); cbn.
  - apply length_alter.
  - reflexivity.
  - intros j k Hj. rewrite list_lookup_alter in Hj.
    destruct (decide (i = j)) as [->|_].
    + destruct (keys kp !! j) as [k0|] eqn:E; [|discriminate].
      injection Hj as <-. apply (ok_numbers kp Hok j k0 E).
    + apply (ok_numbers kp Hok j k Hj).
  - apply Hok.
Qed.

Lemma press_dark (i : nat) (kp : t) : dark kp -> dark (Demo.press i kp).
Proof.
  intros [Hp Hd]. split; [exact Hp|].
  change (keys (Demo.press i kp))
    with (alter (fun k => Key.with_pressed 1 (Key.with_key_state 1 k)) i
            (keys kp)).
  apply Forall_lookup. intros j k Hj. rewrite list_lookup_alter in Hj.
  destruct (decide (i = j)) as [->|_].
  - destruct (keys kp !! j) as [k0|] eqn:E0; [|discriminate].
    injection Hj as <-.
    exact (proj1 (Forall_lookup _ _) Hd j k0 E0).
  - exact (proj1 (Forall_lookup _ _) Hd j k Hj).
Qed.

End PadFacts.

(** ** The sleep coordinator *)

Section SleepFacts.

Import RGBKeyPad Pad Led.

Lemma fresh_pad_ok : ok Demo.fresh_pad.
Proof.
  split; try reflexivity.
  - intros i k Hi.
    do 16 (destruct i as [|i]; [injection Hi as <-; reflexivity|]).
    discriminate Hi.
  - discriminate.
Qed.

Lemma blue_pad_ok : ok Demo.blue_pad.
Proof. apply all_lit_ok, fresh_pad_ok. Qed.

Lemma sleepy_pad_ok : ok Demo.sleepy_pad.
Proof.
  apply (ok_with (all_lit black Demo.blue_pad) _
           (all_lit_ok black _ blue_pad_ok)); try reflexivity.
  - apply (all_lit_ok black _ blue_pad_ok).
  - intros _. eexists. split; reflexivity.
Qed.

Lemma sleepy_pad_dark : dark Demo.sleepy_pad.
Proof.
  split; [reflexivity|].
  change (keys Demo.sleepy_pad)
    with (lights black <$> keys Demo.blue_pad).
  apply Forall_fmap, Forall_forall. intros k _. reflexivity.
Qed.

Lemma sleepy_pad_reached :
  sleep_handler 2 2 Demo.blue_pad = Ok Demo.sleepy_pad.
Proof.
  apply sleep_handler_falls_asleep; try reflexivity. apply blue_pad_ok.
Qed.







(** C3, at the input on which the code departs from it.
    [Demo.sleepy_pad] is the keypad asleep (reached from a blue keypad
    by a cycle past the timeout), every LED dark.  [set_all] tests
    [self.sleeping] and leaves it dark; [RGBKeyPad.set_led] does not
    and lights key 0 red while the keypad stays asleep. *)
Theorem set_led_ignores_sleep :
  sleep_handler 2 2 Demo.blue_pad = Ok Demo.sleepy_pad /\
  sleeping Demo.sleepy_pad = true /\
  dark Demo.sleepy_pad /\
  (exists kp', set_all 255 0 0 Demo.sleepy_pad = Ok kp' /\ dark kp') /\
  exists kp' k,
    set_led 0 255 0 0 Demo.sleepy_pad = Ok kp' /\
    sleeping kp' = true /\
    pixels kp' !! 0%nat = Some (255, 0, 0) /\
    keys kp' !! 0%nat = Some k /\
    Key.lit k = true /\
    Key.rgb k = (255, 0, 0).
Proof.
  pose proof sleepy_pad_ok as Hok.
  split; [exact sleepy_pad_reached|]. split; [reflexivity|].
  split; [exact sleepy_pad_dark|]. split.
  - exists (all_lit black Demo.sleepy_pad).
    rewrite (set_all_ok 255 0 0 _ Hok).
    split; [reflexivity | apply all_lit_black_dark].
  - destruct (lookup_lt_is_Some_2 (keys Demo.sleepy_pad) 0) as [k0 Hk0];
      [rewrite (ok_keys _ Hok); lia|].
    pose proof (on_key_set_led 0 255 0 0 Demo.sleepy_pad k0
                  (ok_pixels _ Hok) (ok_numbers _ Hok) Hk0 ltac:(lia)) as E.
    eexists. exists (lights (255, 0, 0) k0).
    split; [exact E|]. split; [reflexivity|].
    cbn [pixels keys with_pixels with_keys].
    split; [apply list_lookup_insert_eq; rewrite (ok_pixels _ Hok); lia|].
    split; [apply list_lookup_insert_eq; rewrite (ok_keys _ Hok); lia|].
    split; reflexivity.
Qed.

(** While the keypad sleeps, [set_all] with any colour turns every key
    off instead: the strip is all black, no key is lit, and the
    remembered colours, the snapshot and the sleep state are untouched.
    [set_led] on a key of the sleeping keypad writes the colour it is
    given to the key's pixel, and the keypad stays asleep. *)
Theorem sleeping_set_all_goes_dark (kp : t) :
  ok kp ->
  sleeping kp = true ->
  (forall r g b,
      exists kp',
        set_all r g b kp = Ok kp' /\ dark kp' /\ ok kp' /\
        config kp' = config kp /\
        Forall2 (fun k k' => Key.rgb k' = Key.rgb k) (keys kp) (keys kp')) /\
  (forall i r g b k,
      keys kp !! i = Some k ->
      exists kp',
        set_led (Z.of_nat i) r g b kp = Ok kp' /\
        Key.set_led r g b k (pixels kp) = Ok (lights (r, g, b) k, pixels kp') /\
        pixels kp' !! i = Some (r, g, b) /\
        keys kp' !! i = Some (lights (r, g, b) k) /\
        sleeping kp' = true).
Proof.
  intros Hok Hsl. split.
  - intros r g b. exists (all_lit black kp).
    rewrite (set_all_ok r g b kp Hok), Hsl.
    split; [reflexivity|]. split; [apply all_lit_black_dark|].
    split; [apply all_lit_ok; exact Hok|]. split; [reflexivity|].
    cbn. apply Forall2_fmap_r, Forall_Forall2_diag, Forall_forall.
    intros k _. reflexivity.
  - intros i r g b k Hk.
    assert (Hi : (i < 16)%nat).
    { rewrite <- (ok_keys kp Hok). eapply lookup_lt_Some. exact Hk. }
    unfold set_led.
    rewrite (on_key_set_led i r g b kp k (ok_pixels kp Hok)
               (ok_numbers kp Hok) Hk Hi).
    eexists. split; [reflexivity|]. cbn.
    assert (Hslot : slot k (pixels kp) = Ok i).
    { unfold slot. rewrite (ok_numbers kp Hok i k Hk). simpl.
      apply py_index_nat. rewrite (ok_pixels kp Hok). exact Hi. }
    split; [apply set_led_ok; exact Hslot|].
    pose proof (ok_pixels kp Hok) as Hp.
    pose proof (ok_keys kp Hok) as Hks.
    split; [apply list_lookup_insert_eq; lia|].
    split; [apply list_lookup_insert_eq; lia|].
    exact Hsl.
Qed.

Lemma sleeping_set_all_goes_dark_witness :
  (exists kp', set_all 7 8 9 Demo.sleepy_pad = Ok kp' /\ dark kp') /\
  (exists kp', set_led 0 255 0 0 Demo.sleepy_pad = Ok kp' /\
               pixels kp' !! 0%nat = Some (255, 0, 0)).
Proof.
  destruct (sleeping_set_all_goes_dark Demo.sleepy_pad sleepy_pad_ok eq_refl)
    as [Hall Hone].
  split.
  - destruct (Hall 7 8 9) as (kp' & E & Hd & _). exists kp'. auto.
  - destruct (Hone 0%nat 255 0 0 _ eq_refl) as (kp' & E & _ & Hp & _).
    exists kp'. auto.
Defined.

(** C10.  "A lit key remembers a colour that is not black" holds for
    the key every constructor call builds and is kept by every LED
    call ([set_led], [led_on], [led_off], [led_state], [toggle_led])
    and by the sleep coordinator, all of which return on a key that
    sits on the strip.  [set_led] with a black triple clears [lit] and
    leaves [rgb] as it was, so that [led_on] afterwards relights the
    key in the colour it had. *)
Theorem lit_key_remembers_colour (k : Key.t) (px : Pixels) :
  inv k ->
  on_strip k px ->
  (forall o,
      exists k' px',
        exec o k px = Ok (k', px') /\ inv k' /\ on_strip k' px') /\
  (forall r g b,
      is_black (r, g, b) = true ->
      exists k' px',
        Key.set_led r g b k px = Ok (k', px') /\
        Key.lit k' = false /\ Key.rgb k' = Key.rgb k /\
        (is_black (Key.rgb k) = false ->
         exists k'' px'',
           Key.led_on k' px' = Ok (k'', px'') /\
           Key.lit k'' = true /\ Key.rgb k'' = Key.rgb k /\
           pixel k'' px'' = Some (Key.rgb k))) /\
  (forall number px0 key_state board_state now k0 px1,
      Key.init number px0 key_state board_state now = Ok (k0, px1) ->
      inv k0) /\
  (forall t_wake t_now kp,
      ok kp -> Forall inv (keys kp) ->
      exists kp',
        sleep_handler t_wake t_now kp = Ok kp' /\ ok kp' /\
        Forall inv (keys kp')).
Proof.
  intros Hinv Hs.
  split; [intros o; apply exec_returns; assumption|].
  split; [|split].
  - intros r g b Hb.
    destruct (set_led_returns r g b k px Hs) as (px' & E & Hs' & _).
    rewrite (lights_black _ _ Hb) in E, Hs'.
    exists (Key.with_lit false k), px'.
    split; [exact E|]. split; [reflexivity|]. split; [reflexivity|].
    intros Hcol. unfold Key.led_on.
    change (Key.rgb (Key.with_lit false k)) with (Key.rgb k).
    destruct (Key.rgb k) as [[r' g'] b'] eqn:Hrgb.
    destruct (set_led_returns r' g' b' _ px' Hs') as (px'' & E' & _ & Hp).
    exists (lights (r', g', b') (Key.with_lit false k)), px''.
    split; [exact E'|].
    rewrite lights_lit, lights_rgb, Hcol. auto.
  - intros number px0 ks bs now k0 px1 Hinit.
    apply init_inv in Hinit. tauto.
  - intros t_wake t_now kp Hok Hall.
    destruct (sleep_handler_returns t_wake t_now kp Hok)
      as (kp' & E & Hok' & Hinv').
    exists kp'. auto.
Qed.

Lemma lit_key_remembers_colour_witness :
  exists k' px',
    Key.led_off (lights (10, 20, 30) (Demo.fresh_key 3 0 0))
      (<[3%nat := (10, 20, 30)]> Demo.dark_strip) = Ok (k', px') /\
    Key.lit k' = false /\ Key.rgb k' = (10, 20, 30).
Proof.
  assert (Hinv : inv (lights (10, 20, 30) (Demo.fresh_key 3 0 0)))
    by apply lights_inv.
  assert (Hs : on_strip (lights (10, 20, 30) (Demo.fresh_key 3 0 0))
                 (<[3%nat := (10, 20, 30)]> Demo.dark_strip))
    by exact I.
  destruct (lit_key_remembers_colour _ _ Hinv Hs) as (_ & Hblack & _).
  destruct (Hblack 0 0 0 eq_refl) as (k' & px' & E & Hl & Hr & _).
  exists k', px'. auto.
Defined.

End SleepFacts.

(** ** The per-key state machine *)

Section KeySimulation.

Import Machine.

Variable call : Key.handler_env.
Hypothesis call_frame : frame call.

Lemma count_app (p : event -> bool) (l1 l2 : list event) :
  count p (l1 ++ l2) = (count p l1 + count p l2)%nat.
Proof. unfold count. rewrite filter_app, length_app. reflexivity. Qed.


Lemma registered_has (table : option (gmap string (option callable)))
    (m : string) :
  registered table m -> has table = true.
Proof.
  unfold registered, callee. destruct table; [reflexivity|].
  intros [f Hf]. discriminate.
Qed.

Lemma wired_callee (table : option (gmap string (option callable)))
    (m : string) :
  wired table m -> has table = true -> exists f, callee table m = Some f.
Proof.
  intros [-> | [f Hf]] Hhas; [discriminate|]. exists f. exact Hf.
Qed.

(** A dispatch on a table that holds a handler for the mode calls it
    and logs the call; the state machine is as before. *)
Lemma invoke_registered (mk_ : callable -> event)
    (d : gmap string (option callable)) (k : Key.t) (px : Pixels)
    (log : list event) (f : callable) :
  callee (Some d) (Key.board_state k) = Some f ->
  exists k' px',
    Key.invoke call mk_ d (k, px, log) = Ok (k', px', log ++ [mk_ f]) /\
    of_key k' = of_key k.
Proof.
  unfold callee, Key.invoke. intros Hf.
  destruct (d !! Key.board_state k) as [[g|]|]; try discriminate.
  injection Hf as ->.
  pose proof (call_frame f k px) as Hfr.
  destruct (call f k px) as [k' px']. simpl in Hfr.
  exists k', px'. split; [reflexivity | exact Hfr].
Qed.

(** Functions of the state machine alone. *)
Lemma of_key_press_fired (b : bool) (k1 k2 : Key.t) :
  of_key k1 = of_key k2 ->
  of_key (Key.with_press_func_fired b k1)
  = of_key (Key.with_press_func_fired b k2).
Proof. intros H. by_fields H. Qed.

Lemma of_key_hold_fired (b : bool) (k1 k2 : Key.t) :
  of_key k1 = of_key k2 ->
  of_key (Key.with_hold_func_fired b k1)
  = of_key (Key.with_hold_func_fired b k2).
Proof. intros H. by_fields H. Qed.

Lemma of_key_last_state (o : option bool) (k1 k2 : Key.t) :
  of_key k1 = of_key k2 ->
  of_key (Key.with_last_state o k1) = of_key (Key.with_last_state o k2).
Proof. intros H. by_fields H. Qed.

Lemma of_key_held (b : bool) (k : Key.t) :
  of_key (Key.with_held b k) = of_key k.
Proof. reflexivity. Qed.

Lemma of_key_release_due (k1 k2 : Key.t) :
  of_key k1 = of_key k2 -> release_due k1 = release_due k2.
Proof. intros H. unfold release_due. by_fields H. Qed.

Lemma of_key_after_release (k1 k2 : Key.t) :
  of_key k1 = of_key k2 ->
  of_key (after_release k1) = of_key (after_release k2).
Proof.
  intros H. unfold after_release. rewrite (of_key_release_due k1 k2 H).
  destruct (release_due k2); [|exact H].
  apply of_key_press_fired, of_key_last_state, H.
Qed.

Lemma of_key_timing (t1 : float) (k1 k2 : Key.t) :
  of_key k1 = of_key k2 ->
  of_key (Key.timing_phase t1 k1) = of_key (Key.timing_phase t1 k2).
Proof.
  intros H. unfold Key.timing_phase.
  assert (Hp : Key.pressed k1 = Key.pressed k2) by by_fields H.
  assert (Hl : Key.last_state k1 = Key.last_state k2) by by_fields H.
  rewrite Hp, Hl.
  destruct (truthy (Key.pressed k2)), (truthy_opt (Key.last_state k2));
    simpl; by_fields H.
Qed.

Lemma of_key_hold_over (k1 k2 : Key.t) :
  of_key k1 = of_key k2 -> hold_over k1 = hold_over k2.
Proof. intros H. unfold hold_over. by_fields H. Qed.

Lemma of_key_hold_due (k1 k2 : Key.t) :
  of_key k1 = of_key k2 -> hold_due k1 = hold_due k2.
Proof.
  intros H. unfold hold_due. rewrite (of_key_hold_over k1 k2 H).
  by_fields H.
Qed.

Lemma of_key_after_hold (k1 k2 : Key.t) :
  of_key k1 = of_key k2 ->
  of_key (after_hold k1) = of_key (after_hold k2).
Proof.
  intros H. unfold after_hold. rewrite (of_key_hold_over k1 k2 H).
  assert (Hh : Key.hold_functions k1 = Key.hold_functions k2)
    by by_fields H.
  assert (Hf : Key.hold_func_fired k1 = Key.hold_func_fired k2)
    by by_fields H.
  rewrite Hh, Hf.
  destruct (hold_over k2).
  - destruct (has (Key.hold_functions k2) && negb (Key.hold_func_fired k2)).
    + apply of_key_hold_fired. rewrite !of_key_held. exact H.
    + rewrite !of_key_held. exact H.
  - apply of_key_hold_fired. rewrite !of_key_held. exact H.
Qed.

Lemma of_key_tables (k1 k2 : Key.t) :
  of_key k1 = of_key k2 ->
  Key.board_state k1 = Key.board_state k2 /\
  Key.press_functions k1 = Key.press_functions k2 /\
  Key.release_functions k1 = Key.release_functions k2 /\
  Key.hold_functions k1 = Key.hold_functions k2.
Proof. intros H. repeat split; by_fields H. Qed.

(** *** The phases of [update] against their handler-free versions *)

Lemma calls_due (mk_ : callable -> event)
    (table : option (gmap string (option callable))) (m : string)
    (f : callable) :
  callee table m = Some f -> calls mk_ true table m = [mk_ f].
Proof. unfold calls. intros ->. reflexivity. Qed.

Lemma press_phase_sim (k : Key.t) (px : Pixels) (log : list event) :
  wired (Key.press_functions k) (Key.board_state k) ->
  exists k' px',
    Key.press_phase call (k, px, log)
    = Ok (k', px',
          log ++ calls PressCall (press_due k) (Key.press_functions k)
                   (Key.board_state k)) /\
    of_key k' = of_key (after_press k).
Proof.
  intros Hw. unfold Key.press_phase, after_press, press_due.
  destruct (Key.press_functions k) as [d|] eqn:Hd; cbn [has andb].
  - destruct (truthy (Key.pressed k) && negb (Key.press_func_fired k)
              && negb (Key.key_locked k)) eqn:Hdue.
    + destruct (wired_callee _ _ Hw eq_refl) as [f Hf].
      destruct (invoke_registered PressCall d k px log f Hf)
        as (k' & px' & Hinv & Hk').
      rewrite Hinv, (calls_due _ _ _ f Hf). cbn [mbind Res_bind].
      exists (Key.with_press_func_fired true k'), px'.
      split; [reflexivity|]. apply of_key_press_fired, Hk'.
    + exists k, px. unfold calls. rewrite app_nil_r. auto.
  - exists k, px. unfold calls. rewrite app_nil_r. auto.
Qed.

Lemma release_phase_sim (k : Key.t) (px : Pixels) (log : list event) :
  wired (Key.release_functions k) (Key.board_state k) ->
  exists k' px',
    Key.release_phase call (k, px, log)
    = Ok (k', px',
          log ++ calls ReleaseCall
                   (release_due k && has (Key.release_functions k))
                   (Key.release_functions k) (Key.board_state k)) /\
    of_key k' = of_key (after_release k).
Proof.
  intros Hw. unfold Key.release_phase, after_release.
  fold (release_due k).
  destruct (release_due k) eqn:Hdue; cbn [andb].
  - destruct (Key.release_functions k) as [d|] eqn:Hd; cbn [has].
    + destruct (wired_callee _ _ Hw eq_refl) as [f Hf].
      destruct (invoke_registered ReleaseCall d k px log f Hf)
        as (k' & px' & Hinv & Hk').
      rewrite Hinv, (calls_due _ _ _ f Hf). cbn [mbind Res_bind].
      eexists _, px'. split; [reflexivity|].
      apply of_key_press_fired, of_key_last_state, Hk'.
    + eexists _, px. unfold calls. rewrite app_nil_r.
      cbn [mbind Res_bind]. split; reflexivity.
  - exists k, px. unfold calls. rewrite app_nil_r. auto.
Qed.

Lemma hold_phase_sim (k : Key.t) (px : Pixels) (log : list event) :
  wired (Key.hold_functions k) (Key.board_state k) ->
  exists k' px',
    Key.hold_phase call (k, px, log)
    = Ok (k', px',
          log ++ calls HoldCall (hold_due k) (Key.hold_functions k)
                   (Key.board_state k)) /\
    of_key k' = of_key (after_hold k) /\
    (hold_over k = false -> Key.held k' = false).
Proof.
  intros Hw. unfold Key.hold_phase, after_hold, hold_due.
  fold (hold_over k).
  destruct (hold_over k) eqn:Hover; cbn [andb].
  - change (Key.hold_functions (Key.with_held true k))
      with (Key.hold_functions k).
    change (Key.hold_func_fired (Key.with_held true k))
      with (Key.hold_func_fired k).
    destruct (Key.hold_functions k) as [d|] eqn:Hd; cbn [has andb].
    + destruct (Key.hold_func_fired k) eqn:Hf0; cbn [negb].
      * eexists _, px. unfold calls. rewrite app_nil_r.
        split; [reflexivity|]. split; [reflexivity | discriminate].
      * assert (Hw' : callee (Some d)
                        (Key.board_state (Key.with_held true k))
                      = callee (Some d) (Key.board_state k)) by reflexivity.
        destruct (wired_callee _ _ Hw eq_refl) as [f Hf].
        rewrite <- Hw' in Hf.
        destruct (invoke_registered HoldCall d (Key.with_held true k) px log
                    f Hf) as (k' & px' & Hinv & Hk').
        rewrite Hinv, (calls_due _ _ _ f Hf). cbn [mbind Res_bind].
        eexists _, px'. split; [reflexivity|].
        split; [apply of_key_hold_fired, Hk' | discriminate].
    + eexists _, px. unfold calls. rewrite app_nil_r.
      split; [reflexivity|]. split; [reflexivity | discriminate].
  - eexists _, px. unfold calls. rewrite app_nil_r.
    split; [reflexivity|]. split; reflexivity.
Qed.

(** *** Wiring is static *)

Lemma wiring_of_key (k1 k2 : Key.t) :
  of_key k1 = of_key k2 -> wiring k1 = wiring k2.
Proof. intros H. unfold wiring. by_fields H. Qed.

Lemma wired_key_wiring (k1 k2 : Key.t) :
  wiring k1 = wiring k2 -> wired_key k1 -> wired_key k2.
Proof.
  unfold wiring, wired_key. intros [= -> -> -> ->]. auto.
Qed.

Lemma wiring_sample (r : Z) (t0 : float) (k : Key.t) :
  wiring (Key.sample t0 (Key.with_current_state r k)) = wiring k.
Proof. reflexivity. Qed.

Lemma wiring_after_press (k : Key.t) : wiring (after_press k) = wiring k.
Proof. unfold after_press. destruct (press_due k); reflexivity. Qed.

Lemma wiring_after_release (k : Key.t) : wiring (after_release k) = wiring k.
Proof. unfold after_release. destruct (release_due k); reflexivity. Qed.

Lemma wiring_timing (t1 : float) (k : Key.t) :
  wiring (Key.timing_phase t1 k) = wiring k.
Proof.
  unfold Key.timing_phase.
  destruct (truthy (Key.pressed k)), (truthy_opt (Key.last_state k));
    reflexivity.
Qed.

Lemma wiring_after_hold (k : Key.t) : wiring (after_hold k) = wiring k.
Proof.
  unfold after_hold.
  destruct (hold_over k);
    [destruct (has (Key.hold_functions k) && negb (Key.hold_func_fired k))|];
    reflexivity.
Qed.

Lemma wiring_next (r : Z) (t0 t1 : float) (k : Key.t) :
  wiring (next r t0 t1 k) = wiring k.
Proof.
  unfold next.
  rewrite wiring_after_hold, wiring_timing, wiring_after_release,
    wiring_after_press.
  apply wiring_sample.
Qed.

Lemma wired_next (r : Z) (t0 t1 : float) (k : Key.t) :
  wired_key k -> wired_key (next r t0 t1 k).
Proof. apply wired_key_wiring. symmetry. apply wiring_next. Qed.

Lemma calls_wiring (mk_ : callable -> event) (due : bool) (k1 k2 : Key.t) :
  wiring k1 = wiring k2 ->
  calls mk_ due (Key.press_functions k1) (Key.board_state k1)
  = calls mk_ due (Key.press_functions k2) (Key.board_state k2) /\
  calls mk_ due (Key.release_functions k1) (Key.board_state k1)
  = calls mk_ due (Key.release_functions k2) (Key.board_state k2) /\
  calls mk_ due (Key.hold_functions k1) (Key.board_state k1)
  = calls mk_ due (Key.hold_functions k2) (Key.board_state k2).
Proof. unfold wiring. intros [= -> -> -> ->]. auto. Qed.

(** *** One cycle and a run of cycles *)

Lemma sample_respects (r : Z) (t0 : float) (k1 k2 : Key.t) :
  of_key k1 = of_key k2 ->
  of_key (Key.sample t0 (Key.with_current_state r k1))
  = of_key (Key.sample t0 (Key.with_current_state r k2)) /\
  Key.key_locked (Key.sample t0 (Key.with_current_state r k1))
  = Key.key_locked (Key.sample t0 (Key.with_current_state r k2)).
Proof.
  intros H. split.
  - unfold Key.sample. by_fields H.
  - unfold Key.sample. cbn. use_field time_of_last_press H.
    use_field debounce H. reflexivity.
Qed.

Lemma press_due_respects (k1 k2 : Key.t) :
  of_key k1 = of_key k2 -> Key.key_locked k1 = Key.key_locked k2 ->
  press_due k1 = press_due k2.
Proof.
  intros H Hl. unfold press_due. rewrite Hl.
  use_field pressed H. use_field press_functions H.
  use_field press_func_fired H. reflexivity.
Qed.

Lemma after_press_respects (k1 k2 : Key.t) :
  of_key k1 = of_key k2 -> Key.key_locked k1 = Key.key_locked k2 ->
  of_key (after_press k1) = of_key (after_press k2).
Proof.
  intros H Hl. unfold after_press.
  rewrite (press_due_respects k1 k2 H Hl).
  destruct (press_due k2); [apply of_key_press_fired|]; exact H.
Qed.

(** *** The closed form of one cycle *)


Lemma next_step (r : Z) (t0 t1 : float) (k : Key.t) :
  of_key (next r t0 t1 k) = step r t0 t1 (of_key k).
Proof.
  remember (of_key k) as m eqn:Hm.
  unfold next, Key.sample. destruct k. unfold of_key in Hm. key_cbn.
  cbn in Hm. subst m. unfold step. machine_cbn.
  destruct (truthy r) eqn:Hr.
  - unfold after_press, press_due. key_cbn. rewrite Hr.
    destruct (has press_functions0), press_func_fired0,
      (Fltb (t0 - time_of_last_press0) debounce0); key_cbn;
    unfold after_release, release_due; key_cbn; rewrite Hr; key_cbn;
    unfold Key.timing_phase; key_cbn; rewrite Hr; key_cbn;
    destruct (truthy_opt last_state0); key_cbn;
    unfold after_hold, hold_over; key_cbn;
    match goal with |- context [Fltb ?a ?b] => destruct (Fltb a b) end;
    destruct (has hold_functions0), hold_func_fired0; key_cbn;
    reflexivity.
  - unfold after_press, press_due. key_cbn. rewrite Hr.
    rewrite !andb_false_r. cbn [andb].
    unfold after_release, release_due; key_cbn; rewrite Hr; key_cbn.
    destruct (truthy_opt last_state0); key_cbn;
    unfold Key.timing_phase; key_cbn; rewrite Hr; key_cbn;
    unfold after_hold, hold_over; key_cbn;
    match goal with |- context [Fltb ?a ?b] => destruct (Fltb a b) end;
    destruct (has hold_functions0), hold_func_fired0; key_cbn;
    reflexivity.
Qed.

Lemma events_flags (r : Z) (t0 t1 : float) (k : Key.t) :
  events r t0 t1 k
  = calls PressCall (press_flag r t0 (of_key k)) (Key.press_functions k)
      (Key.board_state k)
    ++ calls ReleaseCall (release_flag r (of_key k))
         (Key.release_functions k) (Key.board_state k)
    ++ calls HoldCall (hold_flag r t1 (of_key k)) (Key.hold_functions k)
         (Key.board_state k).
Proof.
  remember (of_key k) as m eqn:Hm.
  unfold events, Key.sample. destruct k. unfold of_key in Hm. key_cbn.
  cbn in Hm. subst m. unfold press_flag, release_flag, hold_flag, over.
  machine_cbn.
  destruct (truthy r) eqn:Hr.
  - unfold after_press, press_due. key_cbn. rewrite Hr.
    destruct (has press_functions0), press_func_fired0,
      (Fltb (t0 - time_of_last_press0) debounce0); key_cbn;
    unfold after_release, release_due; key_cbn; rewrite Hr; key_cbn;
    unfold Key.timing_phase; key_cbn; rewrite Hr; key_cbn;
    destruct (truthy_opt last_state0); key_cbn;
    unfold hold_due, hold_over; key_cbn;
    reflexivity.
  - unfold after_press, press_due. key_cbn. rewrite Hr.
    rewrite !andb_false_r. cbn [andb]. key_cbn.
    unfold after_release, release_due; key_cbn; rewrite Hr; key_cbn.
    destruct (truthy_opt last_state0); key_cbn;
    unfold Key.timing_phase; key_cbn; rewrite Hr; key_cbn;
    unfold hold_due, hold_over; key_cbn;
    reflexivity.
Qed.

Lemma over_next (r : Z) (t0 t1 : float) (k : Key.t) :
  hold_over
    (Key.timing_phase t1
       (after_release
          (after_press (Key.sample t0 (Key.with_current_state r k)))))
  = over r t1 (of_key k).
Proof.
  remember (of_key k) as m eqn:Hm.
  unfold Key.sample. destruct k. unfold of_key in Hm. key_cbn.
  cbn in Hm. subst m. unfold over. machine_cbn.
  destruct (truthy r) eqn:Hr.
  - unfold after_press, press_due. key_cbn. rewrite Hr.
    destruct (has press_functions0), press_func_fired0,
      (Fltb (t0 - time_of_last_press0) debounce0); key_cbn;
    unfold after_release, release_due; key_cbn; rewrite Hr; key_cbn;
    unfold Key.timing_phase; key_cbn; rewrite Hr; key_cbn;
    destruct (truthy_opt last_state0); key_cbn;
    unfold hold_over; key_cbn;
    reflexivity.
  - unfold after_press, press_due. key_cbn. rewrite Hr.
    rewrite !andb_false_r. cbn [andb]. key_cbn.
    unfold after_release, release_due; key_cbn; rewrite Hr; key_cbn.
    destruct (truthy_opt last_state0); key_cbn;
    unfold Key.timing_phase; key_cbn; rewrite Hr; key_cbn;
    unfold hold_over; key_cbn;
    reflexivity.
Qed.

(** One polling cycle of a wired key returns; its state machine is the
    handler-free [next] and its log grows by [events]. *)
Lemma poll_sim (c : Run.cycle) (k : Key.t) (px : Pixels) (log : list event) :
  wired_key k ->
  exists k' px',
    Run.poll call c (k, px, log)
    = Ok (k', px',
          log ++ events (Run.reading c) (Run.t0 c) (Run.t1 c) k) /\
    of_key k' = of_key (next (Run.reading c) (Run.t0 c) (Run.t1 c) k) /\
    (over (Run.reading c) (Run.t1 c) (of_key k) = false ->
     Key.held k' = false).
Proof.
  intros Hw. unfold Run.poll, Key.update, next, events.
  set (k0 := Key.sample (Run.t0 c)
               (Key.with_current_state (Run.reading c) k)).
  assert (Hw0 : wired_key k0)
    by (apply (wired_key_wiring k); [symmetry; apply wiring_sample | exact Hw]).
  destruct (press_phase_sim k0 px log (proj1 Hw0))
    as (k1 & px1 & E1 & H1).
  rewrite E1. cbn [mbind Res_bind].
  set (log1 := log ++ calls PressCall (press_due k0)
                        (Key.press_functions k0) (Key.board_state k0)).
  assert (W1 : wiring k1 = wiring (after_press k0))
    by (apply wiring_of_key; exact H1).
  assert (Hw1 : wired_key k1).
  { apply (wired_key_wiring k0); [|exact Hw0].
    rewrite W1. symmetry. apply wiring_after_press. }
  destruct (release_phase_sim k1 px1 log1 (proj1 (proj2 Hw1)))
    as (k2 & px2 & E2 & H2).
  rewrite E2. cbn [mbind Res_bind].
  pose proof (of_key_after_release _ _ H1) as H2'.
  rewrite H2' in H2.
  pose proof (of_key_timing (Run.t1 c) _ _ H2) as H3.
  assert (W3 : wiring (Key.timing_phase (Run.t1 c) k2) = wiring k0).
  { rewrite (wiring_of_key _ _ H3), wiring_timing, wiring_after_release.
    apply wiring_after_press. }
  assert (Hw3 : wired_key (Key.timing_phase (Run.t1 c) k2))
    by (apply (wired_key_wiring k0); [symmetry; exact W3 | exact Hw0]).
  match goal with
  | |- context [Key.hold_phase call (?k3, ?px3, ?log3)] =>
      destruct (hold_phase_sim k3 px3 log3 (proj2 (proj2 Hw3)))
        as (k4 & px4 & E4 & H4 & Hheld)
  end.
  assert (ER :
    calls ReleaseCall (release_due k1 && has (Key.release_functions k1))
      (Key.release_functions k1) (Key.board_state k1)
    = calls ReleaseCall
        (release_due (after_press k0)
         && has (Key.release_functions (after_press k0)))
        (Key.release_functions (after_press k0))
        (Key.board_state (after_press k0))).
  { rewrite (of_key_release_due _ _ H1).
    unfold wiring in W1. injection W1 as -> _ -> _. reflexivity. }
  assert (EH :
    calls HoldCall (hold_due (Key.timing_phase (Run.t1 c) k2))
      (Key.hold_functions (Key.timing_phase (Run.t1 c) k2))
      (Key.board_state (Key.timing_phase (Run.t1 c) k2))
    = calls HoldCall
        (hold_due (Key.timing_phase (Run.t1 c)
                     (after_release (after_press k0))))
        (Key.hold_functions (Key.timing_phase (Run.t1 c)
                     (after_release (after_press k0))))
        (Key.board_state (Key.timing_phase (Run.t1 c)
                     (after_release (after_press k0))))).
  { rewrite (of_key_hold_due _ _ H3).
    pose proof (wiring_of_key _ _ H3) as W. unfold wiring in W.
    injection W as -> _ _ ->. reflexivity. }
  rewrite ER in E4 |- *. rewrite EH in E4.
  rewrite E4. exists k4, px4. split; [|split].
  - unfold log1. rewrite <- !app_assoc. reflexivity.
  - rewrite H4. apply of_key_after_hold. exact H3.
  - intros Hover. apply Hheld.
    rewrite (of_key_hold_over _ _ H3). unfold k0.
    rewrite over_next. exact Hover.
Qed.

Lemma count_calls (p : event -> bool) (mk_ : callable -> event) (b : bool)
    (due : bool) (table : option (gmap string (option callable)))
    (m : string) :
  (forall f, p (mk_ f) = b) ->
  wired table m ->
  (due = true -> has table = true) ->
  count p (calls mk_ due table m) = if due && b then 1%nat else 0%nat.
Proof.
  intros Hp Hw Hdue. unfold calls. destruct due; [|reflexivity].
  destruct (wired_callee _ _ Hw (Hdue eq_refl)) as [f ->].
  unfold count. cbn [filter list_filter andb].
  rewrite <- (Hp f). destruct (p (mk_ f)) eqn:E.
  - rewrite decide_True by reflexivity. reflexivity.
  - rewrite decide_False by discriminate. reflexivity.
Qed.

Lemma flag_has_press (r : Z) (t0 : float) (m : Machine.t) :
  press_flag r t0 m = true -> has (press_functions m) = true.
Proof.
  unfold press_flag. destruct (has (press_functions m)); [reflexivity|].
  discriminate.
Qed.

Lemma flag_has_release (r : Z) (m : Machine.t) :
  release_flag r m = true -> has (release_functions m) = true.
Proof.
  unfold release_flag. destruct (has (release_functions m)); [reflexivity|].
  rewrite andb_false_r. discriminate.
Qed.

Lemma flag_has_hold (r : Z) (t1 : float) (m : Machine.t) :
  hold_flag r t1 m = true -> has (hold_functions m) = true.
Proof.
  unfold hold_flag. destruct (has (hold_functions m)); [reflexivity|].
  rewrite andb_false_r. discriminate.
Qed.

(** The calls of one cycle of a wired key, by kind. *)
Lemma events_counts (r : Z) (t0 t1 : float) (k : Key.t) :
  wired_key k ->
  count is_press (events r t0 t1 k)
  = (if press_flag r t0 (of_key k) then 1 else 0)%nat /\
  count is_release (events r t0 t1 k)
  = (if release_flag r (of_key k) then 1 else 0)%nat /\
  count is_hold (events r t0 t1 k)
  = (if hold_flag r t1 (of_key k) then 1 else 0)%nat.
Proof.
  intros (Hp & Hr & Hh). rewrite events_flags, !count_app.
  pose proof (flag_has_press r t0 (of_key k)) as Fp.
  pose proof (flag_has_release r (of_key k)) as Fr.
  pose proof (flag_has_hold r t1 (of_key k)) as Fh.
  repeat split.
  - rewrite (count_calls is_press PressCall true _ _ _ (fun _ => eq_refl) Hp Fp).
    rewrite (count_calls is_press ReleaseCall false _ _ _ (fun _ => eq_refl) Hr Fr).
    rewrite (count_calls is_press HoldCall false _ _ _ (fun _ => eq_refl) Hh Fh).
    rewrite !andb_false_r, andb_true_r. lia.
  - rewrite (count_calls is_release PressCall false _ _ _ (fun _ => eq_refl) Hp Fp).
    rewrite (count_calls is_release ReleaseCall true _ _ _ (fun _ => eq_refl) Hr Fr).
    rewrite (count_calls is_release HoldCall false _ _ _ (fun _ => eq_refl) Hh Fh).
    rewrite !andb_false_r, andb_true_r. lia.
  - rewrite (count_calls is_hold PressCall false _ _ _ (fun _ => eq_refl) Hp Fp).
    rewrite (count_calls is_hold ReleaseCall false _ _ _ (fun _ => eq_refl) Hr Fr).
    rewrite (count_calls is_hold HoldCall true _ _ _ (fun _ => eq_refl) Hh Fh).
    rewrite !andb_false_r, andb_true_r. lia.
Qed.

(** *** Runs *)

Lemma run_cons (c : Run.cycle) (cs : list Run.cycle) (s : Key.St) :
  Run.run call (c :: cs) s = (s' ← Run.poll call c s; Run.run call cs s').
Proof. reflexivity. Qed.

Lemma wired_step (k k' : Key.t) (r : Z) (t0 t1 : float) :
  wired_key k -> of_key k' = step r t0 t1 (of_key k) -> wired_key k'.
Proof.
  intros Hw H. rewrite <- next_step in H.
  apply (wired_key_wiring (next r t0 t1 k)).
  - symmetry. apply wiring_of_key. exact H.
  - apply wired_next. exact Hw.
Qed.

(** A run of cycles of a wired key returns; its state machine follows
    [steps] and its log grows by as many calls of each kind as the
    flags of the cycles say. *)
Lemma run_sim (cs : list Run.cycle) (k : Key.t) (px : Pixels)
    (log : list event) :
  wired_key k ->
  exists k' px' log',
    Run.run call cs (k, px, log) = Ok (k', px', log') /\
    of_key k' = Run.steps cs (of_key k) /\
    wired_key k' /\
    count is_press log'
    = (count is_press log + Run.tally Run.press_at cs (of_key k))%nat /\
    count is_release log'
    = (count is_release log + Run.tally Run.release_at cs (of_key k))%nat /\
    count is_hold log'
    = (count is_hold log + Run.tally Run.hold_at cs (of_key k))%nat.
Proof.
  revert k px log. induction cs as [|c cs IH]; intros k px log Hw.
  - exists k, px, log. cbn [Run.run Run.steps Run.tally].
    rewrite !Nat.add_0_r. repeat split; auto; apply Hw.
  - destruct (poll_sim c k px log Hw) as (k1 & px1 & E1 & H1 & _).
    rewrite next_step in H1.
    pose proof (wired_step k k1 _ _ _ Hw H1) as Hw1.
    destruct (events_counts (Run.reading c) (Run.t0 c) (Run.t1 c) k Hw)
      as (Cp & Cr & Ch).
    destruct (IH k1 px1
                (log ++ events (Run.reading c) (Run.t0 c) (Run.t1 c) k) Hw1)
      as (k' & px' & log' & E & H' & Hw' & Np & Nr & Nh).
    exists k', px', log'.
    rewrite run_cons, E1.
    change (Ok ?a ≫= ?f) with (f a). cbv beta.
    split; [exact E|].
    cbn [Run.steps Run.tally]. rewrite <- H1.
    split; [exact H'|]. split; [exact Hw'|].
    rewrite Np, Nr, Nh, !count_app, Cp, Cr, Ch.
    unfold Run.press_at, Run.release_at, Run.hold_at.
    repeat split; lia.
Qed.

End KeySimulation.

(** ** Press episodes on the state machine *)

Section EpisodeFacts.

Import Machine Run.

Lemma step_pressed (r : Z) (t0 t1 : float) (m : Machine.t) :
  truthy r = true ->
  config (step r t0 t1 m) = config m /\
  last_state (step r t0 t1 m) = Some true /\
  time_of_last_press (step r t0 t1 m)
  = (if truthy_opt (last_state m) then time_of_last_press m else t1) /\
  time_held_for (step r t0 t1 m)
  = (if truthy_opt (last_state m)
     then (t1 - time_of_last_press m)%float else time_held_for m) /\
  press_func_fired (step r t0 t1 m)
  = press_func_fired m
    || (has (press_functions m)
        && negb (Fltb (t0 - time_of_last_press m) (debounce m))) /\
  hold_func_fired (step r t0 t1 m)
  = (if Fltb (hold_time m)
          (if truthy_opt (last_state m)
           then (t1 - time_of_last_press m)%float else time_held_for m)
     then hold_func_fired m || has (hold_functions m) else false).
Proof. intros Hr. unfold step. rewrite Hr. repeat split; reflexivity. Qed.

Lemma step_released (r : Z) (t0 t1 : float) (m : Machine.t) :
  truthy r = false ->
  config (step r t0 t1 m) = config m /\
  last_state (step r t0 t1 m) = Some false /\
  time_of_last_press (step r t0 t1 m) = time_of_last_press m /\
  time_held_for (step r t0 t1 m) = 0%float /\
  press_func_fired (step r t0 t1 m)
  = (if truthy_opt (last_state m) then false else press_func_fired m) /\
  hold_func_fired (step r t0 t1 m)
  = (if Fltb (hold_time m) 0
     then hold_func_fired m || has (hold_functions m) else false).
Proof. intros Hr. unfold step. rewrite Hr. repeat split; reflexivity. Qed.

Lemma unlocked_eq (D since : float) (c : cycle) :
  unlocked D since c = negb (Fltb (t0 c - since) D).
Proof. reflexivity. Qed.

Lemma config_fields (m m' : Machine.t) :
  config m' = config m ->
  mode m' = mode m /\ debounce m' = debounce m /\
  hold_time m' = hold_time m /\
  press_functions m' = press_functions m /\
  release_functions m' = release_functions m /\
  hold_functions m' = hold_functions m.
Proof. unfold config. intros [= -> -> -> -> -> ->]. repeat split. Qed.

(** Inside an episode: the press handler is called at the first
    unlocked cycle, if it has not been called yet, and never again; the
    release handler is not called. *)
Lemma inside_episode (cs : list cycle) (m : Machine.t) :
  Forall is_pressed cs ->
  truthy_opt (last_state m) = true ->
  tally press_at cs m
  = (if has (press_functions m) && negb (press_func_fired m)
        && existsb (unlocked (debounce m) (time_of_last_press m)) cs
     then 1 else 0)%nat /\
  tally release_at cs m = 0%nat /\
  config (steps cs m) = config m /\
  truthy_opt (last_state (steps cs m)) = true /\
  time_of_last_press (steps cs m) = time_of_last_press m /\
  press_func_fired (steps cs m)
  = press_func_fired m
    || (has (press_functions m)
        && existsb (unlocked (debounce m) (time_of_last_press m)) cs).
Proof.
  revert m. induction cs as [|c cs IH]; intros m Hcs Hlast.
  - cbn [tally steps existsb]. rewrite !andb_false_r, orb_false_r.
    repeat split; auto.
  - apply Forall_cons in Hcs as [Hc Hcs].
    destruct (step_pressed (reading c) (t0 c) (t1 c) m Hc)
      as (Hcfg & Hl1 & Ht1 & _ & Hf1 & _).
    destruct (config_fields _ _ Hcfg) as (_ & Hd & _ & Hp & _ & _).
    rewrite Hlast in Ht1.
    destruct (IH (step (reading c) (t0 c) (t1 c) m) Hcs)
      as (Np & Nr & Hcfg' & Hl' & Ht' & Hf').
    { rewrite Hl1. reflexivity. }
    cbn [tally steps existsb].
    rewrite Np, Nr, Hcfg', Hl', Ht', Hf', Hcfg, Hd, Hp, Ht1, Hf1.
    unfold press_at, press_flag, release_at, release_flag.
    rewrite ?unlocked_eq, Hc.
    destruct (has (press_functions m)), (press_func_fired m),
      (Fltb (t0 c - time_of_last_press m) (debounce m)),
      (existsb (unlocked (debounce m) (time_of_last_press m)) cs);
      repeat split; reflexivity.
Qed.

(** A whole episode, entered from the idle state. *)
Lemma whole_episode (c1 : cycle) (cs : list cycle) (m : Machine.t) :
  Forall is_pressed (c1 :: cs) ->
  truthy_opt (last_state m) = false ->
  press_func_fired m = false ->
  tally press_at (c1 :: cs) m
  = (if has (press_functions m)
        && unlocked_in (debounce m) (time_of_last_press m) (c1 :: cs)
     then 1 else 0)%nat /\
  tally release_at (c1 :: cs) m = 0%nat /\
  config (steps (c1 :: cs) m) = config m /\
  truthy_opt (last_state (steps (c1 :: cs) m)) = true /\
  time_of_last_press (steps (c1 :: cs) m) = t1 c1.
Proof.
  intros Hall Hlast Hfired.
  apply Forall_cons in Hall as [Hc Hcs].
  destruct (step_pressed (reading c1) (t0 c1) (t1 c1) m Hc)
    as (Hcfg & Hl1 & Ht1 & _ & Hf1 & _).
  destruct (config_fields _ _ Hcfg) as (_ & Hd & _ & Hp & _ & _).
  rewrite Hlast in Ht1. rewrite Hfired in Hf1.
  destruct (inside_episode cs (step (reading c1) (t0 c1) (t1 c1) m) Hcs)
    as (Np & Nr & Hcfg' & Hl' & Ht' & _).
  { rewrite Hl1. reflexivity. }
  cbn [tally steps unlocked_in].
  rewrite Np, Nr, Hcfg', Hl', Ht', Hcfg, Hd, Hp, Ht1, Hf1.
  unfold press_at, press_flag, release_at, release_flag.
  rewrite ?unlocked_eq, Hc, Hfired.
  destruct (has (press_functions m)),
    (Fltb (t0 c1 - time_of_last_press m) (debounce m)),
    (existsb (unlocked (debounce m) (t1 c1)) cs);
    repeat split; reflexivity.
Qed.

(** Cycles in which the key reads released: the release handler is
    called at the first one if the key was pressed before, and the key
    is idle afterwards. *)
Lemma released_cycles (cs : list cycle) (m : Machine.t) :
  Forall is_released cs ->
  tally press_at cs m = 0%nat /\
  tally release_at cs m
  = (if truthy_opt (last_state m) && has (release_functions m)
        && negb (match cs with [] => true | _ => false end)
     then 1 else 0)%nat /\
  config (steps cs m) = config m /\
  time_of_last_press (steps cs m) = time_of_last_press m /\
  (cs <> [] ->
   truthy_opt (last_state (steps cs m)) = false /\
   press_func_fired (steps cs m)
   = (if truthy_opt (last_state m) then false else press_func_fired m)).
Proof.
  revert m. induction cs as [|c cs IH]; intros m Hcs.
  - cbn [tally steps]. rewrite andb_false_r. repeat split; congruence.
  - apply Forall_cons in Hcs as [Hc Hcs].
    destruct (step_released (reading c) (t0 c) (t1 c) m Hc)
      as (Hcfg & Hl1 & Ht1 & _ & Hf1 & _).
    destruct (config_fields _ _ Hcfg) as (_ & _ & _ & _ & Hr & _).
    destruct (IH (step (reading c) (t0 c) (t1 c) m) Hcs)
      as (Np & Nr & Hcfg' & Ht' & Hrest).
    cbn [tally steps].
    rewrite Np, Nr, Hcfg', Ht', Hcfg, Ht1, Hl1, Hr.
    unfold press_at, press_flag, release_at, release_flag.
    rewrite Hc. cbn [truthy_opt negb andb].
    rewrite !andb_false_r. cbn [andb].
    split; [reflexivity|]. split.
    { destruct (truthy_opt (last_state m)), (has (release_functions m));
        reflexivity. }
    split; [reflexivity|]. split; [reflexivity|].
    intros _. destruct cs as [|c' cs'].
    + cbn [steps]. rewrite Hl1, Hf1. auto.
    + destruct (Hrest ltac:(discriminate)) as [Hl' Hf'].
      rewrite Hl', Hf', Hl1, Hf1. cbn [truthy_opt].
      destruct (truthy_opt (last_state m)); auto.
Qed.

(** *** Hold *)

(** Inside an episode in which the threshold, once crossed, stays
    crossed: the hold handler is called at the first cycle that finds
    it crossed, if it has not been called yet, and never again. *)
Lemma hold_inside (cs : list cycle) (m : Machine.t) :
  Forall is_pressed cs ->
  truthy_opt (last_state m) = true ->
  latched (hold_time m) (time_of_last_press m) cs = true ->
  (hold_func_fired m = true ->
   forallb (over_at (hold_time m) (time_of_last_press m)) cs = true) ->
  tally hold_at cs m
  = (if has (hold_functions m) && negb (hold_func_fired m)
        && existsb (over_at (hold_time m) (time_of_last_press m)) cs
     then 1 else 0)%nat.
Proof.
  revert m. induction cs as [|c cs IH]; intros m Hcs Hlast Hlatch Hinv.
  - cbn [tally existsb]. rewrite andb_false_r. reflexivity.
  - apply Forall_cons in Hcs as [Hc Hcs].
    cbn [latched] in Hlatch. apply andb_true_iff in Hlatch as [Hnow Hlatch].
    destruct (step_pressed (reading c) (t0 c) (t1 c) m Hc)
      as (Hcfg & Hl1 & Ht1 & _ & _ & Hh1).
    destruct (config_fields _ _ Hcfg) as (_ & _ & HH & _ & _ & Hhf).
    rewrite Hlast in Ht1, Hh1.
    fold (over_at (hold_time m) (time_of_last_press m) c) in Hh1.
    cbn [tally existsb].
    rewrite (IH (step (reading c) (t0 c) (t1 c) m) Hcs);
      [|rewrite Hl1; reflexivity | rewrite HH, Ht1; exact Hlatch |].
    + rewrite HH, Hhf, Ht1, Hh1.
      unfold hold_at, hold_flag, over. rewrite Hc, Hlast.
      fold (over_at (hold_time m) (time_of_last_press m) c).
      destruct (hold_func_fired m) eqn:Hf.
      * pose proof (Hinv eq_refl) as Hall. cbn [forallb] in Hall.
        apply andb_true_iff in Hall as [Hover _]. rewrite Hover.
        cbn [orb negb andb]. rewrite !andb_false_r. reflexivity.
      * destruct (over_at (hold_time m) (time_of_last_press m) c),
          (has (hold_functions m)),
          (existsb (over_at (hold_time m) (time_of_last_press m)) cs);
          reflexivity.
    + rewrite HH, Ht1, Hh1. intros Hfired.
      destruct (over_at (hold_time m) (time_of_last_press m) c);
        [|discriminate Hfired].
      exact Hnow.
Qed.

(** A whole episode entered idle and rested, and the release after
    it. *)
Lemma hold_whole (c1 : cycle) (cs : list cycle) (m : Machine.t) :
  Forall is_pressed (c1 :: cs) ->
  truthy_opt (last_state m) = false ->
  Fltb (hold_time m) (time_held_for m) = false ->
  hold_func_fired m = false ->
  latched (hold_time m) (t1 c1) cs = true ->
  tally hold_at (c1 :: cs) m
  = (if has (hold_functions m) && held_in (hold_time m) (c1 :: cs)
     then 1 else 0)%nat.
Proof.
  intros Hall Hlast Hrest Hfired Hlatch.
  apply Forall_cons in Hall as [Hc Hcs].
  destruct (step_pressed (reading c1) (t0 c1) (t1 c1) m Hc)
    as (Hcfg & Hl1 & Ht1 & _ & _ & Hh1).
  destruct (config_fields _ _ Hcfg) as (_ & _ & HH & _ & _ & Hhf).
  rewrite Hlast in Ht1, Hh1. rewrite Hrest in Hh1.
  cbn [tally held_in].
  rewrite (hold_inside cs _ Hcs);
    [|rewrite Hl1; reflexivity | rewrite HH, Ht1; exact Hlatch
     | rewrite Hh1; discriminate].
  rewrite HH, Hhf, Ht1, Hh1.
  unfold hold_at, hold_flag, over. rewrite Hc, Hlast, Hrest.
  cbn [andb negb]. rewrite andb_true_r. reflexivity.
Qed.

Lemma hold_release (c : cycle) (m : Machine.t) :
  is_released c ->
  Fltb (hold_time m) 0 = false ->
  hold_at c m = false /\
  hold_func_fired (step (reading c) (t0 c) (t1 c) m) = false /\
  Fltb (hold_time (step (reading c) (t0 c) (t1 c) m))
    (time_held_for (step (reading c) (t0 c) (t1 c) m)) = false.
Proof.
  intros Hc HH.
  destruct (step_released (reading c) (t0 c) (t1 c) m Hc)
    as (Hcfg & _ & _ & Hheld & _ & Hh1).
  destruct (config_fields _ _ Hcfg) as (_ & _ & HH' & _).
  unfold hold_at, hold_flag, over. rewrite Hc, Hh1, HH', Hheld, HH.
  auto.
Qed.

Lemma config_step (r : Z) (t0 t1 : float) (m : Machine.t) :
  config (step r t0 t1 m) = config m.
Proof. unfold step. destruct (truthy r); reflexivity. Qed.

Lemma config_steps (cs : list cycle) (m : Machine.t) :
  config (steps cs m) = config m.
Proof.
  revert m. induction cs as [|c cs IH]; intros m; [reflexivity|].
  cbn [steps]. rewrite IH. apply config_step.
Qed.

Lemma steps_app (cs1 cs2 : list cycle) (m : Machine.t) :
  steps (cs1 ++ cs2) m = steps cs2 (steps cs1 m).
Proof.
  revert m. induction cs1 as [|c cs1 IH]; intros m; [reflexivity|].
  cbn [app steps]. apply IH.
Qed.


End EpisodeFacts.

(** ** Press, release and debounce *)

Section KeyEpisodeFacts.

Import Machine Run.

Lemma registered_wired (table : option (gmap string (option callable)))
    (m : string) :
  registered table m -> wired table m.
Proof. intros H. right. exact H. Qed.

Lemma quiet_frame : frame Demo.quiet.
Proof. intros f k px. reflexivity. Qed.

Lemma handled_key_wired : wired_key Demo.handled_key.
Proof.
  repeat split; right; eexists; vm_compute; reflexivity.
Qed.

Lemma run_one (call : Key.handler_env) (c : cycle) (s : Key.St) :
  run call [c] s = poll call c s.
Proof.
  rewrite (run_cons call). destruct (poll call c s); reflexivity.
Qed.

(** C5, as stated, fails: a press that begins and ends inside the
    debounce window never calls the press handler. *)
Lemma locked_press_never_calls :
  ~ (forall (call : Key.handler_env) (k : Key.t) (px : Pixels)
            (log : list event) (episode : list cycle),
        frame call -> wired_key k ->
        registered (Key.press_functions k) (Key.board_state k) ->
        idle k -> episode <> [] -> Forall is_pressed episode ->
        exists s,
          run call episode (k, px, log) = Ok s /\
          presses s = (count is_press log + 1)%nat).
Proof.
  intros H.
  destruct (H Demo.quiet Demo.handled_key Demo.dark_strip []
              [Demo.at_ 1 0.01] quiet_frame handled_key_wired)
    as (s & E & N).
  - eexists. vm_compute. reflexivity.
  - split; reflexivity.
  - discriminate.
  - repeat constructor.
  - vm_compute in E. injection E as <-. vm_compute in N. discriminate N.
Qed.

(** C5, amended.  When press, release and hold handlers are registered
    (or their tables absent), an uninterrupted press episode entered
    from the idle state calls the press handler at most once, and
    exactly once if and only if some cycle of the episode lies outside
    the debounce window; the release handler is not called during the
    episode, is called exactly once at the first cycle the key reads
    released, and not again while it stays released. *)
Theorem press_and_release_per_episode (call : Key.handler_env) (k : Key.t)
    (px : Pixels) (log : list event) (c1 : cycle) (cs : list cycle)
    (rc : cycle) (rest : list cycle) :
  frame call ->
  registered (Key.press_functions k) (Key.board_state k) ->
  registered (Key.release_functions k) (Key.board_state k) ->
  wired (Key.hold_functions k) (Key.board_state k) ->
  idle k ->
  Forall is_pressed (c1 :: cs) ->
  is_released rc ->
  Forall is_released rest ->
  exists s1 s2 s3,
    run call (c1 :: cs) (k, px, log) = Ok s1 /\
    run call [rc] s1 = Ok s2 /\
    run call rest s2 = Ok s3 /\
    presses s1
    = (count is_press log
       + if unlocked_in (Key.debounce k) (Key.time_of_last_press k) (c1 :: cs)
         then 1 else 0)%nat /\
    releases s1 = count is_release log /\
    presses s2 = presses s1 /\
    releases s2 = (releases s1 + 1)%nat /\
    presses s3 = presses s2 /\
    releases s3 = releases s2 /\
    idle (key_of s3).
Proof.
  intros Hfr Hp Hr Hh [Hlast Hfired] Hep Hrc Hrest.
  assert (Hw : wired_key k)
    by (repeat split; auto using registered_wired).
  destruct (run_sim call Hfr (c1 :: cs) k px log Hw)
    as (k1 & px1 & log1 & E1 & M1 & Hw1 & P1 & R1 & _).
  destruct (whole_episode c1 cs (of_key k) Hep Hlast Hfired)
    as (Tp & Tr & Hcfg & Hl1 & Ht1).
  destruct (config_fields _ _ Hcfg) as (_ & _ & _ & _ & Hrf & _).
  destruct (run_sim call Hfr [rc] k1 px1 log1 Hw1)
    as (k2 & px2 & log2 & E2 & M2 & Hw2 & P2 & R2 & _).
  destruct (released_cycles [rc] (of_key k1) ltac:(repeat constructor; exact Hrc))
    as (Tp2 & Tr2 & _ & _ & Hidle2).
  destruct (Hidle2 ltac:(discriminate)) as [Hl2 Hf2].
  destruct (run_sim call Hfr rest k2 px2 log2 Hw2)
    as (k3 & px3 & log3 & E3 & M3 & Hw3 & P3 & R3 & _).
  destruct (released_cycles rest (of_key k2) Hrest)
    as (Tp3 & Tr3 & _ & _ & Hidle3).
  machine_cbn in Tp. machine_cbn in Tr. machine_cbn in Hrf.
  rewrite <- M1 in Hl1, Hrf.
  rewrite Hl1, Hrf, (registered_has _ _ Hr) in Tr2. cbn [andb negb] in Tr2.
  rewrite Hl1 in Hf2.
  rewrite (registered_has _ _ Hp) in Tp. cbn [andb] in Tp.
  rewrite <- M2 in Hl2, Hf2.
  rewrite Hl2 in Tr3, Hidle3. cbn [andb] in Tr3.
  machine_cbn in Hl2. machine_cbn in Hf2.
  exists (k1, px1, log1), (k2, px2, log2), (k3, px3, log3).
  unfold presses, releases, key_of, log_of, idle. cbn [fst snd].
  rewrite P3, R3, P2, R2, P1, R1, Tp, Tr, Tp2, Tr2, Tp3, Tr3.
  repeat split; try assumption; try lia.
  - destruct rest as [|c' rest']; [injection E3 as <- _ _; exact Hl2|].
    destruct (Hidle3 ltac:(discriminate)) as [Hl3 _].
    rewrite <- M3 in Hl3. exact Hl3.
  - destruct rest as [|c' rest']; [injection E3 as <- _ _; exact Hf2|].
    destruct (Hidle3 ltac:(discriminate)) as [_ Hf3].
    rewrite <- M3 in Hf3. machine_cbn in Hf3. rewrite Hf3. exact Hf2.
Qed.

Lemma press_and_release_per_episode_witness :
  exists s1 s2,
    run Demo.quiet [Demo.at_ 1 1; Demo.at_ 1 1.01]
      (Demo.handled_key, Demo.dark_strip, []) = Ok s1 /\
    run Demo.quiet [Demo.at_ 0 1.02] s1 = Ok s2 /\
    presses s1 = 1%nat /\ releases s1 = 0%nat /\ releases s2 = 1%nat.
Proof.
  destruct (press_and_release_per_episode Demo.quiet Demo.handled_key
              Demo.dark_strip [] (Demo.at_ 1 1) [Demo.at_ 1 1.01]
              (Demo.at_ 0 1.02) [Demo.at_ 0 1.03] quiet_frame)
    as (s1 & s2 & s3 & E1 & E2 & _ & P1 & R1 & _ & R2 & _).
  - eexists. vm_compute. reflexivity.
  - eexists. vm_compute. reflexivity.
  - right. eexists. vm_compute. reflexivity.
  - split; reflexivity.
  - repeat constructor.
  - reflexivity.
  - repeat constructor.
  - exists s1, s2. rewrite R2, R1, P1.
    repeat split; try assumption; reflexivity.
Defined.

(** *** Debounce *)












(** *** Hold *)

(** With every table wired and a hold threshold that 0 does not
    exceed, over an episode in which the threshold, once a cycle finds
    it crossed, stays crossed (as with a clock that does not go back):
    an episode entered idle and rested calls the hold handler exactly
    once if some cycle after the first finds the duration the code
    computes, the second clock read minus the one of the first cycle,
    above the threshold, and not at all otherwise; the release cycle
    calls it no more and leaves [held] and [hold_func_fired]
    cleared. *)
Lemma hold_once_per_episode (call : Key.handler_env) (k : Key.t)
    (px : Pixels) (log : list event) (c1 : cycle) (cs : list cycle)
    (rc : cycle) :
  frame call ->
  wired_key k ->
  registered (Key.hold_functions k) (Key.board_state k) ->
  idle k ->
  rested k ->
  Fltb (Key.hold_time k) 0 = false ->
  Forall is_pressed (c1 :: cs) ->
  latched (Key.hold_time k) (t1 c1) cs = true ->
  is_released rc ->
  exists s1 s2,
    run call (c1 :: cs) (k, px, log) = Ok s1 /\
    run call [rc] s1 = Ok s2 /\
    holds s1
    = (count is_hold log
       + if held_in (Key.hold_time k) (c1 :: cs) then 1 else 0)%nat /\
    holds s2 = holds s1 /\
    Key.held (key_of s2) = false /\
    Key.hold_func_fired (key_of s2) = false /\
    rested (key_of s2).
Proof.
  intros Hfr Hw Hh [Hlast _] [Hrest Hfired] HH Hep Hmono Hrc.
  destruct (run_sim call Hfr (c1 :: cs) k px log Hw)
    as (k1 & px1 & log1 & E1 & M1 & Hw1 & _ & _ & N1).
  pose proof (hold_whole c1 cs (of_key k) Hep Hlast Hrest Hfired Hmono) as T1.
  machine_cbn in T1. rewrite (registered_has _ _ Hh) in T1.
  cbn [andb] in T1.
  destruct (config_fields _ _ (config_steps (c1 :: cs) (of_key k)))
    as (_ & _ & HH1 & _).
  rewrite <- M1 in HH1. machine_cbn in HH1.
  assert (HH' : Fltb (hold_time (of_key k1)) 0 = false)
    by (machine_cbn; rewrite HH1; exact HH).
  destruct (hold_release rc (of_key k1) Hrc HH') as (Hno & Hf2 & Hr2).
  destruct (poll_sim call Hfr rc k1 px1 log1 Hw1)
    as (k2 & px2 & E2 & M2 & Hheld).
  rewrite next_step in M2. rewrite <- M2 in Hf2, Hr2.
  machine_cbn in Hf2. machine_cbn in Hr2.
  destruct (events_counts (reading rc) (t0 rc) (t1 rc) k1 Hw1)
    as (_ & _ & Ch).
  unfold hold_at in Hno. rewrite Hno in Ch.
  assert (Hover : over (reading rc) (t1 rc) (of_key k1) = false).
  { unfold over. rewrite Hrc. exact HH'. }
  eexists (k1, px1, log1), (k2, px2, _).
  split; [exact E1|]. split; [rewrite run_one; exact E2|].
  unfold holds, key_of, log_of, rested. cbn [fst snd].
  rewrite count_app, Ch, N1, T1.
  repeat split; auto; lia.
Qed.

(** C7, at the input on which the code departs from it: a fresh key
    with only a hold handler registered, held down from time 1.  The
    first unlocked cycle dispatches to the press table, whose entry for
    the mode is [None], and raises; the hold handler is never
    reached. *)
Theorem hold_only_key_raises :
  Machine.registered (Key.hold_functions Demo.hold_only_key)
    (Key.board_state Demo.hold_only_key) /\
  run Demo.quiet [Demo.at_ 1 1] (Demo.hold_only_key, Demo.dark_strip, [])
  = Raise TypeError /\
  run Demo.quiet [Demo.at_ 1 1; Demo.at_ 1 1.5; Demo.at_ 1 2]
    (Demo.hold_only_key, Demo.dark_strip, [])
  = Raise TypeError.
Proof.
  split; [eexists; vm_compute; reflexivity|].
  split; vm_compute; reflexivity.
Qed.

(** C2, at the inputs on which the code departs from it.  A fresh key
    (every table [{'default': None}]) that reads pressed outside the
    debounce window raises [TypeError] at the press dispatch; in a mode
    without entry the same dispatch raises [KeyError]; with only a
    press handler registered, the release dispatch raises [TypeError]
    at the first released cycle and the hold dispatch raises it once
    the key is held past the threshold. *)
Theorem unregistered_dispatch_raises :
  run Demo.quiet [Demo.at_ 1 1]
    (Demo.fresh_key 0 0 0, Demo.dark_strip, []) = Raise TypeError /\
  run Demo.quiet [Demo.at_ 1 1]
    (Key.with_board_state "menu" (Demo.fresh_key 0 0 0), Demo.dark_strip, [])
  = Raise KeyError /\
  run Demo.quiet [Demo.at_ 1 1; Demo.at_ 0 1.5]
    (Demo.press_only_key, Demo.dark_strip, []) = Raise TypeError /\
  run Demo.quiet [Demo.at_ 1 1; Demo.at_ 1 1.5; Demo.at_ 1 2]
    (Demo.press_only_key, Demo.dark_strip, []) = Raise TypeError /\
  (exists s,
      run Demo.quiet [Demo.at_ 0 1; Demo.at_ 0 2]
        (Demo.fresh_key 0 0 0, Demo.dark_strip, []) = Ok s /\
      log_of s = []).
Proof.
  repeat split; try (vm_compute; reflexivity).
  eexists. split; vm_compute; reflexivity.
Qed.

End KeyEpisodeFacts.

(** ** RGBKeyPad.update *)

Section UpdateFacts.

Import RGBKeyPad.

Variable call : Key.handler_env.

(** A key on which nothing is pending goes through [update] without a
    dispatch, whatever its tables hold and whatever the handlers would
    do. *)
Lemma update_quiet_key (t0 t1 : float) (k : Key.t) (px : Pixels)
    (log : list event) :
  Quiet.key k ->
  Key.update call t0 t1 (k, px, log) = Ok (Quiet.settle t0 k, px, log).
Proof.
  intros (Hcur & Hlast & Hhold).
  assert (Hp : truthy (Key.pressed (Key.sample t0 k)) = false) by exact Hcur.
  assert (Hl : truthy_opt (Key.last_state (Key.sample t0 k)) = false)
    by exact Hlast.
  assert (E1 : Key.press_phase call (Key.sample t0 k, px, log)
               = Ok (Key.sample t0 k, px, log)).
  { unfold Key.press_phase. rewrite Hp.
    destruct (Key.press_functions (Key.sample t0 k)); reflexivity. }
  assert (E2 : Key.release_phase call (Key.sample t0 k, px, log)
               = Ok (Key.sample t0 k, px, log)).
  { unfold Key.release_phase. rewrite Hp, Hl. reflexivity. }
  assert (E3 : Key.timing_phase t1 (Key.sample t0 k)
               = Key.with_last_state (Some false)
                   (Key.with_time_held_for 0 (Key.sample t0 k))).
  { unfold Key.timing_phase. rewrite Hp. reflexivity. }
  assert (E4 : Key.hold_phase call
                 (Key.with_last_state (Some false)
                    (Key.with_time_held_for 0 (Key.sample t0 k)), px, log)
               = Ok (Quiet.settle t0 k, px, log)).
  { unfold Key.hold_phase.
    change (Fltb _ _) with (Fltb (Key.hold_time k) 0).
    rewrite Hhold. reflexivity. }
  unfold Key.update. rewrite E1. cbn [mbind Res_bind].
  rewrite E2. cbn [mbind Res_bind]. rewrite E3. exact E4.
Qed.

Lemma settle_quiet (t0 : float) (k : Key.t) :
  Quiet.key k -> Quiet.key (Quiet.settle t0 k).
Proof.
  intros (Hcur & Hlast & Hhold). repeat split; assumption.
Qed.

Lemma settle_fields (t0 : float) (k : Key.t) :
  Key.number (Quiet.settle t0 k) = Key.number k /\
  Key.key_state (Quiet.settle t0 k) = Key.current_state k /\
  Key.current_state (Quiet.settle t0 k) = Key.current_state k /\
  Key.rgb (Quiet.settle t0 k) = Key.rgb k /\
  Key.lit (Quiet.settle t0 k) = Key.lit k.
Proof. repeat split. Qed.

Lemma update_keys_quiet (clock : nat -> float * float) (n : nat) (ks : list Key.t)
    (px : Pixels) (log : list event) :
  Forall Quiet.key ks ->
  update_keys call clock n ks px log
  = Ok (Quiet.settle_all clock n ks, px, log).
Proof.
  revert n. induction ks as [|k ks IH]; intros n Hq; [reflexivity|].
  apply Forall_cons in Hq as [Hk Hks].
  cbn [update_keys Quiet.settle_all].
  rewrite (update_quiet_key _ _ _ _ _ Hk). cbn [mbind Res_bind].
  rewrite (IH (S n) Hks). reflexivity.
Qed.

Lemma settle_all_lookup (clock : nat -> float * float) (ks : list Key.t) (n i : nat) :
  Quiet.settle_all clock n ks !! i
  = Quiet.settle (fst (clock (n + i)%nat)) <$> ks !! i.
Proof.
  revert n i. induction ks as [|k ks IH]; intros n i; [reflexivity|].
  destruct i as [|i]; cbn [Quiet.settle_all].
  - rewrite Nat.add_0_r. reflexivity.
  - change ((Quiet.settle (fst (clock n)) k
              :: Quiet.settle_all clock (S n) ks) !! S i)
      with (Quiet.settle_all clock (S n) ks !! i).
    rewrite (IH (S n) i).
    replace (S n + i)%nat with (n + S i)%nat by lia. reflexivity.
Qed.

Lemma settle_all_length (clock : nat -> float * float) (n : nat) (ks : list Key.t) :
  length (Quiet.settle_all clock n ks) = length ks.
Proof.
  revert n. induction ks as [|k ks IH]; intros n; [reflexivity|].
  cbn [Quiet.settle_all length]. rewrite IH. reflexivity.
Qed.

(** *** The mask *)

Lemma mask_bit (a : Z) (i : nat) :
  negb (truthy (Z.land (Z.shiftl 1 (Z.of_nat i)) a))
  = negb (Z.testbit a (Z.of_nat i)).
Proof.
  f_equal. unfold truthy. rewrite Z.shiftl_1_l.
  destruct (Z.testbit a (Z.of_nat i)) eqn:Hb.
  - apply negb_true_iff, Z.eqb_neq. intros H0.
    assert (Hbit : Z.testbit (Z.land (2 ^ Z.of_nat i) a) (Z.of_nat i) = true).
    { rewrite Z.land_spec, Z.pow2_bits_true by lia. exact Hb. }
    rewrite H0, Z.bits_0 in Hbit. discriminate.
  - apply negb_false_iff, Z.eqb_eq. apply Z.bits_inj'. intros n Hn.
    rewrite Z.land_spec, Z.bits_0, Z.pow2_bits_eqb by lia.
    destruct (Z.eqb_spec (Z.of_nat i) n) as [<-|Hne]; [|reflexivity].
    rewrite Hb. reflexivity.
Qed.

Lemma read_states_range (m n : nat) (a : Z) (sts : list Z) :
  (n + m <= length sts)%nat ->
  exists sts',
    read_states (Z.of_nat <$> seq n m) a sts = Ok sts' /\
    length sts' = length sts /\
    forall j, sts' !! j
              = if decide (n <= j < n + m)%nat then Some (Quiet.decoded a j)
                else sts !! j.
Proof.
  revert n sts. induction m as [|m IH]; intros n sts Hlen.
  - exists sts. split; [reflexivity|]. split; [reflexivity|].
    intros j. case_decide; [lia | reflexivity].
  - change (Z.of_nat <$> seq n (S m))
      with (Z.of_nat n :: (Z.of_nat <$> seq (S n) m)).
    cbn [read_states]. unfold py_setitem.
    rewrite py_index_nat by lia. cbn [mbind Res_bind].
    rewrite mask_bit.
    destruct (IH (S n)
                (<[n := if negb (Z.testbit a (Z.of_nat n)) then 1 else 0]> sts))
      as (sts' & E & Hl & Hlook).
    { rewrite length_insert. lia. }
    exists sts'. split; [exact E|].
    split; [rewrite Hl; apply length_insert|].
    intros j. rewrite Hlook.
    destruct (decide (j = n)) as [->|Hne].
    + rewrite list_lookup_insert_eq by lia.
      repeat case_decide; try lia.
      unfold Quiet.decoded. destruct (Z.testbit a (Z.of_nat n)); reflexivity.
    + rewrite list_lookup_insert_ne by congruence.
      repeat case_decide; try lia; reflexivity.
Qed.

(** Lines 85-90 on a [states] list of sixteen entries: entry [i]
    becomes 1 when bit [i] of the mask is clear and 0 when it is
    set. *)
Lemma read_states_decodes (a : Z) (sts : list Z) :
  length sts = 16%nat ->
  read_states (range 16) a sts = Ok (Quiet.decoded a <$> seq 0 16).
Proof.
  intros Hlen.
  destruct (read_states_range 16 0 a sts ltac:(lia)) as (sts' & E & Hl & Hlook).
  change (range 16) with (Z.of_nat <$> seq 0 16). rewrite E. f_equal.
  apply list_eq. intros j. rewrite Hlook, list_lookup_fmap.
  case_decide as Hj.
  - rewrite lookup_seq_lt by lia. reflexivity.
  - rewrite lookup_seq_ge by lia. apply lookup_ge_None_2. lia.
Qed.

(** *** What the sleep coordinator leaves of the keys *)

Lemma lights_same_but_led (c : RGB) (k : Key.t) :
  Shape.same_but_led k (Led.lights c k).
Proof.
  unfold Shape.same_but_led, Shape.led_erased, Led.lights.
  destruct (is_black c); reflexivity.
Qed.

Lemma same_but_led_all_lit (c : RGB) (ks : list Key.t) :
  Forall2 Shape.same_but_led ks (Led.lights c <$> ks).
Proof.
  apply Forall2_fmap_r, Forall_Forall2_diag, Forall_forall.
  intros k _. apply lights_same_but_led.
Qed.

Lemma same_but_led_zip (l : list RGB) (ks : list Key.t) :
  length l = length ks ->
  Forall2 Shape.same_but_led ks (zip_with Led.lights l ks).
Proof.
  revert ks. induction l as [|c l IH]; intros [|k ks] Hlen;
    try discriminate; cbn [zip_with]; constructor.
  - apply lights_same_but_led.
  - apply IH. injection Hlen as ->. reflexivity.
Qed.

Lemma same_but_led_refl (ks : list Key.t) :
  Forall2 Shape.same_but_led ks ks.
Proof. apply Forall_Forall2_diag, Forall_forall. intros k _. reflexivity. Qed.

Lemma same_but_led_trans (ks1 ks2 ks3 : list Key.t) :
  Forall2 Shape.same_but_led ks1 ks2 ->
  Forall2 Shape.same_but_led ks2 ks3 ->
  Forall2 Shape.same_but_led ks1 ks3.
Proof.
  intros H12. revert ks3. induction H12 as [|k1 k2 ks1 ks2 H _ IH];
    intros ks3 H23; inversion H23; subst; constructor.
  - unfold Shape.same_but_led in *. congruence.
  - apply IH. assumption.
Qed.

(** [sleep_handler] changes the keys through [set_led] only: every
    attribute but [rgb] and [lit] is as before; and it leaves [states]
    alone. *)
Lemma sleep_handler_keys (t_wake t_now : float) (kp kp' : t) :
  Pad.ok kp ->
  sleep_handler t_wake t_now kp = Ok kp' ->
  Forall2 Shape.same_but_led (keys kp) (keys kp') /\
  states kp' = states kp.
Proof.
  intros Hok. unfold sleep_handler.
  pose proof (note_press_ok t_wake kp Hok) as HokA.
  assert (HkeysA : keys (note_press t_wake kp) = keys kp /\
                   states (note_press t_wake kp) = states kp)
    by (unfold note_press; destruct (any_pressed kp); split; reflexivity).
  set (kpA := note_press t_wake kp) in *.
  set (kpB := with_time_since_last_press
                (Some (t_now - time_of_last_press kpA)%float) kpA).
  assert (HokB : Pad.ok kpB).
  { apply (ok_with kpA _ HokA); try reflexivity; apply HokA. }
  assert (HkeysB : keys kpB = keys kp /\ states kpB = states kp)
    by exact HkeysA.
  clearbody kpB. clear kpA HokA HkeysA.
  destruct (engage kpB) as [kpC|e] eqn:EC; [|discriminate].
  cbn [mbind Res_bind]. intros ED.
  assert (HC : Pad.ok kpC /\
               Forall2 Shape.same_but_led (keys kpB) (keys kpC) /\
               states kpC = states kpB).
  { unfold engage in EC.
    destruct (led_sleep_enabled kpB && negb (sleeping kpB));
      [|injection EC as <-;
        split; [exact HokB | split; [apply same_but_led_refl | reflexivity]]].
    destruct (time_since_last_press kpB) as [since|]; [|discriminate].
    destruct (Fltb (led_sleep_time kpB) since);
      [|injection EC as <-;
        split; [exact HokB | split; [apply same_but_led_refl | reflexivity]]].
    assert (Hsnap : length (snapshot (keys kpB)) = 16%nat)
      by (rewrite snapshot_length; apply HokB).
    set (kp1 := with_last_led_states (Some (snapshot (keys kpB)))
                  (with_sleeping true kpB)) in *.
    assert (Hok1 : Pad.ok kp1).
    { apply (ok_with kpB _ HokB); try reflexivity; [apply HokB|].
      intros _. exists (snapshot (keys kpB)). auto. }
    change (keys (with_sleeping true kpB)) with (keys kpB) in EC.
    fold kp1 in EC.
    rewrite (set_all_ok 0 0 0 kp1 Hok1) in EC.
    cbn [mbind Res_bind] in EC. injection EC as <-.
    split; [|split].
    - apply (ok_with (Pad.all_lit black kp1) _
               (all_lit_ok black kp1 Hok1)); try reflexivity.
      + apply (all_lit_ok black kp1 Hok1).
      + intros _. exists (snapshot (keys kpB)). auto.
    - cbn. apply same_but_led_all_lit.
    - reflexivity. }
  destruct HC as (HokC & HBC & HsC). destruct HkeysB as [HkeysB HstB].
  rewrite <- HkeysB, <- HstB, <- HsC.
  unfold wake in ED.
  destruct (negb (sleeping kpC) && was_asleep kpC) eqn:Hcond;
    [|injection ED as <-; split; [exact HBC | reflexivity]].
  apply andb_true_iff in Hcond as [_ Hwas].
  destruct (Pad.ok_saved kpC HokC Hwas) as (l & Hl & Hll).
  rewrite (restore_all kpC l) in ED
    by (first [apply HokC | exact Hl | exact Hll]).
  cbn [mbind Res_bind] in ED. injection ED as <-.
  split; [|reflexivity].
  apply (same_but_led_trans _ _ _ HBC).
  cbn. apply same_but_led_zip. rewrite Hll. symmetry. apply HokC.
Qed.

Lemma same_but_led_inputs (ks ks' : list Key.t) :
  Forall2 Shape.same_but_led ks ks' ->
  Key.key_state <$> ks' = Key.key_state <$> ks /\
  (Forall Quiet.key ks -> Forall Quiet.key ks').
Proof.
  induction 1 as [|k k' ks ks' H _ [IH1 IH2]]; [split; auto|].
  assert (Hs : Key.key_state k' = Key.key_state k)
    by exact (f_equal Key.key_state H).
  assert (Hc : Key.current_state k' = Key.current_state k)
    by exact (f_equal Key.current_state H).
  assert (Hl : Key.last_state k' = Key.last_state k)
    by exact (f_equal Key.last_state H).
  assert (Hh : Key.hold_time k' = Key.hold_time k)
    by exact (f_equal Key.hold_time H).
  split.
  - cbn [fmap list_fmap]. rewrite Hs. f_equal. exact IH1.
  - intros Hq. apply Forall_cons in Hq as [Hk Hks].
    constructor; [|apply IH2; exact Hks].
    unfold Quiet.key. rewrite Hc, Hl, Hh. exact Hk.
Qed.

Lemma settle_all_states (clock : nat -> float * float) (n : nat) (ks : list Key.t) :
  Key.key_state <$> Quiet.settle_all clock n ks = Key.current_state <$> ks /\
  (Forall Quiet.key ks -> Forall Quiet.key (Quiet.settle_all clock n ks)).
Proof.
  revert n. induction ks as [|k ks IH]; intros n; [split; auto|].
  destruct (IH (S n)) as [IH1 IH2].
  cbn [Quiet.settle_all fmap list_fmap]. split.
  - f_equal. exact IH1.
  - intros Hq. apply Forall_cons in Hq as [Hk Hks].
    constructor; [apply settle_quiet; exact Hk | apply IH2; exact Hks].
Qed.

Lemma quiet_not_pressed (ks : list Key.t) :
  Forall Quiet.key ks -> existsb truthy (Key.current_state <$> ks) = false.
Proof.
  induction 1 as [|k ks (Hc & _) _ IH]; [reflexivity|].
  cbn [fmap list_fmap existsb]. rewrite Hc, IH. reflexivity.
Qed.

(** A cycle of a well-formed keypad on whose keys nothing is pending:
    [update] returns without calling a handler; [states] holds the
    decoded mask; the keys' [key_state] is their [current_state], which
    the mask does not reach. *)
Lemma update_quiet_pad (result0 result1 : Z) (clk : Readings) (kp : t) :
  Pad.ok kp ->
  length (states kp) = 16%nat ->
  Forall Quiet.key (keys kp) ->
  exists kp',
    update call result0 result1 clk kp = Ok (kp', []) /\
    Pad.ok kp' /\
    states kp' = Quiet.decoded (all_states_of result0 result1) <$> seq 0 16 /\
    get_states kp' = Key.current_state <$> keys kp /\
    any_pressed kp' = false /\
    Forall Quiet.key (keys kp').
Proof.
  intros Hok Hlen Hq. unfold update.
  rewrite (read_states_decodes _ _ Hlen). cbn [mbind Res_bind].
  change (keys (with_states _ kp)) with (keys kp).
  change (pixels (with_states _ kp)) with (pixels kp).
  rewrite (update_keys_quiet _ _ _ _ _ Hq). cbn [mbind Res_bind].
  set (sts := Quiet.decoded (all_states_of result0 result1) <$> seq 0 16).
  set (kpB := with_pixels (pixels kp)
                (with_keys (Quiet.settle_all (key_clock clk) 0 (keys kp))
                   (with_states sts kp))).
  destruct (settle_all_states (key_clock clk) 0 (keys kp)) as [Hst HqB].
  assert (HokB : Pad.ok kpB).
  { apply (ok_with kp _ Hok); cbn.
    - apply settle_all_length.
    - reflexivity.
    - intros i k Hi. rewrite settle_all_lookup in Hi.
      destruct (keys kp !! i) as [k0|] eqn:E; [|discriminate].
      injection Hi as <-. apply (Pad.ok_numbers kp Hok i k0 E).
    - apply Hok. }
  destruct (sleep_handler_returns (wake_clock clk) (now_clock clk) kpB HokB)
    as (kp' & E & Hok' & _).
  destruct (sleep_handler_keys _ _ _ _ HokB E) as [Hkeys Hcfg].
  destruct (same_but_led_inputs _ _ Hkeys) as [Hks Hq'].
  change (states kpB) with sts in Hcfg.
  exists kp'. cbn [ENABLE_SLEEP]. fold kpB. rewrite E.
  cbn [mbind Res_bind].
  split; [reflexivity|]. split; [exact Hok'|]. split; [exact Hcfg|].
  assert (Hgs : get_states kp' = Key.current_state <$> keys kp).
  { unfold get_states. rewrite Hks. exact Hst. }
  split; [exact Hgs|].
  split; [unfold any_pressed; rewrite Hgs; apply quiet_not_pressed; exact Hq|].
  apply Hq', HqB, Hq.
Qed.

End UpdateFacts.

Lemma init_built (now : float) (clock : nat -> float) :
  RGBKeyPad.init now clock = Ok (Shape.built now clock).
Proof. vm_compute. reflexivity. Qed.

Lemma built_ok (now : float) (clock : nat -> float) : Pad.ok (Shape.built now clock).
Proof.
  split; try reflexivity.
  - intros i k Hi.
    do 16 (destruct i as [|i]; [injection Hi as <-; reflexivity|]).
    discriminate Hi.
  - discriminate.
Qed.

Lemma built_quiet (now : float) (clock : nat -> float) :
  Forall Quiet.key (RGBKeyPad.keys (Shape.built now clock)).
Proof.
  apply Forall_fmap, Forall_forall. intros i _. repeat split.
Qed.

(** C1, on the code: the keypad as its constructor builds it, any mask
    and any clock.  [update] decodes the mask into [self.states] (entry
    [i] is 1 when bit [i] is clear, so [0xFFFE] gives 1 for key 0), but
    every key's [key_state] is copied from its own [current_state], the
    integer 0 the constructor passed by value, so [get_states] is all
    zeros and no key reports pressed. *)
Theorem keys_never_see_the_mask (call : Key.handler_env) (now : float)
    (clock : nat -> float) (result0 result1 : Z) (clk : RGBKeyPad.Readings) :
  RGBKeyPad.init now clock = Ok (Shape.built now clock) /\
  exists kp',
    RGBKeyPad.update call result0 result1 clk (Shape.built now clock)
    = Ok (kp', []) /\
    RGBKeyPad.states kp'
    = Quiet.decoded (RGBKeyPad.all_states_of result0 result1) <$> seq 0 16 /\
    RGBKeyPad.get_states kp' = replicate 16 0 /\
    RGBKeyPad.any_pressed kp' = false /\
    Quiet.decoded (RGBKeyPad.all_states_of 254 255) 0 = 1.
Proof.
  split; [apply init_built|].
  destruct (update_quiet_pad call result0 result1 clk (Shape.built now clock)
              (built_ok now clock) eq_refl (built_quiet now clock))
    as (kp' & E & _ & Hs & Hg & Ha & _).
  exists kp'. split; [exact E|]. split; [exact Hs|].
  split; [rewrite Hg; reflexivity|]. split; [exact Ha | reflexivity].
Qed.

(** ** Coordinates *)

Section CoordinateFacts.

(** [xy_to_number] undoes [number_to_xy] on every integer, and
    [number_to_xy] undoes [xy_to_number] when the column is in
    [0..3]. *)
Theorem number_xy_round_trip (number x y : Z) :
  0 <= x < 4 ->
  xy_to_number (fst (number_to_xy number)) (snd (number_to_xy number))
  = number /\
  number_to_xy (xy_to_number x y) = (x, y).
Proof.
  intros Hx. unfold xy_to_number, number_to_xy. cbn [fst snd]. split.
  - pose proof (Z.div_mod number 4 ltac:(lia)). lia.
  - f_equal.
    + rewrite Z.mod_add by lia. apply Z.mod_small. exact Hx.
    + rewrite Z.div_add by lia.
      rewrite (Z.div_small x 4) by exact Hx. lia.
Qed.

Lemma number_xy_round_trip_witness :
  xy_to_number (fst (number_to_xy 13)) (snd (number_to_xy 13)) = 13 /\
  number_to_xy (xy_to_number 3 2) = (3, 2).
Proof. apply (number_xy_round_trip 13 3 2). lia. Defined.

Lemma exec_coordinates (o : Led.op) (k k' : Key.t) (px px' : Pixels) :
  Led.exec o k px = Ok (k', px') ->
  Key.number k' = Key.number k /\ Key.x k' = Key.x k /\ Key.y k' = Key.y k.
Proof.
  assert (Hset : forall r g b k0,
             Key.set_led r g b k0 px = Ok (k', px') ->
             Key.number k' = Key.number k0 /\ Key.x k' = Key.x k0
             /\ Key.y k' = Key.y k0).
  { intros r g b k0 E. apply set_led_inversion in E as (-> & _).
    unfold Led.lights. destruct (is_black (r, g, b)); repeat split. }
  destruct o as [r g b| | |state|colour]; cbn [Led.exec].
  - apply Hset.
  - unfold Key.led_on. destruct (Key.rgb k) as [[r g] b]. apply Hset.
  - apply Hset.
  - unfold Key.led_state, Key.led_on, Key.led_off.
    destruct (state =? 0); [apply Hset|].
    destruct (state =? 1).
    + destruct (Key.rgb k) as [[r g] b]. apply Hset.
    + intros [= <- <-]. repeat split.
  - unfold Key.toggle_led, Key.led_on, Key.led_off.
    destruct colour as [c|].
    + destruct (Key.lit (Key.with_rgb c k)).
      * intros E. apply (Hset _ _ _ _ E).
      * destruct (Key.rgb (Key.with_rgb c k)) as [[r g] b].
        intros E. apply (Hset _ _ _ _ E).
    + destruct (Key.lit k); [apply Hset|].
      destruct (Key.rgb k) as [[r g] b]. apply Hset.
Qed.

(** However its LED has been driven since construction, a key's
    [get_number] is the number it was built with, and [get_xy] is that
    number's column and row. *)
Theorem get_number_is_number (k : Key.t) (px : Pixels) :
  Led.reachable k px ->
  Key.get_number k = Key.number k /\
  Key.get_xy k = (Key.x k, Key.y k) /\
  Key.get_xy k = (Key.number k mod 4, Key.number k / 4).
Proof.
  intros Hr.
  assert (H : Key.x k = Key.number k mod 4 /\ Key.y k = Key.number k / 4).
  { induction Hr as [number px0 ks bs now k px Hinit
                    | o k px k' px' _ IH He].
    - unfold Key.init, Key.led_off in Hinit.
      destruct (Key.set_led 0 0 0 _ px0) as [[k0 px1]|e] eqn:E;
        [|discriminate].
      cbn [mbind Res_bind] in Hinit. injection Hinit as <- <-.
      apply set_led_inversion in E as (-> & _).
      split; reflexivity.
    - destruct (exec_coordinates _ _ _ _ _ He) as (-> & -> & ->).
      exact IH. }
  destruct H as [Hx Hy].
  unfold Key.get_number, Key.get_xy, number_to_xy. rewrite Hx, Hy.
  split; [|split; reflexivity].
  unfold xy_to_number.
  pose proof (Z.div_mod (Key.number k) 4 ltac:(lia)). lia.
Qed.

Lemma get_number_is_number_witness :
  Key.get_number (Led.lights (10, 20, 30) (Demo.fresh_key 3 0 0)) = 3 /\
  Key.get_xy (Led.lights (10, 20, 30) (Demo.fresh_key 3 0 0)) = (3, 0).
Proof.
  assert (Hr : Led.reachable (Led.lights (10, 20, 30) (Demo.fresh_key 3 0 0))
                 (<[3%nat := (10, 20, 30)]>
                    (<[3%nat := black]> Demo.dark_strip))).
  { apply (Led.reach_exec (Led.SetLed 10 20 30) (Demo.fresh_key 3 0 0)
             (<[3%nat := black]> Demo.dark_strip)); [|reflexivity].
    apply (Led.reach_init 3 Demo.dark_strip 0 "default" 0%float).
    apply (init_fresh_key 3 0 0%float Demo.dark_strip 3). reflexivity. }
  destruct (get_number_is_number _ _ Hr) as (Hn & _ & Hxy).
  split; [exact Hn | exact Hxy].
Defined.

End CoordinateFacts.

(** ** The LED calls of one key *)

Section LedCallFacts.

Lemma exec_write (o : Led.op) (k k' : Key.t) (px px' : Pixels) :
  Led.exec o k px = Ok (k', px') ->
  Key.number k' = Key.number k /\
  (px' = px \/
   exists j c, Led.slot k px = Ok j /\ px' = <[j := c]> px).
Proof.
  assert (Hset : forall r g b k0,
             Key.number k0 = Key.number k ->
             Key.set_led r g b k0 px = Ok (k', px') ->
             Key.number k' = Key.number k /\
             (px' = px \/
              exists j c, Led.slot k px = Ok j /\ px' = <[j := c]> px)).
  { intros r g b k0 Hn E.
    apply set_led_inversion in E as (-> & _ & j & Hj & ->).
    rewrite lights_number. split; [exact Hn|].
    right. exists j, (r, g, b). split; [|reflexivity].
    unfold Led.slot in *. rewrite <- Hn. exact Hj. }
  destruct o as [r g b| | |state|colour]; cbn [Led.exec].
  - apply Hset. reflexivity.
  - unfold Key.led_on. destruct (Key.rgb k) as [[r g] b].
    apply Hset. reflexivity.
  - apply Hset. reflexivity.
  - unfold Key.led_state, Key.led_on, Key.led_off.
    destruct (state =? 0); [apply Hset; reflexivity|].
    destruct (state =? 1).
    + destruct (Key.rgb k) as [[r g] b]. apply Hset. reflexivity.
    + intros [= <- <-]. split; [reflexivity | left; reflexivity].
  - unfold Key.toggle_led, Key.led_on, Key.led_off.
    destruct colour as [c|].
    + destruct (Key.lit (Key.with_rgb c k)).
      * apply Hset. reflexivity.
      * destruct (Key.rgb (Key.with_rgb c k)) as [[r g] b].
        apply Hset. reflexivity.
    + destruct (Key.lit k); [apply Hset; reflexivity|].
      destruct (Key.rgb k) as [[r g] b]. apply Hset. reflexivity.
Qed.

(** Whatever LED method is called on a key ([set_led], [led_on],
    [led_off], [led_state], [toggle_led]), the strip keeps its length,
    the key keeps its pixel, and no pixel but the key's own is
    written. *)
Theorem led_call_writes_own_pixel (o : Led.op) (k k' : Key.t)
    (px px' : Pixels) :
  Led.exec o k px = Ok (k', px') ->
  length px' = length px /\
  Led.slot k' px' = Led.slot k px /\
  forall j i, Led.slot k px = Ok j -> i <> j -> px' !! i = px !! i.
Proof.
  intros E. destruct (exec_write _ _ _ _ _ E) as [Hn [-> | (j & c & Hj & ->)]].
  - split; [reflexivity|]. split; [|reflexivity].
    unfold Led.slot. rewrite Hn. reflexivity.
  - split; [apply length_insert|]. split.
    + apply slot_insert. exact Hn.
    + intros j' i Hj' Hi. rewrite Hj in Hj'. injection Hj' as <-.
      apply list_lookup_insert_ne. auto.
Qed.

Lemma led_call_writes_own_pixel_witness :
  length (<[3%nat := (10, 20, 30)]> Demo.dark_strip) = length Demo.dark_strip /\
  <[3%nat := (10, 20, 30)]> Demo.dark_strip !! 5%nat
  = Demo.dark_strip !! 5%nat.
Proof.
  destruct (led_call_writes_own_pixel (Led.SetLed 10 20 30)
              (Demo.fresh_key 3 0 0) (Led.lights (10, 20, 30) (Demo.fresh_key 3 0 0))
              Demo.dark_strip (<[3%nat := (10, 20, 30)]> Demo.dark_strip)
              eq_refl) as (Hl & _ & Hother).
  split; [exact Hl|].
  apply (Hother 3%nat 5%nat); [reflexivity | lia].
Defined.

(** [toggle_led] with a colour: the colour is remembered whether the
    key was lit or not; a lit key goes dark, an unlit key is lit in the
    colour, unless the colour is black, in which case it stays unlit. *)
Theorem toggle_led_with_colour (c : RGB) (k : Key.t) (px : Pixels) :
  Led.on_strip k px ->
  exists k1 px1,
    Key.toggle_led (Some c) k px = Ok (k1, px1) /\
    Key.rgb k1 = c /\
    Key.lit k1 = negb (Key.lit k) && negb (is_black c) /\
    Led.pixel k1 px1 = Some (if Key.lit k then black else c) /\
    Led.on_strip k1 px1 /\
    Led.inv k1.
Proof.
  intros Hon. unfold Key.toggle_led.
  assert (Hon' : Led.on_strip (Key.with_rgb c k) px) by exact Hon.
  change (Key.lit (Key.with_rgb c k)) with (Key.lit k).
  destruct (Key.lit k) eqn:Hlit.
  - destruct (set_led_returns 0 0 0 _ _ Hon') as (px1 & E & Hs & Hp).
    exists (Led.lights (0, 0, 0) (Key.with_rgb c k)), px1.
    unfold Key.led_off. rewrite E.
    split; [reflexivity|]. split; [reflexivity|]. split; [reflexivity|].
    split; [exact Hp|]. split; [exact Hs | apply lights_inv].
  - unfold Key.led_on. change (Key.rgb (Key.with_rgb c k)) with c.
    destruct c as [[r g] b].
    destruct (set_led_returns r g b _ _ Hon') as (px1 & E & Hs & Hp).
    exists (Led.lights (r, g, b) (Key.with_rgb (r, g, b) k)), px1.
    rewrite E. split; [reflexivity|]. split.
    { rewrite lights_rgb. destruct (is_black (r, g, b)); reflexivity. }
    split.
    { rewrite lights_lit. reflexivity. }
    split; [exact Hp|]. split; [exact Hs | apply lights_inv].
Qed.

Lemma toggle_led_with_colour_witness :
  exists k1 px1,
    Key.toggle_led (Some (255, 0, 0)) (Demo.fresh_key 3 0 0) Demo.dark_strip
    = Ok (k1, px1) /\
    Key.rgb k1 = (255, 0, 0) /\ Key.lit k1 = true /\
    Led.pixel k1 px1 = Some (255, 0, 0).
Proof.
  assert (Hon : Led.on_strip (Demo.fresh_key 3 0 0) Demo.dark_strip)
    by (vm_compute; exact I).
  destruct (toggle_led_with_colour (255, 0, 0) _ _ Hon)
    as (k1 & px1 & E & Hrgb & Hlit & Hp & _).
  exists k1, px1. split; [exact E|]. split; [exact Hrgb|].
  split; [exact Hlit | exact Hp].
Defined.

End LedCallFacts.

(** ** Queries and LED methods of the keypad *)

Section KeypadFacts.

Import RGBKeyPad.

Lemma any_pressed_at (kp : t) :
  any_pressed kp = true <-> exists i, Shape.pressed_at kp i.
Proof.
  unfold any_pressed, get_states, Shape.pressed_at.
  rewrite existsb_exists. split.
  - intros (z & Hin & Hz). apply list_elem_of_In in Hin.
    apply list_elem_of_fmap in Hin as (k & -> & Hk).
    apply list_elem_of_lookup in Hk as (i & Hi). eauto.
  - intros (i & k & Hi & Hk). exists (Key.key_state k). split; [|exact Hk].
    apply list_elem_of_In, list_elem_of_fmap. exists k. split; [reflexivity|].
    apply list_elem_of_lookup. eauto.
Qed.

Lemma get_pressed_elem (kp : t) (n : Z) :
  n ∈ get_pressed kp <->
  exists i k, keys kp !! i = Some k /\ truthy (Key.key_state k) = true /\
              Key.number k = n.
Proof.
  unfold get_pressed. rewrite list_elem_of_fmap. split.
  - intros (k & -> & Hk). apply list_elem_of_filter in Hk as [Ht Hk].
    apply list_elem_of_lookup in Hk as (i & Hi). eauto.
  - intros (i & k & Hi & Ht & <-). exists k. split; [reflexivity|].
    apply list_elem_of_filter. split; [exact Ht|].
    apply list_elem_of_lookup. eauto.
Qed.

(** The four queries agree on a well-formed keypad: [get_states] has
    one entry per key, [none_pressed] is the negation of [any_pressed],
    [any_pressed] holds exactly when [get_pressed] is not empty, and
    [get_pressed] lists exactly the positions of the keys whose
    [key_state] is truthy. *)
Theorem pressed_queries_agree (kp : t) :
  Pad.ok kp ->
  length (get_states kp) = 16%nat /\
  none_pressed kp = negb (any_pressed kp) /\
  (any_pressed kp = true <-> get_pressed kp <> []) /\
  (forall n, n ∈ get_pressed kp <->
             exists i, n = Z.of_nat i /\ Shape.pressed_at kp i).
Proof.
  intros Hok.
  assert (Hmem : forall n, n ∈ get_pressed kp <->
                           exists i, n = Z.of_nat i /\ Shape.pressed_at kp i).
  { intros n. rewrite get_pressed_elem. unfold Shape.pressed_at. split.
    - intros (i & k & Hi & Ht & <-). exists i.
      split; [apply (Pad.ok_numbers kp Hok i k Hi) | eauto].
    - intros (i & -> & k & Hi & Ht). exists i, k.
      split; [exact Hi|]. split; [exact Ht|].
      apply (Pad.ok_numbers kp Hok i k Hi). }
  split; [unfold get_states; rewrite length_fmap; apply Hok|].
  split; [reflexivity|]. split; [|exact Hmem].
  rewrite any_pressed_at. split.
  - intros (i & Hi) Hnil.
    assert (Hin : Z.of_nat i ∈ get_pressed kp) by (apply Hmem; eauto).
    rewrite Hnil in Hin. apply elem_of_nil in Hin. exact Hin.
  - intros Hne.
    assert (Hin : exists n, n ∈ get_pressed kp).
    { destruct (get_pressed kp) as [|n l]; [congruence|].
      exists n. apply elem_of_cons. auto. }
    destruct Hin as (n & Hin). apply Hmem in Hin as (i & _ & Hi). eauto.
Qed.

Lemma pressed_queries_agree_witness :
  none_pressed (Demo.press 5 Demo.fresh_pad) = false /\
  5 ∈ get_pressed (Demo.press 5 Demo.fresh_pad).
Proof.
  assert (Hok : Pad.ok (Demo.press 5 Demo.fresh_pad)).
  { apply (ok_with Demo.fresh_pad _ fresh_pad_ok); try reflexivity.
    - intros i k Hi. cbn in Hi.
      do 16 (destruct i as [|i]; [injection Hi as <-; reflexivity|]).
      discriminate.
    - discriminate. }
  destruct (pressed_queries_agree _ Hok) as (_ & Hnone & _ & Hmem).
  split; [rewrite Hnone; reflexivity|].
  apply Hmem. exists 5%nat. split; [reflexivity|].
  eexists. split; reflexivity.
Defined.

(** While the keypad is not asleep, [set_all] writes the colour to all
    sixteen pixels; every key is lit in it and remembers it, unless the
    colour is black, in which case every key is unlit and remembers
    what it did before.  Nothing else of the keypad changes. *)
Theorem set_all_paints_every_key (r g b : Z) (kp : t) :
  Pad.ok kp ->
  sleeping kp = false ->
  exists kp',
    set_all r g b kp = Ok kp' /\
    Pad.ok kp' /\
    pixels kp' = replicate 16 (r, g, b) /\
    Pad.config kp' = Pad.config kp /\
    Forall2 (fun k k' =>
               Shape.same_but_led k k' /\
               Key.lit k' = negb (is_black (r, g, b)) /\
               Key.rgb k' = if is_black (r, g, b) then Key.rgb k
                            else (r, g, b))
      (keys kp) (keys kp').
Proof.
  intros Hok Hs. exists (Pad.all_lit (r, g, b) kp).
  rewrite (set_all_ok r g b kp Hok), Hs.
  split; [reflexivity|]. split; [apply all_lit_ok; exact Hok|].
  split; [reflexivity|]. split; [reflexivity|].
  cbn. apply Forall2_fmap_r, Forall_Forall2_diag, Forall_forall.
  intros k _. split; [apply lights_same_but_led|].
  split; [apply lights_lit | apply lights_rgb].
Qed.

Lemma set_all_paints_every_key_witness :
  exists kp',
    set_all 0 0 255 Demo.fresh_pad = Ok kp' /\
    pixels kp' = replicate 16 (0, 0, 255).
Proof.
  destruct (set_all_paints_every_key 0 0 255 Demo.fresh_pad
              fresh_pad_ok eq_refl) as (kp' & E & _ & Hp & _).
  exists kp'. split; [exact E | exact Hp].
Defined.

(** [clear_all] is [set_all(0, 0, 0)], asleep or not: the strip goes
    dark, every key is unlit and keeps its remembered colour. *)
Theorem clear_all_darkens (kp : t) :
  Pad.ok kp ->
  exists kp',
    clear_all kp = Ok kp' /\
    set_all 0 0 0 kp = Ok kp' /\
    Pad.ok kp' /\
    Pad.dark kp' /\
    Pad.config kp' = Pad.config kp /\
    Key.rgb <$> keys kp' = Key.rgb <$> keys kp.
Proof.
  intros Hok. exists (Pad.all_lit black kp).
  split; [apply clear_all_ok; exact Hok|].
  split.
  { rewrite (set_all_ok 0 0 0 kp Hok). destruct (sleeping kp); reflexivity. }
  split; [apply all_lit_ok; exact Hok|].
  split; [apply all_lit_black_dark|].
  split; [reflexivity|].
  cbn. rewrite <- list_fmap_compose. apply list_fmap_ext.
  intros i k _. reflexivity.
Qed.

Lemma clear_all_darkens_witness :
  exists kp',
    clear_all Demo.blue_pad = Ok kp' /\ Pad.dark kp' /\
    Key.rgb <$> keys kp' = replicate 16 (0, 0, 255).
Proof.
  destruct (clear_all_darkens Demo.blue_pad blue_pad_ok)
    as (kp' & E & _ & _ & Hd & _ & Hrgb).
  exists kp'. split; [exact E|]. split; [exact Hd|].
  rewrite Hrgb. reflexivity.
Defined.

Lemma py_index_wraps (n : nat) (i : Z) :
  (- Z.of_nat n <= i < Z.of_nat n)%Z ->
  py_index n i = Ok (Z.to_nat (i mod Z.of_nat n)).
Proof.
  intros Hi. unfold py_index.
  destruct (Z.leb_spec 0 i) as [H0|H0].
  - destruct (Z.ltb_spec i (Z.of_nat n)) as [H1|H1]; [|lia].
    cbn [andb]. rewrite Z.mod_small by lia. reflexivity.
  - cbn [andb].
    destruct (Z.leb_spec (- Z.of_nat n) i) as [H1|H1]; [|lia].
    destruct (Z.ltb_spec i 0) as [H2|H2]; [|lia].
    cbn [andb]. do 2 f_equal.
    rewrite <- (Z.mod_add i 1 (Z.of_nat n)) by lia.
    rewrite Z.mod_small by lia. lia.
Qed.

Lemma py_index_outside (n : nat) (i : Z) :
  (i < - Z.of_nat n \/ Z.of_nat n <= i)%Z ->
  py_index n i = Raise IndexError.
Proof.
  intros Hi. unfold py_index.
  destruct (Z.leb_spec 0 i) as [H0|H0];
    destruct (Z.ltb_spec i (Z.of_nat n)) as [H1|H1];
    destruct (Z.leb_spec (- Z.of_nat n) i) as [H2|H2];
    destruct (Z.ltb_spec i 0) as [H3|H3];
    cbn [andb]; first [reflexivity | lia].
Qed.

(** [RGBKeyPad.set_led(number, r, g, b)] subscripts the list of keys
    the way Python does: a number in [-16 .. 15] drives key
    [number mod 16] and its pixel, leaving the other keys and pixels
    alone; any other number raises [IndexError]. *)
Theorem set_led_subscript (number r g b : Z) (kp : t) :
  Pad.ok kp ->
  ((-16 <= number < 16)%Z ->
   exists k,
     keys kp !! Z.to_nat (number mod 16) = Some k /\
     Key.number k = (number mod 16)%Z /\
     set_led number r g b kp
     = Ok (with_pixels
             (<[Z.to_nat (number mod 16) := (r, g, b)]> (pixels kp))
             (with_keys
                (<[Z.to_nat (number mod 16) := Led.lights (r, g, b) k]>
                   (keys kp)) kp))) /\
  ((number < -16 \/ 16 <= number)%Z ->
   set_led number r g b kp = Raise IndexError).
Proof.
  intros Hok. pose proof (Pad.ok_keys kp Hok) as Hk.
  pose proof (Pad.ok_pixels kp Hok) as Hp.
  unfold set_led, on_key. rewrite Hk. split.
  - intros Hn. rewrite (py_index_wraps 16 number) by lia.
    change (Z.of_nat 16) with 16%Z.
    pose proof (Z.mod_pos_bound number 16 ltac:(lia)) as Hm.
    set (j := Z.to_nat (number mod 16)).
    assert (Hj : (j < 16)%nat) by (unfold j; lia).
    destruct (lookup_lt_is_Some_2 (keys kp) j ltac:(lia)) as [k Hkj].
    exists k. split; [exact Hkj|].
    pose proof (Pad.ok_numbers kp Hok j k Hkj) as Hnum.
    split; [rewrite Hnum; unfold j; lia|].
    cbn [mbind Res_bind]. rewrite Hkj.
    assert (Hslot : Led.slot k (pixels kp) = Ok j).
    { unfold Led.slot. rewrite Hnum, Hp. apply py_index_nat. lia. }
    rewrite (set_led_ok r g b k _ j Hslot). reflexivity.
  - intros Hn. rewrite (py_index_outside 16 number) by lia. reflexivity.
Qed.

Lemma set_led_subscript_witness :
  (exists kp',
      set_led (-1) 255 0 0 Demo.fresh_pad = Ok kp' /\
      pixels kp' !! 15%nat = Some (255, 0, 0)) /\
  set_led 16 255 0 0 Demo.fresh_pad = Raise IndexError.
Proof.
  destruct (set_led_subscript (-1) 255 0 0 Demo.fresh_pad fresh_pad_ok)
    as [Hin _].
  destruct (set_led_subscript 16 255 0 0 Demo.fresh_pad fresh_pad_ok)
    as [_ Hout].
  split.
  - destruct (Hin ltac:(lia)) as (k & _ & _ & E).
    eexists. split; [exact E | reflexivity].
  - apply Hout. lia.
Defined.

End KeypadFacts.

(** ** The sleep timer *)

Section SleepTimerFacts.

Import RGBKeyPad.

(** An awake keypad stays awake, with its keys and LEDs untouched, as
    long as sleeping is disabled or the code does not find the time
    since the last press (the press of this cycle, if a key is down)
    above [led_sleep_time]. *)
Theorem awake_keypad_stays_awake (t_wake t_now : float) (kp : t) :
  Pad.awake kp ->
  led_sleep_enabled kp = false \/
  Fltb (led_sleep_time kp)
    (t_now - (if any_pressed kp then t_wake else time_of_last_press kp))
  = false ->
  exists kp',
    sleep_handler t_wake t_now kp = Ok kp' /\
    Pad.awake kp' /\
    keys kp' = keys kp /\
    pixels kp' = pixels kp /\
    last_led_states kp' = last_led_states kp /\
    time_of_last_press kp'
    = (if any_pressed kp then t_wake else time_of_last_press kp) /\
    time_since_last_press kp'
    = Some (t_now - time_of_last_press kp')%float.
Proof.
  intros [Hs Hw] Hcond. unfold sleep_handler, note_press.
  set (last := if any_pressed kp then t_wake else time_of_last_press kp) in *.
  set (kpB := with_time_since_last_press (Some (t_now - last)%float)
                (with_sleeping false (with_time_of_last_press last kp))).
  assert (E : with_time_since_last_press
                (Some (t_now
                       - time_of_last_press
                           (if any_pressed kp
                            then with_sleeping false
                                   (with_time_of_last_press t_wake kp)
                            else kp))%float)
                (if any_pressed kp
                 then with_sleeping false (with_time_of_last_press t_wake kp)
                 else kp) = kpB).
  { unfold kpB, last. destruct (any_pressed kp); [reflexivity|].
    destruct kp. cbn in Hs. subst. reflexivity. }
  rewrite E.
  assert (Heng : engage kpB = Ok kpB).
  { unfold engage. change (sleeping kpB) with false.
    change (led_sleep_enabled kpB) with (led_sleep_enabled kp).
    change (time_since_last_press kpB) with (Some (t_now - last)%float).
    change (led_sleep_time kpB) with (led_sleep_time kp).
    destruct Hcond as [-> | Hle]; [reflexivity|].
    rewrite Hle.
    destruct (led_sleep_enabled kp); reflexivity. }
  rewrite Heng. cbn [mbind Res_bind]. unfold wake.
  change (was_asleep kpB) with (was_asleep kp). rewrite Hw.
  rewrite andb_false_r.
  exists kpB. split; [reflexivity|].
  split; [split; [reflexivity | exact Hw]|].
  repeat split.
Qed.

Lemma awake_keypad_stays_awake_witness :
  exists kp',
    sleep_handler 0.5 0.5 Demo.blue_pad = Ok kp' /\
    pixels kp' = replicate 16 (0, 0, 255) /\
    sleeping kp' = false.
Proof.
  assert (Hle : Fltb (led_sleep_time Demo.blue_pad)
                  (0.5 - (if any_pressed Demo.blue_pad then 0.5
                          else time_of_last_press Demo.blue_pad))
                = false)
    by reflexivity.
  destruct (awake_keypad_stays_awake 0.5 0.5 Demo.blue_pad
              (conj eq_refl eq_refl) (or_intror Hle))
    as (kp' & E & [Hs _] & _ & Hp & _).
  exists kp'. split; [exact E|]. split; [rewrite Hp; reflexivity | exact Hs].
Defined.

(** The wake-up cycle reads the clock twice.  If the code finds more
    than [led_sleep_time] between the two reads, the key press that
    should wake the keypad puts it to sleep again in the same cycle:
    the LEDs are dark, and the saved colours are replaced by a snapshot
    of what the keys show now (its colour for a lit key, black for an
    unlit one), which is black for every key when the keypad is
    dark. *)
Theorem slow_wake_cycle_sleeps_again (t_wake t_now : float) (snap : list RGB)
    (kp : t) :
  Pad.slumber snap (led_sleep_time kp) kp ->
  led_sleep_enabled kp = true ->
  any_pressed kp = true ->
  Fltb (led_sleep_time kp) (t_now - t_wake) = true ->
  exists kp' snap',
    sleep_handler t_wake t_now kp = Ok kp' /\
    sleeping kp' = true /\
    was_asleep kp' = true /\
    Pad.dark kp' /\
    last_led_states kp' = Some snap' /\
    (forall i k,
        keys kp !! i = Some k ->
        snap' !! i = Some (if Key.lit k then Key.rgb k else black)) /\
    (Pad.dark kp -> snap' = replicate 16 black).
Proof.
  intros (Hok & Hs & Hw & Hl & Hlen & _) Hen Hany Hlt.
  rewrite (sleep_handler_sleeps_again t_wake t_now kp Hok Hen Hany Hlt).
  eexists. exists (snapshot (keys kp)).
  split; [reflexivity|]. split; [reflexivity|]. split; [reflexivity|].
  split; [apply all_lit_black_dark|]. split; [reflexivity|].
  split; [intros i k Hk; apply snapshot_lookup; exact Hk|].
  intros [_ Hd]. rewrite (snapshot_dark _ Hd).
  rewrite (Pad.ok_keys kp Hok). reflexivity.
Qed.

Lemma slow_wake_cycle_sleeps_again_witness :
  exists kp',
    sleep_handler 9 11 (Demo.press 5 Demo.sleepy_pad) = Ok kp' /\
    sleeping kp' = true /\
    last_led_states Demo.sleepy_pad = Some (replicate 16 (0, 0, 255)) /\
    last_led_states kp' = Some (replicate 16 black).
Proof.
  assert (Hsl : Pad.slumber (replicate 16 (0, 0, 255))
                  (led_sleep_time (Demo.press 5 Demo.sleepy_pad))
                  (Demo.press 5 Demo.sleepy_pad)).
  { split; [apply press_ok, sleepy_pad_ok|]. repeat split. }
  assert (Hlt : Fltb (led_sleep_time (Demo.press 5 Demo.sleepy_pad)) (11 - 9)
                = true)
    by reflexivity.
  destruct (slow_wake_cycle_sleeps_again 9 11 _ _ Hsl eq_refl eq_refl Hlt)
    as (kp' & snap' & E & Hs & _ & _ & Hsaved & _ & Hsnap).
  exists kp'. split; [exact E|]. split; [exact Hs|].
  split; [reflexivity|].
  rewrite Hsaved. f_equal.
  apply Hsnap, (press_dark 5 Demo.sleepy_pad), sleepy_pad_dark.
Defined.

End SleepTimerFacts.

(** ** Dispatch of a key's handlers *)

Section DispatchFacts.

Import Machine Run.

Variable call : Key.handler_env.

Lemma settle_wiring (t0 : float) (k : Key.t) :
  wiring (Quiet.settle t0 k) = wiring k /\
  Key.hold_time (Quiet.settle t0 k) = Key.hold_time k /\
  Key.last_state (Quiet.settle t0 k) = Some false.
Proof. destruct k. repeat split. Qed.

(** A key that was released at the last cycle and keeps reading
    released goes through any number of cycles without calling a
    handler and without raising, whatever its tables hold, also with no
    handler registered at all; its LED and the strip are left alone. *)
Theorem released_key_never_dispatches (cs : list cycle) (k : Key.t)
    (px : Pixels) (log : list event) :
  truthy_opt (Key.last_state k) = false ->
  Fltb (Key.hold_time k) 0 = false ->
  Forall is_released cs ->
  exists k',
    run call cs (k, px, log) = Ok (k', px, log) /\
    wiring k' = wiring k /\
    Key.rgb k' = Key.rgb k /\
    Key.lit k' = Key.lit k /\
    Key.number k' = Key.number k /\
    truthy_opt (Key.last_state k') = false.
Proof.
  intros Hlast Hhold Hcs. revert k Hlast Hhold.
  induction Hcs as [|c cs Hc _ IH]; intros k Hlast Hhold.
  - exists k. repeat split; auto.
  - assert (Hq : Quiet.key (Key.with_current_state (reading c) k)).
    { split; [exact Hc|]. split; [exact Hlast | exact Hhold]. }
    pose proof (update_quiet_key call (t0 c) (t1 c) _ px log Hq) as E.
    set (k1 := Quiet.settle (t0 c) (Key.with_current_state (reading c) k))
      in *.
    destruct (settle_wiring (t0 c) (Key.with_current_state (reading c) k))
      as (Hw1 & Hh1 & Hl1).
    destruct (settle_fields (t0 c) (Key.with_current_state (reading c) k))
      as (Hn1 & _ & _ & Hrgb1 & Hlit1).
    fold k1 in Hw1, Hh1, Hl1, Hn1, Hrgb1, Hlit1.
    destruct (IH k1) as (k' & E' & Hw' & Hrgb' & Hlit' & Hn' & Hl').
    { rewrite Hl1. reflexivity. }
    { rewrite Hh1. exact Hhold. }
    exists k'. rewrite run_cons. unfold poll. rewrite E.
    cbn [mbind Res_bind]. split; [exact E'|].
    split; [rewrite Hw', Hw1; reflexivity|].
    split; [rewrite Hrgb', Hrgb1; reflexivity|].
    split; [rewrite Hlit', Hlit1; reflexivity|].
    split; [rewrite Hn', Hn1; reflexivity | exact Hl'].
Qed.

Hypothesis call_frame : frame call.

Lemma calls_handler (mk_ : callable -> event) (due : bool)
    (table : option (gmap string (option callable))) (m : string)
    (P : event -> Prop) :
  (forall f, callee table m = Some f -> P (mk_ f)) ->
  Forall P (calls mk_ due table m).
Proof.
  intros H. unfold calls. destruct due; [|constructor].
  destruct (callee table m) as [f|]; [|constructor].
  constructor; [apply H; reflexivity | constructor].
Qed.

Lemma events_handlers (r : Z) (t0 t1 : float) (k : Key.t) :
  Forall (Shape.handler_of k) (events r t0 t1 k).
Proof.
  rewrite events_flags. repeat apply Forall_app_2;
    apply calls_handler; intros f Hf; exact Hf.
Qed.

Lemma handler_of_wiring (k k' : Key.t) (e : event) :
  wiring k' = wiring k -> Shape.handler_of k' e -> Shape.handler_of k e.
Proof.
  unfold wiring. intros [= Hm Hp Hr Hh].
  destruct e; cbn [Shape.handler_of]; congruence.
Qed.

(** Over any run of cycles of a key whose tables hold a handler for
    its mode, with handlers that leave the key's state machine alone:
    every call [update] makes goes to the handler that the table of its
    kind holds for the key's mode, and the mode, the debounce time, the
    hold threshold and the three tables are the same after the run. *)
Theorem only_registered_handlers_run (cs : list cycle) (k : Key.t)
    (px : Pixels) (log : list event) :
  wired_key k ->
  exists k' px' new,
    run call cs (k, px, log) = Ok (k', px', log ++ new) /\
    Forall (Shape.handler_of k) new /\
    Machine.config (of_key k') = Machine.config (of_key k).
Proof.
  revert k px log. induction cs as [|c cs IH]; intros k px log Hw.
  - exists k, px, []. rewrite app_nil_r. repeat split. constructor.
  - destruct (poll_sim call call_frame c k px log Hw)
      as (k1 & px1 & E & M & _).
    rewrite next_step in M.
    pose proof (wired_step k k1 _ _ _ Hw M) as Hw1.
    destruct (IH k1 px1 (log ++ events (reading c) (t0 c) (t1 c) k) Hw1)
      as (k' & px' & new & E' & Hnew & Hcfg).
    rewrite M, config_step in Hcfg.
    assert (Hwi : wiring k1 = wiring k).
    { rewrite <- next_step in M. rewrite (wiring_of_key _ _ M).
      apply wiring_next. }
    exists k', px', (events (reading c) (t0 c) (t1 c) k ++ new).
    rewrite run_cons, E. cbn [mbind Res_bind]. rewrite app_assoc.
    split; [exact E'|]. split; [|exact Hcfg].
    apply Forall_app_2; [apply events_handlers|].
    eapply Forall_impl; [exact Hnew|].
    intros e He. exact (handler_of_wiring k k1 e Hwi He).
Qed.

End DispatchFacts.

Lemma released_key_never_dispatches_witness :
  exists k',
    Run.run Demo.toggling [Demo.at_ 0 1; Demo.at_ 0 2; Demo.at_ 0 3]
      (Demo.fresh_key 7 0 0, Demo.dark_strip, [])
    = Ok (k', Demo.dark_strip, []) /\
    Key.lit k' = false.
Proof.
  destruct (released_key_never_dispatches Demo.toggling
              [Demo.at_ 0 1; Demo.at_ 0 2; Demo.at_ 0 3]
              (Demo.fresh_key 7 0 0) Demo.dark_strip [])
    as (k' & E & _ & _ & Hlit & _).
  - reflexivity.
  - reflexivity.
  - repeat constructor.
  - exists k'. split; [exact E | exact Hlit].
Defined.

Lemma only_registered_handlers_run_witness :
  exists k' px' new,
    Run.run Demo.quiet [Demo.at_ 1 1; Demo.at_ 1 2; Demo.at_ 0 3]
      (Demo.handled_key, Demo.dark_strip, [])
    = Ok (k', px', [] ++ new) /\
    Forall (Shape.handler_of Demo.handled_key) new.
Proof.
  destruct (only_registered_handlers_run Demo.quiet quiet_frame
              [Demo.at_ 1 1; Demo.at_ 1 2; Demo.at_ 0 3]
              Demo.handled_key Demo.dark_strip [] handled_key_wired)
    as (k' & px' & new & E & H & _).
  exists k', px', new. split; [exact E | exact H].
Defined.

Lemma hold_once_per_episode_witness :
  exists s1 s2,
    Run.run Demo.quiet [Demo.at_ 1 1; Demo.at_ 1 1.5; Demo.at_ 1 2]
      (Demo.handled_key, Demo.dark_strip, []) = Ok s1 /\
    Run.run Demo.quiet [Demo.at_ 0 2.5] s1 = Ok s2 /\
    Run.holds s1 = 1%nat /\
    Run.holds s2 = 1%nat.
Proof.
  destruct (hold_once_per_episode Demo.quiet Demo.handled_key
              Demo.dark_strip [] (Demo.at_ 1 1)
              [Demo.at_ 1 1.5; Demo.at_ 1 2] (Demo.at_ 0 2.5)
              quiet_frame handled_key_wired)
    as (s1 & s2 & E1 & E2 & H1 & H2 & _).
  - eexists. vm_compute. reflexivity.
  - split; reflexivity.
  - split; reflexivity.
  - reflexivity.
  - repeat constructor.
  - reflexivity.
  - reflexivity.
  - exists s1, s2. split; [exact E1|]. split; [exact E2|].
    rewrite H2, H1. split; vm_compute; reflexivity.
Defined.

(** ** Registration of handlers *)

Section RegistrationFacts.

Import Machine Run.

Variable call : Key.handler_env.
Hypothesis call_frame : frame call.

Lemma attach_callee (table : option (gmap string (option callable)))
    (state : string) (f : callable) :
  has table = true ->
  exists d,
    RGBKeyPad.attach table state f = Ok (Some d) /\
    callee (Some d) state = Some f /\
    forall m, m <> state -> callee (Some d) m = callee table m.
Proof.
  destruct table as [d|]; [intros _|discriminate].
  exists (<[state := Some f]> d). split; [reflexivity|].
  unfold callee. split.
  - rewrite lookup_insert_eq. reflexivity.
  - intros m Hm. rewrite lookup_insert_ne by auto. reflexivity.
Qed.

(** What registering does.  On a key whose three tables are
    dictionaries (as the constructor leaves them), [on_press],
    [on_release] and [on_hold] for the key's mode return; afterwards a
    press outside the debounce window calls the press handler, that one
    only, and the release that follows calls the release handler, that
    one only.  The handlers are assumed to leave the key's state
    machine alone. *)
Theorem registered_handlers_are_dispatched (k : Key.t) (f g h : callable)
    (px : Pixels) (log : list event) (c rc : cycle) :
  has (Key.press_functions k) = true ->
  has (Key.release_functions k) = true ->
  has (Key.hold_functions k) = true ->
  idle k ->
  rested k ->
  Fltb (Key.hold_time k) 0 = false ->
  is_pressed c ->
  unlocked (Key.debounce k) (Key.time_of_last_press k) c = true ->
  is_released rc ->
  exists k1 k2 k3 s1 s2,
    RGBKeyPad.on_press (Some k) (Key.board_state k) f = Ok (Some k1) /\
    RGBKeyPad.on_release (Some k1) (Key.board_state k) g = Ok (Some k2) /\
    RGBKeyPad.on_hold (Some k2) (Key.board_state k) h = Ok (Some k3) /\
    poll call c (k3, px, log) = Ok s1 /\
    log_of s1 = log ++ [PressCall f] /\
    poll call rc s1 = Ok s2 /\
    log_of s2 = log ++ [PressCall f; ReleaseCall g].
Proof.
  intros Hp Hr Hh [Hlast Hfired] [Hrest Hhfired] HH Hc Hunl Hrc.
  destruct (attach_callee _ (Key.board_state k) f Hp) as (dp & Ep & Cp & _).
  destruct (attach_callee _ (Key.board_state k) g Hr) as (dr & Er & Cr & _).
  destruct (attach_callee _ (Key.board_state k) h Hh) as (dh & Eh & Ch & _).
  set (k1 := Key.with_press_functions (Some dp) k).
  set (k2 := Key.with_release_functions (Some dr) k1).
  set (k3 := Key.with_hold_functions (Some dh) k2).
  exists k1, k2, k3.
  assert (R1 : RGBKeyPad.on_press (Some k) (Key.board_state k) f
               = Ok (Some k1)).
  { unfold RGBKeyPad.on_press. rewrite Ep. reflexivity. }
  assert (R2 : RGBKeyPad.on_release (Some k1) (Key.board_state k) g
               = Ok (Some k2)).
  { unfold RGBKeyPad.on_release.
    change (Key.release_functions k1) with (Key.release_functions k).
    rewrite Er. reflexivity. }
  assert (R3 : RGBKeyPad.on_hold (Some k2) (Key.board_state k) h
               = Ok (Some k3)).
  { unfold RGBKeyPad.on_hold.
    change (Key.hold_functions k2) with (Key.hold_functions k).
    rewrite Eh. reflexivity. }
  assert (T3 : Key.board_state k3 = Key.board_state k /\
               Key.press_functions k3 = Some dp /\
               Key.release_functions k3 = Some dr /\
               Key.hold_functions k3 = Some dh /\
               Key.last_state k3 = Key.last_state k /\
               Key.press_func_fired k3 = Key.press_func_fired k /\
               Key.hold_func_fired k3 = Key.hold_func_fired k /\
               Key.time_of_last_press k3 = Key.time_of_last_press k /\
               Key.time_held_for k3 = Key.time_held_for k /\
               Key.hold_time k3 = Key.hold_time k /\
               Key.debounce k3 = Key.debounce k)
    by (repeat split).
  destruct T3 as (Tm & Tp & Tr & Th & Tl & Tpf & Thf & Tt & Thd & Tht & Td).

  assert (Hw3 : wired_key k3).
  { unfold wired_key, wired, registered.
    rewrite Tm, Tp, Tr, Th, Cp, Cr, Ch. repeat split; right; eauto. }
  (* the press cycle *)
  destruct (poll_sim call call_frame c k3 px log Hw3)
    as (k4 & px4 & E4 & M4 & _).
  rewrite next_step in M4.
  pose proof (wired_step k3 k4 _ _ _ Hw3 M4) as Hw4.
  assert (Hev : events (reading c) (t0 c) (t1 c) k3 = [PressCall f]).
  { rewrite events_flags.
    assert (F1 : press_flag (reading c) (t0 c) (of_key k3) = true).
    { unfold press_flag. machine_cbn.
      rewrite Tp, Tpf, Tt, Td, Hfired, Hc. rewrite unlocked_eq in Hunl.
      rewrite Hunl. reflexivity. }
    assert (F2 : release_flag (reading c) (of_key k3) = false).
    { unfold release_flag. rewrite Hc. reflexivity. }
    assert (F3 : hold_flag (reading c) (t1 c) (of_key k3) = false).
    { unfold hold_flag, over. machine_cbn.
      rewrite Hc, Tl, Hlast, Tht, Thd, Hrest. reflexivity. }
    rewrite F1, F2, F3, Tm, Tp.
    rewrite (calls_due PressCall _ _ f Cp). reflexivity. }
  rewrite Hev in E4.
  (* the release cycle *)
  destruct (poll_sim call call_frame rc k4 px4 (log ++ [PressCall f]) Hw4)
    as (k5 & px5 & E5 & _ & _).
  destruct (step_pressed (reading c) (t0 c) (t1 c) (of_key k3) Hc)
    as (Hcfg & Hl4 & _).
  rewrite <- M4 in Hcfg, Hl4.
  destruct (config_fields _ _ Hcfg) as (Hm4 & _ & Hht4 & Hp4 & Hr4 & Hh4).
  machine_cbn in Hm4. machine_cbn in Hht4. machine_cbn in Hp4.
  machine_cbn in Hr4. machine_cbn in Hh4. machine_cbn in Hl4.
  assert (Hev' : events (reading rc) (t0 rc) (t1 rc) k4 = [ReleaseCall g]).
  { rewrite events_flags.
    assert (F1 : press_flag (reading rc) (t0 rc) (of_key k4) = false).
    { unfold press_flag. rewrite Hrc, andb_false_r. reflexivity. }
    assert (F2 : release_flag (reading rc) (of_key k4) = true).
    { unfold release_flag. machine_cbn. rewrite Hrc, Hl4, Hr4, Tr.
      reflexivity. }
    assert (F3 : hold_flag (reading rc) (t1 rc) (of_key k4) = false).
    { unfold hold_flag, over. machine_cbn. rewrite Hrc, Hht4, Tht.
      rewrite HH. reflexivity. }
    rewrite F1, F2, F3, Hm4, Hr4, Tm, Tr.
    rewrite (calls_due ReleaseCall _ _ g Cr). reflexivity. }
  rewrite Hev', <- app_assoc in E5.
  exists (k4, px4, log ++ [PressCall f]),
         (k5, px5, log ++ [PressCall f] ++ [ReleaseCall g]).
  repeat split; assumption.
Qed.

End RegistrationFacts.

Lemma registered_handlers_are_dispatched_witness :
  exists k3 s1 s2,
    RGBKeyPad.on_hold
      (Some (Key.with_release_functions (Demo.table_with (Fn 1))
               (Key.with_press_functions (Demo.table_with (Fn 0))
                  (Demo.fresh_key 0 0 0))))
      "default" (Fn 2) = Ok (Some k3) /\
    Run.poll Demo.quiet (Demo.at_ 1 1) (k3, Demo.dark_strip, []) = Ok s1 /\
    Run.log_of s1 = [PressCall (Fn 0)] /\
    Run.poll Demo.quiet (Demo.at_ 0 2) s1 = Ok s2 /\
    Run.log_of s2 = [PressCall (Fn 0); ReleaseCall (Fn 1)].
Proof.
  destruct (registered_handlers_are_dispatched Demo.quiet quiet_frame
              (Demo.fresh_key 0 0 0) (Fn 0) (Fn 1) (Fn 2)
              Demo.dark_strip [] (Demo.at_ 1 1) (Demo.at_ 0 2))
    as (k1 & k2 & k3 & s1 & s2 & R1 & R2 & R3 & E1 & L1 & E2 & L2).
  - reflexivity.
  - reflexivity.
  - reflexivity.
  - split; reflexivity.
  - split; reflexivity.
  - reflexivity.
  - reflexivity.
  - reflexivity.
  - reflexivity.
  - injection R1 as <-. injection R2 as <-.
    exists k3, s1, s2. split; [exact R3|]. split; [exact E1|].
    split; [exact L1|]. split; [exact E2 | exact L2].
Defined.

(** ** The constructor and the polling cycle of the keypad *)

Section CycleFacts.

Import RGBKeyPad.

(** [RGBKeyPad()] returns, whatever the clock reads: sixteen keys
    numbered by position, each with the three tables
    [{'default': None}], on a dark strip of sixteen pixels; the keypad
    is awake, no key is pressed and nothing is pending on any key. *)
Theorem constructor_builds_a_dark_keypad (now : float) (clock : nat -> float) :
  exists kp,
    init now clock = Ok kp /\
    Pad.ok kp /\
    Pad.dark kp /\
    Pad.awake kp /\
    length (states kp) = 16%nat /\
    get_pressed kp = [] /\
    Forall Quiet.key (keys kp) /\
    Forall (fun k =>
              Key.press_functions k = Demo.no_handlers /\
              Key.release_functions k = Demo.no_handlers /\
              Key.hold_functions k = Demo.no_handlers /\
              Key.time_of_last_press k
              = clock (Z.to_nat (Key.number k)))
      (keys kp).
Proof.
  exists (Shape.built now clock).
  split; [apply init_built|]. split; [apply built_ok|].
  split.
  { split; [reflexivity|].
    apply Forall_fmap, Forall_forall. intros i _. reflexivity. }
  split; [split; reflexivity|]. split; [reflexivity|].
  split; [reflexivity|]. split; [apply built_quiet|].
  apply Forall_fmap, Forall_forall. intros i _.
  cbn. rewrite Nat2Z.id. repeat split.
Qed.

(** One cycle of a well-formed keypad on whose keys nothing is pending
    (no key reads pressed or was pressed at the last cycle): [update]
    returns without calling a handler, [states] holds the decoded mask
    (1 where the bit is clear), [get_states] is the keys'
    [current_state], no key reports pressed, and the keypad is again
    well-formed with nothing pending, so the same holds for the next
    cycle. *)
Theorem update_without_press (call : Key.handler_env)
    (result0 result1 : Z) (clk : Readings) (kp : t) :
  Pad.ok kp ->
  length (states kp) = 16%nat ->
  Forall Quiet.key (keys kp) ->
  exists kp',
    update call result0 result1 clk kp = Ok (kp', []) /\
    Pad.ok kp' /\
    length (states kp') = 16%nat /\
    Forall Quiet.key (keys kp') /\
    states kp' = Quiet.decoded (all_states_of result0 result1) <$> seq 0 16 /\
    get_states kp' = Key.current_state <$> keys kp /\
    any_pressed kp' = false.
Proof.
  intros Hok Hlen Hq.
  destruct (update_quiet_pad call result0 result1 clk kp Hok Hlen Hq)
    as (kp' & E & Hok' & Hs & Hg & Ha & Hq').
  exists kp'. split; [exact E|]. split; [exact Hok'|].
  split; [rewrite Hs; reflexivity|]. split; [exact Hq'|].
  split; [exact Hs|]. split; [exact Hg | exact Ha].
Qed.

Lemma update_without_press_witness :
  exists kp',
    update Demo.toggling 254 255 (Demo.at_time 3) Demo.blue_pad
    = Ok (kp', []) /\
    states kp' !! 0%nat = Some 1 /\
    get_states kp' = replicate 16 0.
Proof.
  assert (Hq : Forall Quiet.key (keys Demo.blue_pad)).
  { change (keys Demo.blue_pad)
      with (Led.lights (0, 0, 255) <$> keys Demo.fresh_pad).
    apply Forall_fmap, Forall_fmap, Forall_forall. intros i _. repeat split. }
  destruct (update_without_press Demo.toggling 254 255 (Demo.at_time 3)
              Demo.blue_pad blue_pad_ok eq_refl Hq)
    as (kp' & E & _ & _ & _ & Hs & Hg & _).
  exists kp'. split; [exact E|]. split; [rewrite Hs; reflexivity|].
  rewrite Hg. reflexivity.
Defined.

End CycleFacts.

(** ** Dispatch without a handler *)

Section MissingHandlerFacts.

Import Machine Run.

Variable call : Key.handler_env.

(** The exception a dispatch raises on a table without handler for the
    mode: [KeyError] from the subscript when the mode has no entry,
    [TypeError] from the call when the entry is [None]. *)
Lemma invoke_missing (mk_ : callable -> event)
    (d : gmap string (option callable)) (k : Key.t) (px : Pixels)
    (log : list event) :
  callee (Some d) (Key.board_state k) = None ->
  Key.invoke call mk_ d (k, px, log)
  = Raise (match d !! Key.board_state k with
           | None => KeyError
           | Some _ => TypeError
           end).
Proof.
  unfold callee, Key.invoke.
  destruct (d !! Key.board_state k) as [[f|]|]; [discriminate| |];
    reflexivity.
Qed.

(** A key whose press table has no handler for the key's mode raises
    at the first cycle in which it reads pressed outside the debounce
    window with no press call pending: [TypeError] when the entry for
    the mode is [None] (as the constructor leaves it), [KeyError] when
    the mode has no entry. *)
Theorem press_without_handler_raises (k : Key.t) (px : Pixels)
    (log : list event) (c : cycle) (d : gmap string (option callable)) :
  Key.press_functions k = Some d ->
  callee (Some d) (Key.board_state k) = None ->
  is_pressed c ->
  Key.press_func_fired k = false ->
  unlocked (Key.debounce k) (Key.time_of_last_press k) c = true ->
  poll call c (k, px, log)
  = Raise (match d !! Key.board_state k with
           | None => KeyError
           | Some _ => TypeError
           end).
Proof.
  intros Hd Hnone Hc Hfired Hunl. unfold poll, Key.update.
  set (ks := Key.sample (t0 c) (Key.with_current_state (reading c) k)).
  assert (E : Key.press_phase call (ks, px, log)
              = Raise (match d !! Key.board_state k with
                       | None => KeyError
                       | Some _ => TypeError
                       end)).
  { unfold Key.press_phase.
    change (Key.press_functions ks) with (Key.press_functions k).
    rewrite Hd.
    change (Key.pressed ks) with (reading c).
    change (Key.press_func_fired ks) with (Key.press_func_fired k).
    change (Key.key_locked ks)
      with (Fltb (t0 c - Key.time_of_last_press k) (Key.debounce k)).
    rewrite unlocked_eq in Hunl. rewrite Hc, Hfired, Hunl.
    cbn [andb negb].
    assert (Hm : callee (Some d) (Key.board_state ks) = None) by exact Hnone.
    rewrite (invoke_missing PressCall d ks px log Hm). reflexivity. }
  rewrite E. reflexivity.
Qed.

(** A key whose release table has no handler for the key's mode raises
    at the cycle in which it reads released after having been pressed,
    in the same way. *)
Theorem release_without_handler_raises (k : Key.t) (px : Pixels)
    (log : list event) (c : cycle) (d : gmap string (option callable)) :
  Key.release_functions k = Some d ->
  callee (Some d) (Key.board_state k) = None ->
  is_released c ->
  truthy_opt (Key.last_state k) = true ->
  poll call c (k, px, log)
  = Raise (match d !! Key.board_state k with
           | None => KeyError
           | Some _ => TypeError
           end).
Proof.
  intros Hd Hnone Hc Hlast. unfold poll, Key.update.
  set (ks := Key.sample (t0 c) (Key.with_current_state (reading c) k)).
  assert (Hp : truthy (Key.pressed ks) = false) by exact Hc.
  assert (E1 : Key.press_phase call (ks, px, log) = Ok (ks, px, log)).
  { unfold Key.press_phase. rewrite Hp.
    destruct (Key.press_functions ks); reflexivity. }
  rewrite E1. cbn [mbind Res_bind].
  assert (E2 : Key.release_phase call (ks, px, log)
               = Raise (match d !! Key.board_state k with
                        | None => KeyError
                        | Some _ => TypeError
                        end)).
  { unfold Key.release_phase. rewrite Hp.
    change (Key.last_state ks) with (Key.last_state k). rewrite Hlast.
    cbn [andb negb].
    change (Key.release_functions ks) with (Key.release_functions k).
    rewrite Hd.
    assert (Hm : callee (Some d) (Key.board_state ks) = None) by exact Hnone.
    rewrite (invoke_missing ReleaseCall d ks px log Hm). reflexivity. }
  rewrite E2. reflexivity.
Qed.

End MissingHandlerFacts.

Lemma press_without_handler_raises_witness :
  Run.poll Demo.quiet (Demo.at_ 1 1)
    (Demo.fresh_key 0 0 0, Demo.dark_strip, []) = Raise TypeError /\
  Run.poll Demo.quiet (Demo.at_ 1 1)
    (Key.with_board_state "menu" (Demo.fresh_key 0 0 0), Demo.dark_strip, [])
  = Raise KeyError.
Proof.
  split.
  - refine (eq_trans
              (press_without_handler_raises Demo.quiet (Demo.fresh_key 0 0 0)
                 Demo.dark_strip [] (Demo.at_ 1 1)
                 {[ "default"%string := None ]} _ _ _ _ _) _);
      [reflexivity | reflexivity | reflexivity | reflexivity | reflexivity
      | vm_compute; reflexivity].
  - refine (eq_trans
              (press_without_handler_raises Demo.quiet
                 (Key.with_board_state "menu" (Demo.fresh_key 0 0 0))
                 Demo.dark_strip [] (Demo.at_ 1 1)
                 {[ "default"%string := None ]} _ _ _ _ _) _);
      [reflexivity | reflexivity | reflexivity | reflexivity | reflexivity
      | vm_compute; reflexivity].
Defined.

Lemma release_without_handler_raises_witness :
  Run.poll Demo.quiet (Demo.at_ 0 2)
    (Key.with_last_state (Some true) Demo.press_only_key, Demo.dark_strip, [])
  = Raise TypeError.
Proof.
  refine (eq_trans
            (release_without_handler_raises Demo.quiet
               (Key.with_last_state (Some true) Demo.press_only_key)
               Demo.dark_strip [] (Demo.at_ 0 2)
               {[ "default"%string := None ]} _ _ _ _) _);
    [reflexivity | reflexivity | reflexivity | reflexivity
    | vm_compute; reflexivity].
Defined.
